(** * MiniAGI agent loop: a shallow embedding of [miniagi.py]

    The script is one [while True] loop around a language model.  Every
    iteration builds a context, asks the model for the next action, parses
    the answer, possibly asks the user, runs one of the command handlers and
    writes the outcome to the agent's memory.

    The embedding follows the loop (lines 155-303) and [update_memory]
    (lines 94-111) statement by statement; the start-up code before the loop
    (argument count, size limits, working directory; lines 114-153) is the
    function [startup] over its own environment [Env]; the [Spinner] is
    left out.
    - Python strings are [string]s, lists are [list]s;
    - Python exceptions are values of [Exn]; a computation either returns,
      raises, or reaches a [continue] statement ([Res]);
    - the loop variables that survive an iteration are the fields of
      [State], threaded through a small state-and-exception monad [M];
    - everything the script does not define itself (the model, the
      summarizer, the user, the command back ends, the platform) is a field
      of [World], and every call to it is logged in the state's [trace]. *)

From Stdlib Require Import String Ascii List Bool Arith ZArith Lia.
Import ListNotations.
Local Open Scope list_scope.
Local Open Scope string_scope.

(** ** Python string operations used by the script *)

Module PyStr.

Definition LF : ascii := ascii_of_nat 10.
Definition nl : string := String LF EmptyString.
Definition dquote : string := String (ascii_of_nat 34) EmptyString.
Definition backslash : string := String (ascii_of_nat 92) EmptyString.

(** [s.split(sep)] for a one-character separator: always at least one
    piece. *)
Fixpoint split (sep : ascii) (s : string) : list string :=
  match s with
  | EmptyString => [EmptyString]
  | String ch s' =>
      if Ascii.eqb ch sep then EmptyString :: split sep s'
      else match split sep s' with
           | [] => [String ch EmptyString]
           | piece :: pieces => String ch piece :: pieces
           end
  end.

(** [sep.join(pieces)] *)
Definition join (sep : string) (pieces : list string) : string :=
  String.concat sep pieces.

(** [sub in s] *)
Fixpoint contains (sub s : string) : bool :=
  String.prefix sub s ||
  match s with
  | EmptyString => false
  | String _ s' => contains sub s'
  end.

(** [s.replace(old, new)] for a non-empty [old]: occurrences are replaced
    left to right without overlap.  [skip] counts the characters of an
    occurrence that are still to be passed over. *)
Fixpoint replace_from (skip : nat) (old new s : string) : string :=
  match s with
  | EmptyString => EmptyString
  | String ch s' =>
      match skip with
      | S k => replace_from k old new s'
      | O =>
          if String.prefix old s
          then new ++ replace_from (String.length old - 1) old new s'
          else String ch (replace_from 0 old new s')
      end
  end.

Definition replace (old new s : string) : string := replace_from 0 old new s.

(** [s[:n]] *)
Definition slice_to (n : nat) (s : string) : string := String.substring 0 n s.

(** [xs[:-1]] *)
Definition all_but_last {A} (xs : list A) : list A := List.removelast xs.

End PyStr.

(** ** The regular expression [<(r|c)>(.*?)</(r|c)>] and [re.findall] *)

Module Re.

Import PyStr.

(** A match of the pattern, as [re.findall] reports it: the tuple of the
    three groups.  Index 1 of the tuple is the text between the tags. *)
Definition groups : Type := (string * string * string)%type.

Definition item1 (m : groups) : string := snd (fst m).

(** The tail [(.*?)</(r|c)>] of the pattern, tried at the start of [s]:
    the lazy star takes the fewest characters other than a line feed that
    let a closing tag follow.  Returns group 2, group 3 and the number of
    characters consumed. *)
Fixpoint lazy_body (s : string) : option (string * string * nat) :=
  if String.prefix "</r>" s then Some (EmptyString, "r", 4)
  else if String.prefix "</c>" s then Some (EmptyString, "c", 4)
  else match s with
       | EmptyString => None
       | String ch s' =>
           if Ascii.eqb ch LF then None
           else match lazy_body s' with
                | Some (body, t, n) => Some (String ch body, t, S n)
                | None => None
                end
       end.

Definition drop (n : nat) (s : string) : string :=
  String.substring n (String.length s - n) s.

(** The whole pattern tried at the start of [s]. *)
Definition match_here (s : string) : option (groups * nat) :=
  let opening :=
    if String.prefix "<r>" s then Some "r"
    else if String.prefix "<c>" s then Some "c"
    else None in
  match opening with
  | None => None
  | Some t1 =>
      match lazy_body (drop 3 s) with
      | Some (body, t3, n) => Some ((t1, body, t3), 3 + n)
      | None => None
      end
  end.

(** [re.findall]: scan left to right; after a match the scan resumes
    behind it, otherwise one character further.  [skip] counts the
    characters of the last match still to be passed over. *)
Fixpoint findall_from (skip : nat) (s : string) : list groups :=
  match skip with
  | S k =>
      match s with
      | EmptyString => []
      | String _ s' => findall_from k s'
      end
  | O =>
      match match_here s with
      | Some (m, n) =>
          m :: match s with
               | EmptyString => []
               | String _ s' => findall_from (n - 1) s'
               end
      | None =>
          match s with
          | EmptyString => []
          | String _ s' => findall_from 0 s'
          end
      end
  end.

Definition findall_PATTERN (s : string) : list groups := findall_from 0 s.

End Re.

Import PyStr Re.

(** ** Python values, exceptions and the outside world *)

(** One entry of the list [ddg] returns (a dict with these three keys). *)
Record SearchResult := mkSearchResult {
  title : string;
  href : string;
  body : string
}.

(** The values the variable [observation] can hold: a [str] everywhere
    except in the [web_search] branch, where it receives what [ddg]
    returned, a list of results or [None]. *)
Inductive PyVal :=
| VStr (s : string)
| VNone
| VList (results : list SearchResult).

Inductive ExnClass :=
| IndexError
| TypeError
| InvalidRequestError   (* openai.error.InvalidRequestError *)
| OtherError.           (* any other subclass of Exception *)

(** [SystemExit] derives from [BaseException] only, so [except Exception]
    lets it pass. *)
Inductive Exn :=
| SystemExit (code : Z)
| PyException (cls : ExnClass) (msg : string).

Definition is_Exception (e : Exn) : bool :=
  match e with
  | SystemExit _ => false
  | PyException _ _ => true
  end.

Definition is_InvalidRequestError (e : Exn) : bool :=
  match e with
  | PyException InvalidRequestError _ => true
  | _ => false
  end.

(** [str(e)] *)
Definition str (e : Exn) : string :=
  match e with
  | SystemExit _ => "0"
  | PyException _ msg => msg
  end.

Inductive Result (A : Type) :=
| Ok (a : A)
| Err (e : Exn).
Arguments Ok {A} a.
Arguments Err {A} e.

(** A [ThinkGPT] object as far as the script sees it: the model it talks
    to and the entries handed to [memorize], oldest first. *)
Record Agent := mkAgent {
  model_name : string;
  memory : list string
}.

(** [_agent.memorize(entry)] *)
Definition memorize (a : Agent) (entry : string) : Agent :=
  {| model_name := model_name a; memory := (memory a ++ [entry])%list |}.

(** Everything the script calls but does not define.  A call that can
    raise returns a [Result].  The command back ends are taken to leave the
    variables of the script alone.  [input], [agent.remember],
    [agent.memorize], the constructor and the console are taken to return:
    a run in which one of them raises (a closed standard input, say) is
    outside this embedding. *)
Record World := mkWorld {
  operating_system : string;                          (* platform.platform() *)
  new_ThinkGPT : string -> Agent;                     (* ThinkGPT(model_name=..) *)
  remember : Agent -> nat -> bool -> Z -> list string;  (* agent.remember *)
  predict : Agent -> string -> Result string;         (* agent.predict *)
  summarize : string -> Z -> string -> Result string; (* summarizer.summarize *)
  chunked_summarize : string -> Z -> string -> Result string;
  input : string -> string;                           (* input(prompt) *)
  exec : string -> Result string;                     (* exec under redirect_stdout *)
  subprocess_run : string -> Result (string * string);  (* decoded stdout, stderr *)
  ddg : string -> nat -> Result (option (list SearchResult));
  urlopen_read : string -> Result string;
  get_text : string -> Result string;                 (* BeautifulSoup(..).get_text() *)
  open_read : string -> Result string;                (* open(arg).read() *)
  repr_results : list SearchResult -> string          (* str() of a result list *)
}.

(** [get_bool] (lines 32-38), given the value [os.getenv] returned. *)
Definition get_bool (value : option string) : bool :=
  match value with
  | Some v => existsb (String.eqb v) ["true"; "1"; "t"; "y"; "yes"]
  | None => false
  end.

(** What the script reads from the environment and the command line before
    the loop: the three flags (each a [get_bool]), the model name, the
    objective and the two size limits. *)
Record Config := mkConfig {
  DEBUG : bool;
  ENABLE_CRITIC : bool;
  PROMPT_USER : bool;
  MODEL : string;
  objective : string;
  max_context_size : Z;
  max_memory_item_size : Z
}.

(** Calls to the outside and console output, in the order they happen. *)
Inductive Event :=
| Stdout (text : string)
| StdoutColored (text color : string)
| Input (prompt reply : string)
| Predict (model prompt : string)
| Summarize (text : string)
| Memorize (entry : string)
| Exec (code : string)
| Shell (command_line : string)
| WebSearch (query : string)
| Urlopen (url : string)
| ChunkedSummarize (content : string)
| OpenFile (path : string).

(** The variables of the script that live across iterations. *)
Record State := mkState {
  agent : Agent;
  thought : string;
  observation : PyVal;
  summarized_history : string;
  res_line : list string;
  trace : list Event
}.

(** ** A state and exception monad with [continue] *)

Inductive Res (A : Type) :=
| Normal (a : A)
| Raised (e : Exn)
| Continue.
Arguments Normal {A} a.
Arguments Raised {A} e.
Arguments Continue {A}.

Definition M (A : Type) : Type := State -> Res A * State.

Definition ret {A} (a : A) : M A := fun st => (Normal a, st).

Definition bind {A B} (c : M A) (k : A -> M B) : M B :=
  fun st =>
    match c st with
    | (Normal a, st') => k a st'
    | (Raised e, st') => (Raised e, st')
    | (Continue, st') => (Continue, st')
    end.

Definition raise {A} (e : Exn) : M A := fun st => (Raised e, st).
Definition continue {A} : M A := fun st => (Continue, st).
Definition sys_exit {A} (code : Z) : M A := raise (SystemExit code).

(** [try: body except <catches> as e: handler e] *)
Definition try_except {A} (body : M A) (catches : Exn -> bool)
    (handler : Exn -> M A) : M A :=
  fun st =>
    match body st with
    | (Raised e, st') => if catches e then handler e st' else (Raised e, st')
    | r => r
    end.

Declare Scope py_scope.
Delimit Scope py_scope with py.
Notation "x <- c ;; k" := (bind c (fun x => k))
  (at level 61, c at next level, right associativity) : py_scope.
Notation "' pat <- c ;; k" := (bind c (fun x => match x with pat => k end))
  (at level 61, pat pattern, c at next level, right associativity) : py_scope.
Notation "c ;; k" := (bind c (fun _ => k))
  (at level 61, right associativity) : py_scope.
Local Open Scope py_scope.

Definition when (b : bool) (c : M unit) : M unit := if b then c else ret tt.

Definition get {A} (field : State -> A) : M A := fun st => (Normal (field st), st).

(** Assignments to the loop variables, and appending to the trace. *)
Definition with_agent (a : Agent) (st : State) : State :=
  {| agent := a; thought := thought st; observation := observation st;
     summarized_history := summarized_history st; res_line := res_line st;
     trace := trace st |}.

Definition with_thought (t : string) (st : State) : State :=
  {| agent := agent st; thought := t; observation := observation st;
     summarized_history := summarized_history st; res_line := res_line st;
     trace := trace st |}.

Definition with_observation (o : PyVal) (st : State) : State :=
  {| agent := agent st; thought := thought st; observation := o;
     summarized_history := summarized_history st; res_line := res_line st;
     trace := trace st |}.

Definition with_res_line (l : list string) (st : State) : State :=
  {| agent := agent st; thought := thought st; observation := observation st;
     summarized_history := summarized_history st; res_line := l;
     trace := trace st |}.

Definition logged (evs : list Event) (st : State) : State :=
  {| agent := agent st; thought := thought st; observation := observation st;
     summarized_history := summarized_history st; res_line := res_line st;
     trace := (trace st ++ evs)%list |}.

Definition emit (ev : Event) : M unit := fun st => (Normal tt, logged [ev] st).
Definition set_agent (a : Agent) : M unit :=
  fun st => (Normal tt, with_agent a st).
Definition set_thought (t : string) : M unit :=
  fun st => (Normal tt, with_thought t st).
Definition set_observation (o : PyVal) : M unit :=
  fun st => (Normal tt, with_observation o st).
Definition set_res_line (l : list string) : M unit :=
  fun st => (Normal tt, with_res_line l st).

Definition print (text : string) : M unit := emit (Stdout text).
Definition print_colored (text color : string) : M unit :=
  emit (StdoutColored text color).

(** A call that may raise. *)
Definition lift {A} (r : Result A) : M A :=
  match r with
  | Ok a => ret a
  | Err e => raise e
  end.

(** [xs[i]] *)
Definition getitem {A} (xs : list A) (i : nat) : M A :=
  match nth_error xs i with
  | Some x => ret x
  | None => raise (PyException IndexError "list index out of range")
  end.

(** [xs[-1]] *)
Definition getitem_last {A} (xs : list A) : M A :=
  match rev xs with
  | x :: _ => ret x
  | [] => raise (PyException IndexError "list index out of range")
  end.

(** [format(v)] inside an f-string, and [str(v)] in [print(v)] *)
Definition py_str (w : World) (v : PyVal) : string :=
  match v with
  | VStr s => s
  | VNone => "None"
  | VList rs => repr_results w rs
  end.

(** The [TypeError] of [str + v] for a [v] that is not a [str]. *)
Definition concat_error (type_name : string) : Exn :=
  PyException TypeError
    ("can only concatenate str (not " ++ dquote ++ type_name ++ dquote
     ++ ") to str").

(** [left + v] for a [str] on the left *)
Definition str_add (left : string) (v : PyVal) : M string :=
  match v with
  | VStr s => ret (left ++ s)
  | VNone => raise (concat_error "NoneType")
  | VList _ => raise (concat_error "list")
  end.

(** ** The script *)

Definition SUMMARY_HINT : string :=
  "Do your best to retain information necessary for the agent to perform its task.".

(** [EXTRA_SUMMARY_HINT.format(summarizer_hint=hint)] *)
Definition EXTRA_SUMMARY_HINT_format (hint : string) : string :=
  "If the text contains information related to the topic: '" ++ hint ++ "'"
  ++ "then include it. If not, write a standard summary.".

Definition UPDATE_HINT : string :=
  "Generate a new summary given the previous summary"
  ++ "of the agent's history and its last action. Be concise, use abbreviations.".

Definition PARSE_ERROR_OBSERVATION : string :=
  "This command was formatted"
  ++ " incorrectly. Use the correct syntax using the <r> and <c> tags.".

Definition DECLINED_OBSERVATION : string :=
  "The user responded with: {user_input}" ++ nl
  ++ "Take this comment into consideration.".

(** [f"ACTION\n{_action}\nRESULT:\n{_observation}\n"], given the text
    [format] makes of the observation *)
Definition new_memory_text (_action _observation : string) : string :=
  "ACTION" ++ nl ++ _action ++ nl ++ "RESULT:" ++ nl ++ _observation ++ nl.

Definition GATE_PROMPT : string :=
  "Press enter to perform this action or abort by typing feedback: ".

Section Script.

Variable cfg : Config.
Variable w : World.

(** [PROMPT.format(context=context, objective=objective)] *)
Definition PROMPT_format (context objective : string) : string :=
  join nl
    [ "You are an autonomous agent running on " ++ operating_system w ++ ".";
      "OBJECTIVE: " ++ objective ++ " (e.g. " ++ dquote
        ++ "Find a recipe for chocolate chip cookies" ++ dquote ++ ")";
      EmptyString;
      "You are working towards the objective on a step-by-step basis. Previous steps:";
      EmptyString;
      context;
      EmptyString;
      "Your task is to respond with the next action.";
      "Supported commands are: execute_python, execute_shell, read_file, web_search, web_scrape, talk_to_user, or done";
      "The mandatory action format is:";
      EmptyString;
      "<r>[YOUR_REASONING]</r><c>[COMMAND]</c>";
      "[ARGUMENT]";
      EmptyString;
      "ARGUMENT may have multiple lines if the argument is Python code.";
      "Use only non-interactive shell commands.";
      "web_scrape argument must be a single URL.";
      "Python code run with execute_python must end with an output " ++ dquote
        ++ "print" ++ dquote ++ " statement and should be well-commented.";
      "Send the " ++ dquote ++ "done" ++ dquote
        ++ " command if the objective was achieved in a previous command or if no further action is required.";
      "RESPOND WITH PRECISELY ONE THOUGHT/COMMAND/ARG COMBINATION.";
      "DO NOT CHAIN MULTIPLE COMMANDS.";
      "DO NOT INCLUDE EXTRA TEXT BEFORE OR AFTER THE COMMAND.";
      "DO NOT REPEAT PREVIOUSLY EXECUTED COMMANDS.";
      EmptyString;
      "Example actions:";
      EmptyString;
      "<r>Search for websites relevant to chocolate chip cookies recipe.</r><c>web_search</c>";
      "chocolate chip cookies recipe";
      EmptyString;
      "<r>Scrape information about chocolate chip cookies from the given URL.</r><c>web_scrape</c>";
      "https://example.com/chocolate-chip-cookies";
      EmptyString;
      "<r>I need to ask the user for guidance.</r><c>talk_to_user</c>";
      "What is the URL of a website with chocolate chip cookies recipes?";
      EmptyString;
      "<r>Write 'Hello, world!' to file</r><c>execute_python</c>";
      "# Opening file in write mode and writing 'Hello, world!' into it";
      "with open('hello_world.txt', 'w') as f:";
      "    f.write('Hello, world!')";
      EmptyString;
      "<r>The objective is complete.</r><c>done</c>";
      EmptyString ].

(** *** Calls to the outside, each one logged *)

Definition call_predict (prompt : string) : M string :=
  a <- get agent ;;
  emit (Predict (model_name a) prompt) ;;
  lift (predict w a prompt).

Definition call_summarize (text : string) (max_tokens : Z) (hint : string)
    : M string :=
  emit (Summarize text) ;;
  lift (summarize w text max_tokens hint).

Definition call_chunked_summarize (content : string) (max_tokens : Z)
    (hint : string) : M string :=
  emit (ChunkedSummarize content) ;;
  lift (chunked_summarize w content max_tokens hint).

Definition call_memorize (entry : string) : M unit :=
  a <- get agent ;;
  emit (Memorize entry) ;;
  set_agent (memorize a entry).

Definition call_input (prompt : string) : M string :=
  let reply := input w prompt in
  emit (Input prompt reply) ;;
  ret reply.

Definition call_exec (code : string) : M string :=
  emit (Exec code) ;; lift (exec w code).

Definition call_subprocess_run (command_line : string) : M (string * string) :=
  emit (Shell command_line) ;; lift (subprocess_run w command_line).

Definition call_ddg (query : string) (max_results : nat) : M PyVal :=
  emit (WebSearch query) ;;
  r <- lift (ddg w query max_results) ;;
  ret (match r with Some rs => VList rs | None => VNone end).

Definition call_urlopen (url : string) : M string :=
  emit (Urlopen url) ;; lift (urlopen_read w url).

Definition call_open (path : string) : M string :=
  emit (OpenFile path) ;; lift (open_read w path).

(** *** [update_memory] (lines 94-111)

    [_agent] is always the global [agent]; [memorize] changes that object,
    which here is the agent of the state. *)
Definition update_memory (_action : string) (_observation : PyVal)
    (previous_summary : string) : M string :=
  let new_memory := new_memory_text _action (py_str w _observation) in
  new_summary <-
    call_summarize (previous_summary ++ nl ++ new_memory)
      (max_memory_item_size cfg) UPDATE_HINT ;;
  call_memorize new_memory ;;
  ret new_summary.

(** *** Parsing the response (lines 190-215)

    Returns [command] and [arg]; [thought] is assigned in the state. *)
Definition parse_response (res_lines : list string) : M (string * string) :=
  try_except
    (line0 <- getitem res_lines 0 ;;
     let matches := findall_PATTERN line0 in
     m0 <- getitem matches 0 ;;
     set_thought (item1 m0) ;;
     m1 <- getitem matches 1 ;;
     let command := item1 m1 in
     (if String.eqb command "done" then
        t <- get thought ;;
        print_colored ("The agent concluded: " ++ t) "cyan" ;;
        sys_exit 0
      else ret tt) ;;
     last_line <- getitem_last res_lines ;;
     (if contains "done" last_line
      then set_res_line (all_but_last res_lines)
      else ret tt) ;;
     let arg := join nl (List.tl res_lines) in
     let arg := replace "```" EmptyString arg in
     ret (command, arg))
    is_Exception
    (fun e =>
       print_colored ("Unable to parse response. Retrying..." ++ nl) "red" ;;
       set_observation (VStr PARSE_ERROR_OBSERVATION) ;;
       line0 <- getitem res_lines 0 ;;
       obs <- get observation ;;
       sh <- get summarized_history ;;
       _ <- update_memory line0 obs sh ;;
       continue).

(** *** Command dispatch (lines 239-303) *)
Definition run_command (command arg : string) : M unit :=
  if String.eqb command "execute_python" then
    _stdout <- call_exec arg ;;
    set_observation (VStr _stdout)
  else if String.eqb command "execute_shell" then
    ' (stdout, stderr) <- call_subprocess_run arg ;;
    when (Nat.ltb 0 (String.length stderr))
      (print_colored ("Execution error: " ++ stderr) "red") ;;
    set_observation
      (VStr ("STDOUT:" ++ nl ++ stdout ++ nl ++ "STDERR:" ++ nl ++ stderr))
  else if String.eqb command "web_search" then
    print "SEARCH WEB" ;;
    r <- call_ddg arg 5 ;;
    set_observation r ;;
    print (py_str w r) ;;
    when (match r with VNone => true | _ => false end) (print "SEARCH FAILED")
  else if String.eqb command "web_scrape" then
    html <- call_urlopen arg ;;
    text <- lift (get_text w html) ;;
    response_text <-
      call_chunked_summarize text (max_memory_item_size cfg)
        (SUMMARY_HINT ++ EXTRA_SUMMARY_HINT_format (objective cfg)) ;;
    set_observation (VStr response_text)
  else if String.eqb command "read_file" then
    content <- call_open arg ;;
    file_content <-
      call_chunked_summarize content (max_memory_item_size cfg)
        (SUMMARY_HINT ++ EXTRA_SUMMARY_HINT_format (objective cfg)) ;;
    set_observation (VStr file_content)
  else if String.eqb command "done" then
    print "Objective achieved." ;;
    sys_exit 0
  else ret tt.

Definition dispatch (command arg action : string) : M unit :=
  try_except
    (run_command command arg ;;
     obs <- get observation ;;
     line <- str_add "OBSERVATION: " obs ;;
     print line ;;
     sh <- get summarized_history ;;
     _ <- update_memory action obs sh ;;
     ret tt)
    is_Exception
    (fun e =>
       when (contains "context length" (str e))
         (print_colored
            (str e ++ nl
             ++ "Try decreasing MAX_CONTEXT_SIZE, MAX_MEMORY_ITEM_SIZE"
             ++ " and SUMMARIZER_CHUNK_SIZE.") "red") ;;
       print_colored ("Execution error: " ++ str e) "red" ;;
       set_observation
         (VStr ("The command returned an error:" ++ nl ++ str e ++ nl)) ;;
       obs <- get observation ;;
       sh <- get summarized_history ;;
       _ <- update_memory action obs sh ;;
       ret tt).

(** [_arg] of line 217 *)
Definition abbreviate (arg : string) : string :=
  if Nat.ltb (String.length arg) 64
  then replace nl (backslash ++ "n") arg
  else replace nl (backslash ++ "n") (slice_to 64 arg ++ "...").

Definition render_action (thought command arg : string) : string :=
  thought ++ nl ++ "Cmd: " ++ command ++ ", Arg: " ++ dquote ++ arg ++ dquote.

(** *** Asking the model (lines 157-186) *)
Definition build_context : M string :=
  a <- get agent ;;
  let action_buffer :=
    join nl (remember w a 32 true (max_context_size cfg)) in
  sh <- get summarized_history ;;
  ret ("HISTORY" ++ nl ++ sh ++ nl ++ "PREV ACTIONS:" ++ nl ++ action_buffer).

Definition query_model (context : string) : M string :=
  try_except
    (call_predict (PROMPT_format context (objective cfg)))
    is_InvalidRequestError
    (fun e =>
       if contains "gpt-4" (str e) then
         print "Prompting the gpt-4 model failed. Falling back to gpt-3.5-turbo" ;;
         set_agent (new_ThinkGPT w "gpt-3.5-turbo") ;;
         continue
       else
         print ("Error accessing the OpenAI API: " ++ str e) ;;
         sys_exit 0).

(** *** What follows a parsed action (lines 217-303) *)
Definition act (command arg : string) : M unit :=
  t <- get thought ;;
  let _arg := abbreviate arg in
  let action := render_action t command arg in
  let abbreviated_action := render_action t command _arg in
  if String.eqb command "talk_to_user" then
    print_colored ("MiniAGI: " ++ arg) "cyan" ;;
    user_input <- call_input "Your response: " ;;
    set_observation (VStr ("The user responded with: " ++ user_input ++ ".")) ;;
    obs <- get observation ;;
    sh <- get summarized_history ;;
    _ <- update_memory abbreviated_action obs sh ;;
    continue
  else
    print_colored ("MiniAGI: " ++ abbreviated_action) "cyan" ;;
    (if PROMPT_USER cfg then
       user_input <- call_input GATE_PROMPT ;;
       if Nat.ltb 0 (String.length user_input) then
         set_observation (VStr DECLINED_OBSERVATION) ;;
         obs <- get observation ;;
         sh <- get summarized_history ;;
         _ <- update_memory abbreviated_action obs sh ;;
         continue
       else ret tt
     else ret tt) ;;
    dispatch command arg action.

(** *** One pass through the body of [while True] (lines 157-303) *)
Definition iteration : M unit :=
  context <- build_context ;;
  when (DEBUG cfg) (print ("CONTEXT:" ++ nl ++ context)) ;;
  response_text <- query_model context ;;
  when (DEBUG cfg) (print ("RAW RESPONSE:" ++ nl ++ response_text)) ;;
  let res_lines := split LF response_text in
  ' (command, arg) <- parse_response res_lines ;;
  act command arg.

End Script.

(** The state when the loop is entered (lines 116-138). *)
Definition initial_state (cfg : Config) (w : World) : State :=
  {| agent := new_ThinkGPT w (MODEL cfg);
     thought := EmptyString;
     observation := VStr EmptyString;
     summarized_history := EmptyString;
     res_line := [];
     trace := [] |}.

(** [while True]: the loop ends only when an exception leaves the body.
    [worlds i] answers the calls of pass [i].  [None] means the loop is
    still running after [fuel] passes. *)
Fixpoint loop (cfg : Config) (worlds : nat -> World) (i fuel : nat)
    (st : State) : option Exn * State :=
  match fuel with
  | O => (None, st)
  | S fuel' =>
      match iteration cfg (worlds i) st with
      | (Raised e, st') => (Some e, st')
      | (_, st') => loop cfg worlds (S i) fuel' st'
      end
  end.

(** ** Vocabulary for the statements *)

(** The context of line 165 and the prompt of line 174, as functions of the
    state at the start of a pass. *)
Definition context_of (cfg : Config) (w : World) (st : State) : string :=
  "HISTORY" ++ nl ++ summarized_history st ++ nl ++ "PREV ACTIONS:" ++ nl
  ++ join nl (remember w (agent st) 32 true (max_context_size cfg)).

Definition prompt_of (cfg : Config) (w : World) (st : State) : string :=
  PROMPT_format w (context_of cfg w st) (objective cfg).

(** The state after [if DEBUG: print(text)]. *)
Definition debug_logged (cfg : Config) (text : string) (st : State) : State :=
  if DEBUG cfg then logged [Stdout text] st else st.

(** The state once the request has been sent (line 173). *)
Definition asking (cfg : Config) (w : World) (st : State) : State :=
  logged [Predict (model_name (agent st)) (prompt_of cfg w st)]
    (debug_logged cfg ("CONTEXT:" ++ nl ++ context_of cfg w st) st).

(** The state once the model has answered [text] (line 186). *)
Definition answered (cfg : Config) (w : World) (st : State) (text : string)
    : State :=
  debug_logged cfg ("RAW RESPONSE:" ++ nl ++ text) (asking cfg w st).

(** The first line of a response, [res_lines[0]]. *)
Definition first_line (text : string) : string :=
  List.hd EmptyString (split LF text).

(** The seven commands of the prompt. *)
Definition KNOWN_COMMANDS : list string :=
  [ "execute_python"; "execute_shell"; "read_file"; "web_search";
    "web_scrape"; "talk_to_user"; "done" ].

(** Events that run a command handler, and events of [update_memory]. *)
Definition is_handler_call (ev : Event) : bool :=
  match ev with
  | Exec _ | Shell _ | WebSearch _ | Urlopen _ | ChunkedSummarize _
  | OpenFile _ => true
  | _ => false
  end.

Definition is_memory_call (ev : Event) : bool :=
  match ev with
  | Summarize _ | Memorize _ => true
  | _ => false
  end.

(** No handler was run, no call of [update_memory] was made. *)
Definition none_runs_handler (evs : list Event) : Prop :=
  existsb is_handler_call evs = false.

Definition none_updates_memory (evs : list Event) : Prop :=
  existsb is_memory_call evs = false.

(** The text handed to the summarizer by [update_memory action obs
    summarized_history], and the state after that call went through: the
    summarizer was asked, the entry memorized.  The summary it returned is
    not part of the state. *)
Definition summary_request (w : World) (_action : string) (obs : PyVal)
    (st : State) : string :=
  summarized_history st ++ nl ++ new_memory_text _action (py_str w obs).

Definition recorded (w : World) (_action : string) (obs : PyVal) (st : State)
    : State :=
  with_agent (memorize (agent st) (new_memory_text _action (py_str w obs)))
    (logged [Memorize (new_memory_text _action (py_str w obs))]
       (logged [Summarize (summary_request w _action obs st)] st)).

(** The state in which the handler of a parse failure calls
    [update_memory]. *)
Definition parse_failed (st : State) : State :=
  with_observation (VStr PARSE_ERROR_OBSERVATION)
    (logged [StdoutColored ("Unable to parse response. Retrying..." ++ nl) "red"]
       st).

(** The outcome of [update_memory(agent, action, obs, summarized_history)]
    called in state [st] with its result thrown away, when [next] is what
    follows the call: the entry is recorded if the summarizer answers, and
    the summarizer's exception leaves otherwise. *)
Definition update_outcome {A} (cfg : Config) (w : World) (_action : string)
    (obs : PyVal) (next : Res A) (st : State) : Res A * State :=
  match summarize w (summary_request w _action obs st)
          (max_memory_item_size cfg) UPDATE_HINT with
  | Ok _ => (next, recorded w _action obs st)
  | Err e => (Raised e, logged [Summarize (summary_request w _action obs st)] st)
  end.

(** The outcome of the handler of a parse failure entered in state [st]
    for a response whose first line is [line0]. *)
Definition parse_failure_outcome (cfg : Config) (w : World) (line0 : string)
    (st : State) : Res (string * string) * State :=
  update_outcome cfg w line0 (VStr PARSE_ERROR_OBSERVATION) Continue
    (parse_failed st).

(** The state after a successful parse: [thought] assigned, and
    [res_line] assigned when the last line contains [done]. *)
Definition parsed (reasoning : string) (res_lines : list string) (st : State)
    : State :=
  if contains "done" (List.last res_lines EmptyString)
  then with_res_line (all_but_last res_lines) (with_thought reasoning st)
  else with_thought reasoning st.

(** States on the way through lines 217-237. *)
Definition talking (w : World) (arg : string) (st : State) : State :=
  with_observation
    (VStr ("The user responded with: " ++ input w "Your response: " ++ "."))
    (logged [Input "Your response: " (input w "Your response: ")]
       (logged [StdoutColored ("MiniAGI: " ++ arg) "cyan"] st)).

Definition announced (command arg : string) (st : State) : State :=
  logged
    [StdoutColored
       ("MiniAGI: " ++ render_action (thought st) command (abbreviate arg))
       "cyan"] st.

Definition gated (cfg : Config) (w : World) (st : State) : State :=
  if PROMPT_USER cfg
  then logged [Input GATE_PROMPT (input w GATE_PROMPT)] st
  else st.

(** The user typed feedback at the confirmation gate. *)
Definition user_declines (cfg : Config) (w : World) : bool :=
  PROMPT_USER cfg && Nat.ltb 0 (String.length (input w GATE_PROMPT)).

(** The handler of lines 292-303, entered with exception [e] in state
    [st]. *)
Definition error_observation (e : Exn) : string :=
  "The command returned an error:" ++ nl ++ str e ++ nl.

Definition failed (e : Exn) (st : State) : State :=
  with_observation (VStr (error_observation e))
    (logged [StdoutColored ("Execution error: " ++ str e) "red"]
       (if contains "context length" (str e)
        then logged
               [StdoutColored
                  (str e ++ nl
                   ++ "Try decreasing MAX_CONTEXT_SIZE, MAX_MEMORY_ITEM_SIZE"
                   ++ " and SUMMARIZER_CHUNK_SIZE.") "red"] st
        else st)).

Definition execution_failure_outcome (cfg : Config) (w : World)
    (action : string) (e : Exn) (st : State) : Res unit * State :=
  update_outcome cfg w action (VStr (error_observation e)) (Normal tt)
    (failed e st).

(** [except Exception as e] around the dispatch. *)
Definition caught (cfg : Config) (w : World) (action : string) (e : Exn)
    (st : State) : Res unit * State :=
  if is_Exception e then execution_failure_outcome cfg w action e st
  else (Raised e, st).

(** The argument the parser extracts from a response (lines 205-208). *)
Definition argument_of (text : string) : string :=
  replace "```" EmptyString (join nl (List.tl (split LF text))).

(** What the summarizer is asked when [update_memory] is called with this
    action and this observation text while the summary is [summary]. *)
Definition summarizer_input (summary _action obs_text : string) : string :=
  summary ++ nl ++ new_memory_text _action obs_text.

(** The events of a pass up to the model's answer. *)
Definition debug_events (cfg : Config) (text : string) : list Event :=
  if DEBUG cfg then [Stdout text] else [].

Definition asking_events (cfg : Config) (w : World) (st : State)
    : list Event :=
  (debug_events cfg ("CONTEXT:" ++ nl ++ context_of cfg w st)
   ++ [Predict (model_name (agent st)) (prompt_of cfg w st)])%list.

Definition answered_events (cfg : Config) (w : World) (st : State)
    (text : string) : list Event :=
  (asking_events cfg w st
   ++ debug_events cfg ("RAW RESPONSE:" ++ nl ++ text))%list.

(** What [ddg] returned, as the value of [observation], and the name
    Python gives its type. *)
Definition search_value (r : option (list SearchResult)) : PyVal :=
  match r with
  | Some rs => VList rs
  | None => VNone
  end.

Definition search_type_name (r : option (list SearchResult)) : string :=
  match r with
  | Some _ => "list"
  | None => "NoneType"
  end.

(** The state at the end of the [web_search] branch (lines 255-259). *)
Definition searched (w : World) (arg : string)
    (r : option (list SearchResult)) (st : State) : State :=
  let st3 :=
    logged [Stdout (py_str w (search_value r))]
      (with_observation (search_value r)
         (logged [WebSearch arg] (logged [Stdout "SEARCH WEB"] st))) in
  match r with
  | None => logged [Stdout "SEARCH FAILED"] st3
  | Some _ => st3
  end.

(** The events of lines 228-231 for an action that is not declined. *)
Definition gate_events (cfg : Config) (w : World) : list Event :=
  if PROMPT_USER cfg then [Input GATE_PROMPT (input w GATE_PROMPT)] else [].

(** [after] is [before], possibly with one entry for [action] appended. *)
Definition appends_at_most (action : string) (before after : list string)
    : Prop :=
  after = before
  \/ exists obs_text, after = (before ++ [new_memory_text action obs_text])%list.

(** Text without the character [<]; text that moreover has no line feed. *)
Fixpoint no_open (s : string) : bool :=
  match s with
  | EmptyString => true
  | String ch s' => negb (Ascii.eqb ch "<") && no_open s'
  end.

Fixpoint plain (s : string) : bool :=
  match s with
  | EmptyString => true
  | String ch s' =>
      negb (Ascii.eqb ch "<") && negb (Ascii.eqb ch LF) && plain s'
  end.

Fixpoint no_newline (s : string) : bool :=
  match s with
  | EmptyString => true
  | String ch s' => negb (Ascii.eqb ch LF) && no_newline s'
  end.

Definition is_tag (t : string) : Prop := t = "r" \/ t = "c".

(** [<t1>text</t2>] *)
Definition tagged (t1 text t2 : string) : string :=
  "<" ++ t1 ++ ">" ++ text ++ "</" ++ t2 ++ ">".

(** ** A small world to run the script in

    The model answers [response] to every prompt, the user types [reply],
    the search returns [search], the summarizer returns ["S"]. *)
Module Demo.

Definition cfg (ask : bool) : Config :=
  {| DEBUG := false; ENABLE_CRITIC := false; PROMPT_USER := ask;
     MODEL := "gpt-4"; objective := "say hello";
     max_context_size := 4000; max_memory_item_size := 2000 |}.

Definition world (response : Result string) (reply : string)
    (search : Result (option (list SearchResult))) : World :=
  {| operating_system := "Linux";
     new_ThinkGPT := fun name => {| model_name := name; memory := [] |};
     remember := fun a _ _ _ => memory a;
     predict := fun _ _ => response;
     summarize := fun _ _ _ => Ok "S";
     chunked_summarize := fun text _ _ => Ok text;
     input := fun _ => reply;
     exec := fun _ => Ok "hello";
     subprocess_run := fun _ => Ok ("out", EmptyString);
     ddg := fun _ _ => search;
     urlopen_read := fun _ => Ok "<html>page</html>";
     get_text := fun _ => Ok "page";
     open_read := fun _ => Err (PyException OtherError "No such file");
     repr_results := fun _ => "[...]" |}.

(** A world in which the model answers [text]. *)
Definition answering (text : string) : World :=
  world (Ok text) EmptyString (Ok None).

Definition start (ask : bool) (w : World) : State := initial_state (cfg ask) w.

(** Responses used below. *)
Definition no_tags : string := "I will search the web for cookies.".

Definition shell_then_done : string :=
  "<r>list files</r><c>execute_shell</c>" ++ nl ++ "ls" ++ nl ++ "done".

Definition finished : string :=
  "<r>all good</r><c>done</c>" ++ nl ++ "Objective complete".


Definition search_cookies : string :=
  "<r>look it up</r><c>web_search</c>" ++ nl ++ "cookies".

Definition unknown_command : string :=
  "<r>take off</r><c>fly</c>" ++ nl ++ "to the moon".

Definition ask_user : string :=
  "<r>need help</r><c>talk_to_user</c>" ++ nl ++ "Which file?" ++ nl
  ++ "Which folder?".

End Demo.

(** A computation leaves the projection [f] of the state alone. *)
Definition preserves {A B} (f : State -> B) (c : M A) : Prop :=
  forall st, f (snd (c st)) = f st.

(** ** Vocabulary for further properties *)

(** The escape of a line feed on line 217: a backslash and the letter n. *)
Definition ESCAPED_NL : string := backslash ++ "n".

(** The code fence removed on line 208. *)
Definition FENCE : string := "```".
Definition BACKTICK : ascii := "`"%char.

(** [s] starts with a backtick. *)
Definition starts_with_backtick (s : string) : bool :=
  match s with
  | String ch _ => Ascii.eqb ch BACKTICK
  | EmptyString => false
  end.

(** A response in the format the prompt asks for (lines 57-58). *)
Definition formatted (reasoning command argument : string) : string :=
  tagged "r" reasoning "r" ++ tagged "c" command "c" ++ nl ++ argument.

(** The state in which the dispatch of lines 239-303 is entered for the
    action parsed from [text], and the events of the pass up to there. *)
Definition ready (cfg : Config) (w : World) (st : State)
    (text reasoning command : string) : State :=
  gated cfg w
    (announced command (argument_of text)
       (parsed reasoning (split LF text) (answered cfg w st text))).

Definition ready_events (cfg : Config) (w : World) (st : State)
    (text reasoning command : string) : list Event :=
  (answered_events cfg w st text
   ++ [StdoutColored
         ("MiniAGI: "
          ++ render_action reasoning command (abbreviate (argument_of text)))
         "cyan"]
   ++ gate_events cfg w)%list.

(** The events one pass adds to the trace. *)
Definition events_of_pass (cfg : Config) (w : World) (st : State)
    : list Event :=
  skipn (List.length (trace st)) (trace (snd (iteration cfg w st))).

(** The hint of lines 294-299. *)
Definition CONTEXT_LENGTH_HINT (e : Exn) : string :=
  str e ++ nl ++ "Try decreasing MAX_CONTEXT_SIZE, MAX_MEMORY_ITEM_SIZE"
  ++ " and SUMMARIZER_CHUNK_SIZE.".

(** Every state change appends events that satisfy [P]; earlier events
    stay. *)
Definition emits (P : Event -> Prop) {A} (c : M A) : Prop :=
  forall st, exists evs,
    trace (snd (c st)) = (trace st ++ evs)%list /\ Forall P evs.

(** The events of a handler: its own call, the chunked summarizer, and
    console output. *)
Definition handler_event (ev : Event) : Prop :=
  is_memory_call ev = false
  /\ match ev with Predict _ _ | Input _ _ => False | _ => True end.

Definition is_summarize (ev : Event) : bool :=
  match ev with
  | Summarize _ => true
  | _ => false
  end.

(** The observation of the [execute_shell] branch (line 253). *)
Definition shell_observation (out err : string) : string :=
  "STDOUT:" ++ nl ++ out ++ nl ++ "STDERR:" ++ nl ++ err.

(** The observation of the [talk_to_user] branch (line 224). *)
Definition reply_observation (reply : string) : string :=
  "The user responded with: " ++ reply ++ ".".

(** The observation is a [str]. *)
Definition is_str (v : PyVal) : bool :=
  match v with
  | VStr _ => true
  | _ => false
  end.

(** The pass takes the fallback of lines 178-181. *)
Definition falls_back (cfg : Config) (w : World) (st : State) : bool :=
  match predict w (agent st) (prompt_of cfg w st) with
  | Err e => is_InvalidRequestError e && contains "gpt-4" (str e)
  | Ok _ => false
  end.

(** [after] is [before] with at most one entry appended. *)
Definition grows_by_at_most_one (before after : list string) : Prop :=
  after = before \/ exists entry, after = (before ++ [entry])%list.

(** The agent is the same client, its store at most one entry longer. *)
Definition same_client (a a' : Agent) : Prop :=
  model_name a' = model_name a
  /\ grows_by_at_most_one (memory a) (memory a').

(** A world whose model never asks for the fallback. *)
Definition never_falls_back (w : World) : Prop :=
  forall a prompt e,
    predict w a prompt = Err e ->
    is_InvalidRequestError e && contains "gpt-4" (str e) = false.

(** A world in which the model fails with [InvalidRequestError] only, the
    summarizer always answers, and the command back ends raise nothing but
    subclasses of [Exception].  That [input], [agent.remember] and
    [agent.memorize] return is an assumption of [World] itself. *)
Record well_behaved (w : World) : Prop := {
  predict_fails_politely :
    forall a prompt e, predict w a prompt = Err e ->
                       is_InvalidRequestError e = true;
  summarize_answers :
    forall text n hint e, summarize w text n hint <> Err e;
  exec_raises_exceptions :
    forall code e, exec w code = Err e -> is_Exception e = true;
  subprocess_raises_exceptions :
    forall c e, subprocess_run w c = Err e -> is_Exception e = true;
  ddg_raises_exceptions :
    forall q n e, ddg w q n = Err e -> is_Exception e = true;
  urlopen_raises_exceptions :
    forall u e, urlopen_read w u = Err e -> is_Exception e = true;
  get_text_raises_exceptions :
    forall h e, get_text w h = Err e -> is_Exception e = true;
  chunked_raises_exceptions :
    forall t n h e, chunked_summarize w t n h = Err e -> is_Exception e = true;
  open_raises_exceptions :
    forall p e, open_read w p = Err e -> is_Exception e = true
}.

(** A second small world: the model answers [response], and the shell, the
    Python interpreter and the summarizer are scripted. *)
Module Scripted.

Definition world (response : string) (shell : Result (string * string))
    (code : Result string) (summary : string -> Result string) : World :=
  {| operating_system := "Linux";
     new_ThinkGPT := fun name => {| model_name := name; memory := [] |};
     remember := fun a _ _ _ => memory a;
     predict := fun _ _ => Ok response;
     summarize := fun text _ _ => summary text;
     chunked_summarize := fun text _ _ => Ok text;
     input := fun _ => EmptyString;
     exec := fun _ => code;
     subprocess_run := fun _ => shell;
     ddg := fun _ _ => Ok None;
     urlopen_read := fun _ => Ok "<html>page</html>";
     get_text := fun _ => Ok "page";
     open_read := fun _ => Err (PyException OtherError "No such file");
     repr_results := fun _ => "[...]" |}.

Definition cfg : Config := Demo.cfg false.

Definition start (w : World) : State := initial_state cfg w.

(** A shell command that complains on stderr. *)
Definition grumbling : Result (string * string) := Ok ("out", "warning").

(** Code that prints, and code that calls [sys.exit(3)]. *)
Definition printing : Result string := Ok "hello".
Definition exiting : Result string := Err (SystemExit 3).

(** Summarizers: one that answers, one that is down, and one that fails
    when the result to be recorded starts with [hello]. *)
Definition summing (_ : string) : Result string := Ok "S".
Definition down (_ : string) : Result string :=
  Err (PyException OtherError "rate limit").
Definition picky (text : string) : Result string :=
  if contains ("RESULT:" ++ nl ++ "hello") text
  then Err (PyException OtherError "rate limit")
  else Ok "S".

Definition run_shell : string :=
  "<r>list files</r><c>execute_shell</c>" ++ nl ++ "ls".

Definition run_python : string :=
  "<r>greet</r><c>execute_python</c>" ++ nl ++ "```" ++ nl
  ++ "print('hello')" ++ nl ++ "```".

Definition read_notes : string :=
  "<r>look at the notes</r><c>read_file</c>" ++ nl ++ "notes.txt".

Definition scrape : string :=
  "<r>read the page</r><c>web_scrape</c>" ++ nl ++ "https://example.com".

(** [w] with a file system in which every file holds [content]. *)
Definition with_files (content : string) (w : World) : World :=
  {| operating_system := operating_system w;
     new_ThinkGPT := new_ThinkGPT w;
     remember := remember w;
     predict := predict w;
     summarize := summarize w;
     chunked_summarize := fun text _ _ => Ok ("summary of " ++ text);
     input := input w;
     exec := exec w;
     subprocess_run := subprocess_run w;
     ddg := ddg w;
     urlopen_read := urlopen_read w;
     get_text := get_text w;
     open_read := fun _ => Ok content;
     repr_results := repr_results w |}.

End Scripted.

(** ** Start-up (lines 114-153)

    What happens between the creation of the two clients and the first
    pass of the loop.  The constructors of the clients are taken to
    return. *)

(** What [os.chdir] does. *)
Inductive ChdirResult :=
| Changed
| FileNotFound                 (* raises FileNotFoundError *)
| ChdirError (e : Exn).        (* raises something else *)

(** The process environment before the loop.  [py_int] is the builtin
    [int] applied to what [os.getenv] returned. *)
Record Env := mkEnv {
  argv : list string;                      (* sys.argv *)
  getenv : string -> option string;        (* os.getenv, after load_dotenv *)
  py_int : option string -> Result Z;      (* int(value) *)
  home : string;                           (* Path.home() *)
  path_join : string -> string -> string;  (* os.path.join *)
  path_exists : string -> bool;            (* os.path.exists *)
  makedirs : string -> Result unit;        (* os.makedirs *)
  chdir : string -> ChdirResult            (* os.chdir *)
}.

Inductive StartEvent :=
| NewThinkGPT (model : option string)
| Console (text : string)
| MakeDirs (path : string)
| ChDir (path : string).

(** What the loop starts with. *)
Record Launch := mkLaunch {
  launch_objective : string;
  launch_max_context_size : Z;
  launch_max_memory_item_size : Z;
  launch_work_dir : string
}.

Inductive Started :=
| Running (l : Launch)
| Ended (e : Exn).

Definition USAGE : string := "Usage: miniagi.py <objective>".

Definition NO_DIRECTORY : string :=
  "Directory doesn't exist. Set WORK_DIR to an existing directory or leave it blank.".

(** Lines 140-145: the directory to work in, created when it is the
    default one and missing. *)
Definition choose_work_dir (env : Env) : list StartEvent * Result string :=
  let default :=
    let work_dir := path_join env (home env) "miniagi" in
    if negb (path_exists env work_dir) then
      match makedirs env work_dir with
      | Ok _ => ([MakeDirs work_dir], Ok work_dir)
      | Err e => ([MakeDirs work_dir], Err e)
      end
    else ([], Ok work_dir) in
  match getenv env "WORK_DIR" with
  | None => default
  | Some work_dir =>
      if String.eqb work_dir EmptyString then default else ([], Ok work_dir)
  end.

(** Lines 147-153: announce the directory and enter it. *)
Definition enter (env : Env) (work_dir : string)
    : list StartEvent * Result unit :=
  let announce :=
    [Console ("Working directory is " ++ work_dir); ChDir work_dir] in
  match chdir env work_dir with
  | Changed => (announce, Ok tt)
  | FileNotFound =>
      ((announce ++ [Console NO_DIRECTORY])%list, Err (SystemExit 0))
  | ChdirError e => (announce, Err e)
  end.

(** Lines 116-153. *)
Definition startup (env : Env) : list StartEvent * Started :=
  let clients :=
    [NewThinkGPT (getenv env "MODEL");
     NewThinkGPT (getenv env "SUMMARIZER_MODEL")] in
  if negb (Nat.eqb (List.length (argv env)) 2) then
    ((clients ++ [Console USAGE])%list, Ended (SystemExit 0))
  else
    match nth_error (argv env) 1 with
    | None => (clients, Ended (PyException IndexError "list index out of range"))
    | Some objective =>
        match py_int env (getenv env "MAX_CONTEXT_SIZE") with
        | Err e => (clients, Ended e)
        | Ok max_context_size =>
            match py_int env (getenv env "MAX_MEMORY_ITEM_SIZE") with
            | Err e => (clients, Ended e)
            | Ok max_memory_item_size =>
                match choose_work_dir env with
                | (made, Err e) => ((clients ++ made)%list, Ended e)
                | (made, Ok work_dir) =>
                    match enter env work_dir with
                    | (entered, Err e) =>
                        ((clients ++ made ++ entered)%list, Ended e)
                    | (entered, Ok _) =>
                        ((clients ++ made ++ entered)%list,
                         Running
                           (mkLaunch objective max_context_size
                              max_memory_item_size work_dir))
                    end
                end
            end
        end
    end.

(** [work_dir is None or not work_dir] (line 142). *)
Definition unset (value : option string) : bool :=
  match value with
  | None => true
  | Some v => String.eqb v EmptyString
  end.

(** The call touches the file system. *)
Definition touches_files (ev : StartEvent) : bool :=
  match ev with
  | MakeDirs _ | ChDir _ => true
  | _ => false
  end.

(** A scripted environment: the command line, the value of [WORK_DIR] and
    the directories that exist. *)
Module DemoEnv.

Definition env (args : list string) (work_dir : option string)
    (existing : list string) : Env :=
  {| argv := args;
     getenv := fun name =>
       if String.eqb name "WORK_DIR" then work_dir
       else if String.eqb name "MAX_CONTEXT_SIZE" then Some "4000"
       else if String.eqb name "MAX_MEMORY_ITEM_SIZE" then Some "2000"
       else if String.eqb name "MODEL" then Some "gpt-4"
       else None;
     py_int := fun value =>
       match value with
       | Some v =>
           if String.eqb v "4000" then Ok 4000%Z
           else if String.eqb v "2000" then Ok 2000%Z
           else Err (PyException OtherError "invalid literal for int()")
       | None => Err (PyException TypeError "int() argument must be a string")
       end;
     home := "/home/user";
     path_join := fun a b => a ++ "/" ++ b;
     path_exists := fun p => existsb (String.eqb p) existing;
     makedirs := fun _ => Ok tt;
     chdir := fun p =>
       if existsb (String.eqb p) existing then Changed else FileNotFound |}.

End DemoEnv.

(** ** Basic facts *)

Lemma split_nonempty (sep : ascii) (s : string) : split sep s <> [].
Proof.
  destruct s as [|ch s]; simpl; [discriminate|].
  destruct (Ascii.eqb ch sep); [discriminate|].
  destruct (split sep s); discriminate.
Qed.

Lemma split_first_line (text : string) :
  exists rest, split LF text = first_line text :: rest.
Proof.
  unfold first_line.
  destruct (split LF text) as [|l rest] eqn:E.
  - now apply split_nonempty in E.
  - now exists rest.
Qed.

Lemma bind_unfold {A B} (c : M A) (k : A -> M B) (st : State) :
  bind c k st =
  match c st with
  | (Normal a, st') => k a st'
  | (Raised e, st') => (Raised e, st')
  | (Continue, st') => (Continue, st')
  end.
Proof. reflexivity. Qed.

Lemma try_except_unfold {A} (body : M A) (catches : Exn -> bool)
    (handler : Exn -> M A) (st : State) :
  try_except body catches handler st =
  match body st with
  | (Raised e, st') => if catches e then handler e st' else (Raised e, st')
  | r => r
  end.
Proof. reflexivity. Qed.

Lemma when_debug (cfg : Config) (text : string) (st : State) :
  when (DEBUG cfg) (print text) st = (Normal tt, debug_logged cfg text st).
Proof.
  unfold when, debug_logged. destruct (DEBUG cfg); reflexivity.
Qed.

(** ** The pattern on tagged text *)

Lemma prefix_app (p rest : string) : String.prefix p (p ++ rest) = true.
Proof.
  induction p as [|a p IH]; simpl.
  - now destruct rest.
  - destruct (ascii_dec a a) as [_|n]; [exact IH|now destruct n].
Qed.

Lemma prefix_other_head (p : string) (a ch : ascii) (s : string) :
  Ascii.eqb ch a = false -> String.prefix (String a p) (String ch s) = false.
Proof.
  intros H. simpl. destruct (ascii_dec a ch) as [->|_]; [|reflexivity].
  now rewrite Ascii.eqb_refl in H.
Qed.

Lemma length_append (a b : string) :
  String.length (a ++ b) = String.length a + String.length b.
Proof. induction a as [|ch a IH]; simpl; [reflexivity|now rewrite IH]. Qed.

Lemma lazy_body_closing (t rest : string) :
  is_tag t -> lazy_body ("</" ++ t ++ ">" ++ rest) = Some (EmptyString, t, 4).
Proof.
  intros [-> | ->].
  - change ("</" ++ "r" ++ ">" ++ rest) with ("</r>" ++ rest).
    destruct rest; reflexivity.
  - change ("</" ++ "c" ++ ">" ++ rest) with ("</c>" ++ rest).
    destruct rest; reflexivity.
Qed.

Lemma lazy_body_plain (text t rest : string) :
  plain text = true -> is_tag t ->
  lazy_body (text ++ "</" ++ t ++ ">" ++ rest) =
  Some (text, t, String.length text + 4).
Proof.
  intros Hp Ht. induction text as [|ch text IH].
  - now apply lazy_body_closing.
  - simpl in Hp. apply andb_prop in Hp as [Hp Hp3].
    apply andb_prop in Hp as [Hp1 Hp2].
    apply negb_true_iff in Hp1, Hp2.
    change ((String ch text) ++ "</" ++ t ++ ">" ++ rest)
      with (String ch (text ++ "</" ++ t ++ ">" ++ rest)).
    cbn [lazy_body]. rewrite !prefix_other_head by assumption.
    rewrite Hp2, (IH Hp3). reflexivity.
Qed.

Lemma substring_all (s : string) : substring 0 (String.length s) s = s.
Proof. induction s as [|ch s IH]; simpl; [reflexivity|now rewrite IH]. Qed.

Lemma drop_three (a b c : ascii) (s : string) :
  drop 3 (String a (String b (String c s))) = s.
Proof. unfold drop. simpl. rewrite Nat.sub_0_r. apply substring_all. Qed.

Lemma append_assoc' (a b c : string) : (a ++ b) ++ c = a ++ b ++ c.
Proof. induction a as [|ch a IH]; simpl; [reflexivity|now rewrite IH]. Qed.

Lemma length_tagged (t1 text t2 : string) :
  is_tag t1 -> is_tag t2 ->
  String.length (tagged t1 text t2) = 3 + (String.length text + 4).
Proof.
  intros [-> | ->] [-> | ->]; unfold tagged; simpl; rewrite length_append;
    reflexivity.
Qed.

Lemma tagged_app (t1 text t2 rest : string) :
  is_tag t1 ->
  exists b,
    (b = "r"%char \/ b = "c"%char)
    /\ t1 = String b EmptyString
    /\ tagged t1 text t2 ++ rest =
       String "<" (String b (String ">" (text ++ "</" ++ t2 ++ ">" ++ rest))).
Proof.
  intros [-> | ->]; [exists "r"%char|exists "c"%char]; unfold tagged;
    (split; [auto|split; [reflexivity|]]); rewrite !append_assoc';
    reflexivity.
Qed.

Lemma match_here_tagged (t1 text t2 rest : string) :
  is_tag t1 -> is_tag t2 -> plain text = true ->
  match_here (tagged t1 text t2 ++ rest) =
  Some ((t1, text, t2), String.length (tagged t1 text t2)).
Proof.
  intros H1 H2 Hp. rewrite (length_tagged _ _ _ H1 H2).
  destruct (tagged_app t1 text t2 rest H1) as (b & Hb & -> & ->).
  unfold match_here.
  assert (Hopen :
    (if String.prefix "<r>"
          (String "<" (String b (String ">" (text ++ "</" ++ t2 ++ ">" ++ rest))))
     then Some "r"
     else if String.prefix "<c>"
               (String "<" (String b (String ">" (text ++ "</" ++ t2 ++ ">" ++ rest))))
          then Some "c" else None) = Some (String b EmptyString)).
  { set (z := text ++ "</" ++ t2 ++ ">" ++ rest).
    destruct Hb as [-> | ->].
    - change (String "<" (String "r" (String ">" z))) with ("<r>" ++ z).
      now rewrite prefix_app.
    - change (String "<" (String "c" (String ">" z))) with ("<c>" ++ z).
      rewrite prefix_app. reflexivity. }
  rewrite Hopen, drop_three, (lazy_body_plain _ _ _ Hp H2). reflexivity.
Qed.

Lemma match_here_other_head (ch : ascii) (s : string) :
  Ascii.eqb ch "<" = false -> match_here (String ch s) = None.
Proof.
  intros H. unfold match_here. now rewrite !prefix_other_head.
Qed.

(** Passing over the characters of a match. *)
Lemma findall_from_skip (passed s : string) :
  findall_from (String.length passed) (passed ++ s) = findall_from 0 s.
Proof.
  induction passed as [|ch passed IH]; [now destruct s|exact IH].
Qed.

(** Text without [<] contributes no match. *)
Lemma findall_no_open (filler s : string) :
  no_open filler = true ->
  findall_PATTERN (filler ++ s) = findall_PATTERN s.
Proof.
  unfold findall_PATTERN. induction filler as [|ch filler IH]; intros H.
  - reflexivity.
  - simpl in H. apply andb_prop in H as [H1 H2].
    apply negb_true_iff in H1.
    change (String ch filler ++ s) with (String ch (filler ++ s)).
    cbn [findall_from]. rewrite (match_here_other_head _ _ H1). now apply IH.
Qed.

(** A tag pair at the start of the text is the first match, and the scan
    resumes behind it. *)
Lemma findall_tagged (t1 text t2 rest : string) :
  is_tag t1 -> is_tag t2 -> plain text = true ->
  findall_PATTERN (tagged t1 text t2 ++ rest) =
  (t1, text, t2) :: findall_PATTERN rest.
Proof.
  intros H1 H2 Hp. unfold findall_PATTERN.
  pose proof (match_here_tagged t1 text t2 rest H1 H2 Hp) as Hm.
  pose proof (length_tagged t1 text t2 H1 H2) as Hlen.
  destruct (tagged t1 text t2) as [|ch matched] eqn:E; [discriminate|].
  change (String ch matched ++ rest) with (String ch (matched ++ rest)) in *.
  cbn [findall_from]. rewrite Hm. f_equal.
  cbn [String.length Nat.sub]. rewrite Nat.sub_0_r.
  apply findall_from_skip.
Qed.

(** The first two tag pairs of a line, whatever their names and whatever
    follows them. *)
Lemma findall_two_tags (filler1 t1 text1 t2 filler2 t3 text2 t4 rest : string) :
  is_tag t1 -> is_tag t2 -> is_tag t3 -> is_tag t4 ->
  no_open filler1 = true -> plain text1 = true ->
  no_open filler2 = true -> plain text2 = true ->
  findall_PATTERN
    (filler1 ++ tagged t1 text1 t2 ++ filler2 ++ tagged t3 text2 t4 ++ rest) =
  (t1, text1, t2) :: (t3, text2, t4) :: findall_PATTERN rest.
Proof.
  intros H1 H2 H3 H4 Hf1 Hp1 Hf2 Hp2.
  rewrite (findall_no_open _ _ Hf1), (findall_tagged _ _ _ _ H1 H2 Hp1).
  now rewrite (findall_no_open _ _ Hf2), (findall_tagged _ _ _ _ H3 H4 Hp2).
Qed.

(** Splitting and joining lines. *)
Lemma split_line (line rest : string) :
  no_newline line = true ->
  split LF (line ++ nl ++ rest) = line :: split LF rest.
Proof.
  induction line as [|ch line IH]; intros H.
  - reflexivity.
  - simpl in H. apply andb_prop in H as [H1 H2].
    apply negb_true_iff in H1.
    change (String ch line ++ nl ++ rest)
      with (String ch (line ++ nl ++ rest)).
    cbn [split]. rewrite H1, (IH H2). reflexivity.
Qed.

Lemma join_cons (ch : ascii) (piece : string) (pieces : list string) :
  join nl (String ch piece :: pieces) = String ch (join nl (piece :: pieces)).
Proof. destruct pieces; reflexivity. Qed.

Lemma join_split (s : string) : join nl (split LF s) = s.
Proof.
  induction s as [|ch s IH]; [reflexivity|].
  cbn [split]. destruct (split LF s) as [|piece pieces] eqn:E.
  - now apply split_nonempty in E.
  - destruct (Ascii.eqb_spec ch LF) as [->|_].
    + change (join nl (EmptyString :: piece :: pieces))
        with (nl ++ join nl (piece :: pieces)).
      now rewrite IH.
    + now rewrite join_cons, IH.
Qed.

Lemma plain_no_newline (s : string) : plain s = true -> no_newline s = true.
Proof.
  induction s as [|ch s IH]; [reflexivity|]. simpl. intros H.
  apply andb_prop in H as [H H3]. apply andb_prop in H as [_ H2].
  now rewrite H2, (IH H3).
Qed.

Lemma no_newline_app (a b : string) :
  no_newline a = true -> no_newline b = true -> no_newline (a ++ b) = true.
Proof.
  induction a as [|ch a IH]; [trivial|]. simpl. intros H Hb.
  apply andb_prop in H as [H1 H2]. now rewrite H1, (IH H2 Hb).
Qed.

Lemma no_newline_tagged (t1 text t2 : string) :
  is_tag t1 -> is_tag t2 -> plain text = true ->
  no_newline (tagged t1 text t2) = true.
Proof.
  intros [-> | ->] [-> | ->] Hp; unfold tagged; simpl;
    apply no_newline_app; auto using plain_no_newline.
Qed.

Lemma append_nil_r (s : string) : s ++ EmptyString = s.
Proof. induction s as [|ch s IH]; simpl; [reflexivity|now rewrite IH]. Qed.

Section Asking.

Variable cfg : Config.
Variable w : World.

#[local] Arguments String.append : simpl never.

Lemma build_context_eq (st : State) :
  build_context cfg w st = (Normal (context_of cfg w st), st).
Proof. reflexivity. Qed.

Lemma call_predict_eq (prompt : string) (st : State) :
  call_predict w prompt st =
  lift (predict w (agent st) prompt)
    (logged [Predict (model_name (agent st)) prompt] st).
Proof. reflexivity. Qed.

Lemma agent_debug_logged (text : string) (st : State) :
  agent (debug_logged cfg text st) = agent st.
Proof. unfold debug_logged. now destruct (DEBUG cfg). Qed.

Lemma query_model_eq (st : State) :
  query_model cfg w (context_of cfg w st)
    (debug_logged cfg ("CONTEXT:" ++ nl ++ context_of cfg w st) st) =
  match predict w (agent st) (prompt_of cfg w st) with
  | Ok text => (Normal text, asking cfg w st)
  | Err e =>
      if is_InvalidRequestError e then
        if contains "gpt-4" (str e) then
          (Continue,
           with_agent (new_ThinkGPT w "gpt-3.5-turbo")
             (logged [Stdout "Prompting the gpt-4 model failed. Falling back to gpt-3.5-turbo"]
                (asking cfg w st)))
        else
          (Raised (SystemExit 0),
           logged [Stdout ("Error accessing the OpenAI API: " ++ str e)]
             (asking cfg w st))
      else (Raised e, asking cfg w st)
  end.
Proof.
  unfold query_model, try_except. rewrite call_predict_eq.
  rewrite !agent_debug_logged.
  fold (prompt_of cfg w st). fold (asking cfg w st).
  destruct (predict w (agent st) (prompt_of cfg w st)) as [text|e]; simpl.
  - reflexivity.
  - destruct (is_InvalidRequestError e); [|reflexivity].
    destruct (contains "gpt-4" (str e)); reflexivity.
Qed.

(** One pass, by what the model call does. *)
Lemma iteration_eq (st : State) :
  iteration cfg w st =
  match predict w (agent st) (prompt_of cfg w st) with
  | Ok text =>
      bind (parse_response cfg w (split LF text))
           (fun p => act cfg w (fst p) (snd p)) (answered cfg w st text)
  | Err e =>
      if is_InvalidRequestError e then
        if contains "gpt-4" (str e) then
          (Continue,
           with_agent (new_ThinkGPT w "gpt-3.5-turbo")
             (logged [Stdout "Prompting the gpt-4 model failed. Falling back to gpt-3.5-turbo"]
                (asking cfg w st)))
        else
          (Raised (SystemExit 0),
           logged [Stdout ("Error accessing the OpenAI API: " ++ str e)]
             (asking cfg w st))
      else (Raised e, asking cfg w st)
  end.
Proof.
  unfold iteration.
  unfold bind at 1. rewrite build_context_eq.
  unfold bind at 1. rewrite when_debug.
  unfold bind at 1. rewrite query_model_eq.
  destruct (predict w (agent st) (prompt_of cfg w st)) as [text|e].
  - unfold bind at 1. rewrite when_debug. fold (answered cfg w st text).
    unfold bind. destruct (parse_response cfg w (split LF text) (answered cfg w st text)) as [[[c a]| |] st']; reflexivity.
  - destruct (is_InvalidRequestError e); [|reflexivity].
    destruct (contains "gpt-4" (str e)); reflexivity.
Qed.

End Asking.

(** Symbolic execution of the monad's own operations, leaving strings,
    states and the calls to the outside folded. *)
Ltac run_py :=
  cbv beta iota zeta delta
     [bind ret raise continue sys_exit get emit set_agent set_thought
      set_observation set_res_line print print_colored lift getitem
      nth_error when andb].

(** Reads a field of a state built with the assignments above, without
    unfolding the state underneath. *)
Ltac read_fields :=
  cbn [fst snd agent thought observation summarized_history res_line trace
       with_agent with_thought with_observation with_res_line logged
       recorded memorize memory model_name].

Tactic Notation "read_fields" "in" hyp(H) :=
  cbn [fst snd agent thought observation summarized_history res_line trace
       with_agent with_thought with_observation with_res_line logged
       recorded memorize memory model_name] in H.

Section Parsing.

Variable cfg : Config.
Variable w : World.

#[local] Arguments String.append : simpl never.

Lemma update_memory_eq (_action : string) (obs : PyVal) (st : State) :
  update_memory cfg w _action obs (summarized_history st) st =
  match summarize w (summary_request w _action obs st)
          (max_memory_item_size cfg) UPDATE_HINT with
  | Ok new_summary => (Normal new_summary, recorded w _action obs st)
  | Err e =>
      (Raised e, logged [Summarize (summary_request w _action obs st)] st)
  end.
Proof.
  unfold update_memory, call_summarize, call_memorize, bind, emit, get.
  fold (summary_request w _action obs st). simpl.
  destruct (summarize w (summary_request w _action obs st)
              (max_memory_item_size cfg) UPDATE_HINT); reflexivity.
Qed.

Lemma last_cons_default {A} (x : A) (xs : list A) (d d' : A) :
  List.last (x :: xs) d = List.last (x :: xs) d'.
Proof.
  revert x. induction xs as [|y ys IH]; intros x; [reflexivity|].
  change (List.last (y :: ys) d = List.last (y :: ys) d'). apply IH.
Qed.

Lemma getitem_last_cons {A} (x : A) (xs : list A) :
  getitem_last (x :: xs) = ret (List.last (x :: xs) x).
Proof.
  unfold getitem_last.
  destruct (rev (x :: xs)) as [|y ys] eqn:E.
  - apply (f_equal (@List.length A)) in E. rewrite length_rev in E.
    discriminate.
  - f_equal.
    assert (H : x :: xs = (rev ys ++ [y])%list).
    { rewrite <- (rev_involutive (x :: xs)), E. reflexivity. }
    rewrite H. now rewrite last_last.
Qed.

(** What the handler of a parse failure does (lines 211-215). *)
Lemma parse_handler_eq (line0 : string) (rest : list string) (st : State) :
  (print_colored ("Unable to parse response. Retrying..." ++ nl) "red" ;;
   set_observation (VStr PARSE_ERROR_OBSERVATION) ;;
   line <- getitem (line0 :: rest) 0 ;;
   obs <- get observation ;;
   sh <- get summarized_history ;;
   _ <- update_memory cfg w line obs sh ;;
   continue) st =
  parse_failure_outcome cfg w line0 st.
Proof.
  run_py. fold (parse_failed st).
  change (observation (parse_failed st)) with (VStr PARSE_ERROR_OBSERVATION).
  rewrite update_memory_eq.
  unfold parse_failure_outcome, update_outcome.
  destruct (summarize _ _ _ _); reflexivity.
Qed.

(** The parser, by the matches [re.findall] reports on the first line. *)
Lemma parse_response_eq (line0 : string) (rest : list string) (st : State) :
  parse_response cfg w (line0 :: rest) st =
  match findall_PATTERN line0 with
  | m0 :: m1 :: _ =>
      if String.eqb (item1 m1) "done" then
        (Raised (SystemExit 0),
         logged [StdoutColored ("The agent concluded: " ++ item1 m0) "cyan"]
           (with_thought (item1 m0) st))
      else
        (Normal (item1 m1, replace "```" EmptyString (join nl rest)),
         parsed (item1 m0) (line0 :: rest) st)
  | [m0] => parse_failure_outcome cfg w line0 (with_thought (item1 m0) st)
  | [] => parse_failure_outcome cfg w line0 st
  end.
Proof.
  unfold parse_response. rewrite try_except_unfold.
  run_py.
  destruct (findall_PATTERN line0) as [|m0 [|m1 more]]; run_py.
  - apply (parse_handler_eq line0 rest).
  - apply (parse_handler_eq line0 rest).
  - destruct (String.eqb (item1 m1) "done"); run_py; [reflexivity|].
    rewrite getitem_last_cons. run_py. unfold parsed.
    rewrite (last_cons_default line0 rest EmptyString line0).
    destruct (contains "done" (last (line0 :: rest) line0)); reflexivity.
Qed.

End Parsing.

Section WellFormed.

Variable cfg : Config.
Variable w : World.

(** A well-formed response: when the first line is [<r>X</r><c>Y</c>] and
    the other lines are [Z], the parser yields reasoning [X], command [Y]
    and, as the argument, [Z] without its triple backticks. *)
Lemma parse_well_formed (X Y Z : string) (st : State) :
  plain X = true -> plain Y = true -> Y <> "done" ->
  parse_response cfg w
    (split LF (tagged "r" X "r" ++ tagged "c" Y "c" ++ nl ++ Z)) st =
  (Normal (Y, replace "```" EmptyString Z),
   parsed X (split LF (tagged "r" X "r" ++ tagged "c" Y "c" ++ nl ++ Z)) st).
Proof.
  intros HX HY Hd.
  assert (Hr : is_tag "r") by now left.
  assert (Hc : is_tag "c") by now right.
  rewrite <- append_assoc', split_line
    by (apply no_newline_app; now apply no_newline_tagged).
  rewrite parse_response_eq.
  rewrite (findall_tagged _ _ _ _ Hr Hr HX).
  rewrite <- (append_nil_r (tagged "c" Y "c")) at 1.
  rewrite (findall_tagged _ _ _ _ Hc Hc HY).
  cbn [item1 fst snd]. apply String.eqb_neq in Hd. rewrite Hd.
  now rewrite join_split.
Qed.

(** The positional reading on lines of a given shape: two tag pairs with
    any of the four combinations of names each, in any order, with text free
    of [<] around them and anything at all behind them. *)
Lemma parse_any_tag_names (filler1 t1 X t2 filler2 t3 Y t4 rest : string)
    (lines : list string) (st : State) :
  is_tag t1 -> is_tag t2 -> is_tag t3 -> is_tag t4 ->
  no_open filler1 = true -> plain X = true ->
  no_open filler2 = true -> plain Y = true ->
  Y <> "done" ->
  parse_response cfg w
    ((filler1 ++ tagged t1 X t2 ++ filler2 ++ tagged t3 Y t4 ++ rest) :: lines)
    st =
  (Normal (Y, replace "```" EmptyString (join nl lines)),
   parsed X
     ((filler1 ++ tagged t1 X t2 ++ filler2 ++ tagged t3 Y t4 ++ rest) :: lines)
     st).
Proof.
  intros H1 H2 H3 H4 Hf1 HX Hf2 HY Hd.
  rewrite parse_response_eq, (findall_two_tags _ _ _ _ _ _ _ _ _ H1 H2 H3 H4)
    by assumption.
  cbn [item1 fst snd]. apply String.eqb_neq in Hd. now rewrite Hd.
Qed.

End WellFormed.

(** Closes a goal that has reached a call of [update_memory]. *)
Ltac settle_update :=
  rewrite update_memory_eq; unfold update_outcome;
  destruct (summarize _ _ _ _); reflexivity.

Section Acting.

Variable cfg : Config.
Variable w : World.

#[local] Arguments String.append : simpl never.

(** Lines 217-237: what happens to a parsed action before dispatch. *)
Lemma act_eq (command arg : string) (st : State) :
  act cfg w command arg st =
  if String.eqb command "talk_to_user" then
    update_outcome cfg w
      (render_action (thought st) command (abbreviate arg))
      (VStr ("The user responded with: " ++ input w "Your response: " ++ "."))
      Continue (talking w arg st)
  else if user_declines cfg w then
    update_outcome cfg w
      (render_action (thought st) command (abbreviate arg))
      (VStr DECLINED_OBSERVATION) Continue
      (with_observation (VStr DECLINED_OBSERVATION)
         (gated cfg w (announced command arg st)))
  else
    dispatch cfg w command arg (render_action (thought st) command arg)
      (gated cfg w (announced command arg st)).
Proof.
  unfold act. run_py.
  destruct (String.eqb command "talk_to_user").
  - unfold call_input. run_py. fold (talking w arg st).
    settle_update.
  - run_py. fold (announced command arg st).
    unfold user_declines, gated.
    destruct (PROMPT_USER cfg); run_py; [|reflexivity].
    unfold call_input. run_py.
    destruct (Nat.ltb 0 (String.length (input w GATE_PROMPT))); run_py;
      [|reflexivity].
    settle_update.
Qed.

Lemma str_add_eq (left : string) (v : PyVal) (st : State) :
  str_add left v st =
  match v with
  | VStr s => (Normal (left ++ s), st)
  | VNone => (Raised (concat_error "NoneType"), st)
  | VList _ => (Raised (concat_error "list"), st)
  end.
Proof. destruct v; reflexivity. Qed.

Lemma failure_handler_eq (action : string) (e : Exn) (st : State) :
  (when (contains "context length" (str e))
     (print_colored
        (str e ++ nl
         ++ "Try decreasing MAX_CONTEXT_SIZE, MAX_MEMORY_ITEM_SIZE"
         ++ " and SUMMARIZER_CHUNK_SIZE.") "red") ;;
   print_colored ("Execution error: " ++ str e) "red" ;;
   set_observation
     (VStr ("The command returned an error:" ++ nl ++ str e ++ nl)) ;;
   obs <- get observation ;;
   sh <- get summarized_history ;;
   _ <- update_memory cfg w action obs sh ;;
   ret tt) st =
  execution_failure_outcome cfg w action e st.
Proof.
  unfold execution_failure_outcome, failed.
  destruct (contains "context length" (str e)); run_py; settle_update.
Qed.

(** Lines 239-303, by what the chosen branch did. *)
Lemma dispatch_eq (command arg action : string) (st : State) :
  dispatch cfg w command arg action st =
  match run_command cfg w command arg st with
  | (Normal _, st1) =>
      match observation st1 with
      | VStr s =>
          match summarize w
                  (summary_request w action (VStr s)
                     (logged [Stdout ("OBSERVATION: " ++ s)] st1))
                  (max_memory_item_size cfg) UPDATE_HINT with
          | Ok _ =>
              (Normal tt,
               recorded w action (VStr s)
                 (logged [Stdout ("OBSERVATION: " ++ s)] st1))
          | Err e =>
              caught cfg w action e
                (logged [Summarize
                           (summary_request w action (VStr s)
                              (logged [Stdout ("OBSERVATION: " ++ s)] st1))]
                   (logged [Stdout ("OBSERVATION: " ++ s)] st1))
          end
      | VNone => caught cfg w action (concat_error "NoneType") st1
      | VList _ => caught cfg w action (concat_error "list") st1
      end
  | (Raised e, st1) => caught cfg w action e st1
  | (Continue, st1) => (Continue, st1)
  end.
Proof.
  unfold dispatch. rewrite try_except_unfold.
  rewrite bind_unfold.
  destruct (run_command cfg w command arg st) as [[[]|e|] st1].
  - rewrite bind_unfold. unfold get at 1.
    rewrite bind_unfold, str_add_eq.
    destruct (observation st1) as [s| |rs] eqn:Hobs.
    + run_py. rewrite update_memory_eq.
      destruct (summarize _ _ _ _) as [s'|e].
      * reflexivity.
      * unfold caught. destruct (is_Exception e); [|reflexivity].
        apply failure_handler_eq.
    + unfold caught. simpl is_Exception. cbv iota.
      apply failure_handler_eq.
    + unfold caught. simpl is_Exception. cbv iota.
      apply failure_handler_eq.
  - unfold caught. destruct (is_Exception e); [|reflexivity].
    apply failure_handler_eq.
  - reflexivity.
Qed.

End Acting.

(** ** What a computation leaves alone *)

Section Preservation.

Context {B : Type} (f : State -> B).

Lemma preserves_bind {A C} (c : M A) (k : A -> M C) :
  preserves f c -> (forall a, preserves f (k a)) -> preserves f (bind c k).
Proof.
  intros Hc Hk st. rewrite bind_unfold. specialize (Hc st).
  destruct (c st) as [[a|e|] st1]; simpl in *; [|assumption..].
  now rewrite Hk.
Qed.

Lemma preserves_try_except {A} (body : M A) (catches : Exn -> bool)
    (handler : Exn -> M A) :
  preserves f body -> (forall e, preserves f (handler e)) ->
  preserves f (try_except body catches handler).
Proof.
  intros Hb Hh st. rewrite try_except_unfold. specialize (Hb st).
  destruct (body st) as [[a|e|] st1]; simpl in *; try assumption.
  destruct (catches e); simpl; [|assumption].
  now rewrite Hh.
Qed.

Lemma preserves_lift {A} (r : Result A) : preserves f (lift r).
Proof. destruct r; intros st; reflexivity. Qed.

Lemma preserves_when (b : bool) (c : M unit) :
  preserves f c -> preserves f (when b c).
Proof. destruct b; [trivial|]. intros _ st; reflexivity. Qed.

Lemma preserves_getitem {A} (xs : list A) (i : nat) :
  preserves f (getitem xs i).
Proof. unfold getitem. destruct (nth_error xs i); intros st; reflexivity. Qed.

Lemma preserves_getitem_last {A} (xs : list A) :
  preserves f (getitem_last xs).
Proof. unfold getitem_last. destruct (rev xs); intros st; reflexivity. Qed.

Lemma preserves_str_add (left : string) (v : PyVal) :
  preserves f (str_add left v).
Proof. destruct v; intros st; reflexivity. Qed.

End Preservation.

(** Splits a monadic program into its primitive steps; each of them must
    leave the projection alone by computation. *)
Ltac preserve :=
  repeat first
    [ apply preserves_bind; [|intros]
    | apply preserves_try_except; [|intros]
    | apply preserves_when
    | apply preserves_lift
    | apply preserves_getitem
    | apply preserves_getitem_last
    | apply preserves_str_add
    | match goal with
      | |- preserves _ (if ?b then _ else _) => destruct b
      | |- preserves _ (let (_, _) := ?p in _) => destruct p
      | |- preserves _ (match ?p with (_, _) => _ end) => destruct p
      end
    | (intros ?; reflexivity) ].

Section Preserved.

Variable cfg : Config.
Variable w : World.

(** No handler touches the agent, hence the history store. *)
Lemma run_command_agent (command arg : string) :
  preserves agent (run_command cfg w command arg).
Proof.
  unfold run_command, call_exec, call_subprocess_run, call_ddg, call_urlopen,
    call_chunked_summarize, call_open, print, print_colored, sys_exit.
  preserve.
Qed.

Lemma update_memory_summary (_action : string) (obs : PyVal) (prev : string) :
  preserves summarized_history (update_memory cfg w _action obs prev).
Proof.
  unfold update_memory, call_summarize, call_memorize. preserve.
Qed.

Lemma run_command_summary (command arg : string) :
  preserves summarized_history (run_command cfg w command arg).
Proof.
  unfold run_command, call_exec, call_subprocess_run, call_ddg, call_urlopen,
    call_chunked_summarize, call_open, print, print_colored, sys_exit.
  preserve.
Qed.

(** No statement of the loop body assigns [summarized_history]. *)
Lemma iteration_summary : preserves summarized_history (iteration cfg w).
Proof.
  unfold iteration, build_context, query_model, call_predict, parse_response,
    act, dispatch, call_input, print, print_colored, sys_exit.
  preserve;
    try apply update_memory_summary; try apply run_command_summary.
Qed.

End Preserved.

(** ** One pass, phase by phase *)

Section Pass.

Variable cfg : Config.
Variable w : World.

#[local] Arguments String.append : simpl never.

Lemma trace_debug_logged (text : string) (st : State) :
  trace (debug_logged cfg text st) = (trace st ++ debug_events cfg text)%list.
Proof.
  unfold debug_logged, debug_events.
  destruct (DEBUG cfg); simpl; [reflexivity|now rewrite app_nil_r].
Qed.

Lemma trace_asking (st : State) :
  trace (asking cfg w st) = (trace st ++ asking_events cfg w st)%list.
Proof.
  unfold asking, asking_events. simpl.
  now rewrite trace_debug_logged, app_assoc.
Qed.

Lemma trace_answered (st : State) (text : string) :
  trace (answered cfg w st text) =
  (trace st ++ answered_events cfg w st text)%list.
Proof.
  unfold answered, answered_events.
  now rewrite trace_debug_logged, trace_asking, app_assoc.
Qed.

Lemma quiet_asking (st : State) :
  none_runs_handler (asking_events cfg w st)
  /\ none_updates_memory (asking_events cfg w st).
Proof.
  unfold none_runs_handler, none_updates_memory, asking_events, debug_events.
  destruct (DEBUG cfg); split; reflexivity.
Qed.

Lemma quiet_answered (st : State) (text : string) :
  none_runs_handler (answered_events cfg w st text)
  /\ none_updates_memory (answered_events cfg w st text).
Proof.
  destruct (quiet_asking st) as [Hh Hm].
  unfold none_runs_handler, none_updates_memory, answered_events in *.
  rewrite !existsb_app, Hh, Hm. unfold debug_events.
  destruct (DEBUG cfg); split; reflexivity.
Qed.

Lemma quiet_gate : none_runs_handler (gate_events cfg w).
Proof.
  unfold none_runs_handler, gate_events. now destruct (PROMPT_USER cfg).
Qed.

Lemma debug_logged_fields (text : string) (st : State) :
  agent (debug_logged cfg text st) = agent st
  /\ thought (debug_logged cfg text st) = thought st
  /\ observation (debug_logged cfg text st) = observation st
  /\ summarized_history (debug_logged cfg text st) = summarized_history st.
Proof. unfold debug_logged. destruct (DEBUG cfg); now repeat split. Qed.

Lemma answered_fields (st : State) (text : string) :
  agent (answered cfg w st text) = agent st
  /\ thought (answered cfg w st text) = thought st
  /\ observation (answered cfg w st text) = observation st
  /\ summarized_history (answered cfg w st text) = summarized_history st.
Proof.
  unfold answered, asking.
  destruct (debug_logged_fields ("RAW RESPONSE:" ++ nl ++ text)
    (logged [Predict (model_name (agent st)) (prompt_of cfg w st)]
       (debug_logged cfg ("CONTEXT:" ++ nl ++ context_of cfg w st) st)))
    as (-> & -> & -> & ->).
  simpl. apply debug_logged_fields.
Qed.

Lemma asking_fields (st : State) :
  agent (asking cfg w st) = agent st
  /\ thought (asking cfg w st) = thought st
  /\ observation (asking cfg w st) = observation st
  /\ summarized_history (asking cfg w st) = summarized_history st.
Proof. unfold asking. simpl. apply debug_logged_fields. Qed.

Lemma parsed_fields (reasoning : string) (res_lines : list string)
    (st : State) :
  agent (parsed reasoning res_lines st) = agent st
  /\ thought (parsed reasoning res_lines st) = reasoning
  /\ observation (parsed reasoning res_lines st) = observation st
  /\ summarized_history (parsed reasoning res_lines st) = summarized_history st
  /\ trace (parsed reasoning res_lines st) = trace st.
Proof.
  unfold parsed.
  destruct (contains "done" (last res_lines EmptyString)); now repeat split.
Qed.

Lemma gated_fields (st : State) :
  agent (gated cfg w st) = agent st
  /\ thought (gated cfg w st) = thought st
  /\ observation (gated cfg w st) = observation st
  /\ summarized_history (gated cfg w st) = summarized_history st.
Proof. unfold gated. destruct (PROMPT_USER cfg); now repeat split. Qed.

Lemma trace_gated (st : State) :
  trace (gated cfg w st) = (trace st ++ gate_events cfg w)%list.
Proof.
  unfold gated, gate_events.
  destruct (PROMPT_USER cfg); [reflexivity|now rewrite app_nil_r].
Qed.

(** A pass in which the model answers with a line that has two matches,
    the second not [done], goes on to [act]. *)
Lemma iteration_parsed (st : State) (text : string) (m0 m1 : groups)
    (more : list groups) :
  predict w (agent st) (prompt_of cfg w st) = Ok text ->
  findall_PATTERN (first_line text) = m0 :: m1 :: more ->
  item1 m1 <> "done" ->
  iteration cfg w st =
  act cfg w (item1 m1) (argument_of text)
    (parsed (item1 m0) (split LF text) (answered cfg w st text)).
Proof.
  intros Hp Hm Hd. rewrite iteration_eq, Hp, bind_unfold.
  unfold argument_of.
  destruct (split_first_line text) as [rest ->].
  rewrite parse_response_eq, Hm.
  apply String.eqb_neq in Hd. rewrite Hd. reflexivity.
Qed.

(** In a pass that fails to parse, the handler runs. *)
Lemma iteration_unparsed (st : State) (text : string) :
  predict w (agent st) (prompt_of cfg w st) = Ok text ->
  List.length (findall_PATTERN (first_line text)) < 2 ->
  exists st0,
    summarized_history st0 = summarized_history st
    /\ agent st0 = agent st
    /\ iteration cfg w st =
       update_outcome cfg w (first_line text) (VStr PARSE_ERROR_OBSERVATION)
         Continue (parse_failed st0).
Proof.
  intros Hp Hlen. rewrite iteration_eq, Hp, bind_unfold.
  destruct (split_first_line text) as [rest ->].
  rewrite parse_response_eq.
  destruct (answered_fields st text) as (Ha & _ & _ & Hs).
  destruct (findall_PATTERN (first_line text)) as [|m0 [|m1 more]].
  - exists (answered cfg w st text). repeat split; try assumption.
    unfold parse_failure_outcome, update_outcome.
    destruct (summarize _ _ _ _); reflexivity.
  - exists (with_thought (item1 m0) (answered cfg w st text)).
    repeat split; try assumption.
    unfold parse_failure_outcome, update_outcome.
    destruct (summarize _ _ _ _); reflexivity.
  - simpl in Hlen. lia.
Qed.

End Pass.

(** ** The command branches *)

Section Commands.

Variable cfg : Config.
Variable w : World.

#[local] Arguments String.append : simpl never.

Lemma run_command_unknown (command arg : string) (st : State) :
  ~ In command KNOWN_COMMANDS ->
  run_command cfg w command arg st = (Normal tt, st).
Proof.
  intros Hn. unfold run_command.
  repeat match goal with
  | |- context [String.eqb command ?c] =>
      destruct (String.eqb_spec command c) as [->|_];
      [exfalso; apply Hn; simpl; tauto|]
  end.
  reflexivity.
Qed.

Lemma run_command_web_search (arg : string) (st : State) :
  run_command cfg w "web_search" arg st =
  match ddg w arg 5 with
  | Ok r => (Normal tt, searched w arg r st)
  | Err e => (Raised e, logged [WebSearch arg] (logged [Stdout "SEARCH WEB"] st))
  end.
Proof.
  unfold run_command. simpl String.eqb. cbv iota.
  unfold call_ddg. run_py.
  destruct (ddg w arg 5) as [[rs|]|e]; reflexivity.
Qed.

Lemma update_outcome_memory {A} (action : string) (obs : PyVal)
    (next : Res A) (st : State) :
  appends_at_most action (memory (agent st))
    (memory (agent (snd (update_outcome cfg w action obs next st)))).
Proof.
  unfold update_outcome.
  destruct (summarize _ _ _ _); [right|left]; [|reflexivity].
  now exists (py_str w obs).
Qed.

Lemma update_outcome_ok {A} (action : string) (obs : PyVal) (next : Res A)
    (st : State) (new_summary : string) :
  summarize w (summarizer_input (summarized_history st) action (py_str w obs))
    (max_memory_item_size cfg) UPDATE_HINT = Ok new_summary ->
  update_outcome cfg w action obs next st = (next, recorded w action obs st).
Proof.
  intros H. unfold update_outcome, summary_request.
  unfold summarizer_input in H. now rewrite H.
Qed.

Lemma recorded_fields (action : string) (obs : PyVal) (st : State) :
  memory (agent (recorded w action obs st)) =
    (memory (agent st) ++ [new_memory_text action (py_str w obs)])%list
  /\ thought (recorded w action obs st) = thought st
  /\ observation (recorded w action obs st) = observation st
  /\ summarized_history (recorded w action obs st) = summarized_history st
  /\ trace (recorded w action obs st) =
     (trace st
      ++ [Summarize
            (summarizer_input (summarized_history st) action (py_str w obs));
          Memorize (new_memory_text action (py_str w obs))])%list.
Proof.
  unfold recorded, summary_request, summarizer_input. read_fields.
  repeat split. now rewrite <- app_assoc.
Qed.

Lemma agent_failed (e : Exn) (st : State) : agent (failed e st) = agent st.
Proof. unfold failed. now destruct (contains "context length" (str e)). Qed.

Lemma failed_fields (e : Exn) (st : State) :
  thought (failed e st) = thought st
  /\ observation (failed e st) = VStr (error_observation e)
  /\ summarized_history (failed e st) = summarized_history st
  /\ In (StdoutColored ("Execution error: " ++ str e) "red")
        (trace (failed e st)).
Proof.
  unfold failed. destruct (contains "context length" (str e)); read_fields;
    repeat split; apply in_or_app; right; now left.
Qed.

Lemma searched_fields (arg : string) (r : option (list SearchResult))
    (st : State) :
  agent (searched w arg r st) = agent st
  /\ thought (searched w arg r st) = thought st
  /\ observation (searched w arg r st) = search_value r
  /\ summarized_history (searched w arg r st) = summarized_history st.
Proof. destruct r; now repeat split. Qed.

Lemma caught_memory (action : string) (e : Exn) (st : State) :
  appends_at_most action (memory (agent st))
    (memory (agent (snd (caught cfg w action e st)))).
Proof.
  unfold caught. destruct (is_Exception e); [|now left].
  unfold execution_failure_outcome.
  pose proof (update_outcome_memory action (VStr (error_observation e))
                (Normal tt) (failed e st)) as H.
  now rewrite agent_failed in H.
Qed.

(** The dispatch appends at most one entry, built from the action it was
    given. *)
Lemma dispatch_memory (command arg action : string) (st : State) :
  appends_at_most action (memory (agent st))
    (memory (agent (snd (dispatch cfg w command arg action st)))).
Proof.
  rewrite dispatch_eq.
  pose proof (run_command_agent cfg w command arg st) as Hag.
  destruct (run_command cfg w command arg st) as [[[]|e|] st1];
    cbn [snd] in Hag; rewrite <- Hag.
  - destruct (observation st1) as [s| |rs].
    + destruct (summarize _ _ _ _) as [s'|e].
      * right. now exists s.
      * apply (caught_memory action e
                 (logged [Summarize _] (logged [Stdout _] st1))).
    + apply caught_memory.
    + apply caught_memory.
  - apply caught_memory.
  - now left.
Qed.

End Commands.

(** ** The loop *)

Lemma loop_goes_on (cfg : Config) (worlds : nat -> World) (i fuel : nat)
    (st st' : State) (r : Res unit) :
  iteration cfg (worlds i) st = (r, st') ->
  (forall e, r <> Raised e) ->
  loop cfg worlds i (S fuel) st = loop cfg worlds (S i) fuel st'.
Proof.
  intros Hit H. simpl. rewrite Hit.
  destruct r as [[]|e|]; try reflexivity.
  now destruct (H e).
Qed.

Lemma loop_stops (cfg : Config) (worlds : nat -> World) (i fuel : nat)
    (st st' : State) (e : Exn) :
  iteration cfg (worlds i) st = (Raised e, st') ->
  loop cfg worlds i (S fuel) st = (Some e, st').
Proof. intros H. simpl. now rewrite H. Qed.

Lemma loop_summary (cfg : Config) (worlds : nat -> World) (fuel i : nat)
    (st : State) :
  summarized_history (snd (loop cfg worlds i fuel st)) = summarized_history st.
Proof.
  revert i st. induction fuel as [|fuel IH]; intros i st; [reflexivity|].
  simpl. pose proof (iteration_summary cfg (worlds i) st) as H.
  destruct (iteration cfg (worlds i) st) as [[[]|e|] st']; simpl in H;
    try (rewrite IH); exact H.
Qed.

(** ** Properties of the agent loop *)

Section Claims.

Variable cfg : Config.
Variable w : World.

#[local] Arguments String.append : simpl never.

(** C3 (as the script behaves): a response whose first line has fewer than
    two tag matches does not end the loop, provided the summarizer answers
    the call of [update_memory] on line 214.  The pass prints the retry
    message, sets the observation to the fixed text about the <r> and <c>
    tags, calls [update_memory] with the raw first line as the action and
    that observation, and reaches [continue]; the loop goes on with the
    next pass.  Line 214 is in the handler, outside any [try]: without the
    proviso the loop can end there. *)
Theorem C3_parse_failure_recorded (st : State) (text new_summary : string) :
  predict w (agent st) (prompt_of cfg w st) = Ok text ->
  List.length (findall_PATTERN (first_line text)) < 2 ->
  summarize w
    (summarizer_input (summarized_history st) (first_line text)
       PARSE_ERROR_OBSERVATION)
    (max_memory_item_size cfg) UPDATE_HINT = Ok new_summary ->
  fst (iteration cfg w st) = Continue
  /\ observation (snd (iteration cfg w st)) = VStr PARSE_ERROR_OBSERVATION
  /\ memory (agent (snd (iteration cfg w st))) =
     (memory (agent st)
      ++ [new_memory_text (first_line text) PARSE_ERROR_OBSERVATION])%list
  /\ In (Memorize (new_memory_text (first_line text) PARSE_ERROR_OBSERVATION))
        (trace (snd (iteration cfg w st)))
  /\ (forall worlds i fuel, worlds i = w ->
        loop cfg worlds i (S fuel) st =
        loop cfg worlds (S i) fuel (snd (iteration cfg w st))).
Proof.
  intros Hp Hlen Hsum.
  destruct (iteration_unparsed cfg w st text Hp Hlen) as (st0 & Hs & Ha & Hit).
  assert (Hrun : iteration cfg w st =
                 (Continue,
                  recorded w (first_line text) (VStr PARSE_ERROR_OBSERVATION)
                    (parse_failed st0))).
  { rewrite Hit. unfold update_outcome, summary_request.
    change (summarized_history (parse_failed st0))
      with (summarized_history st0).
    rewrite Hs. unfold summarizer_input in Hsum. simpl py_str.
    now rewrite Hsum. }
  repeat split.
  - now rewrite Hrun.
  - now rewrite Hrun.
  - rewrite Hrun. simpl. now rewrite Ha.
  - rewrite Hrun. simpl. apply in_or_app. right. now left.
  - intros worlds i fuel <-. rewrite Hrun.
    now apply (loop_goes_on _ _ _ _ _ _ _ Hrun).
Qed.

(** C4: when the second match on the first line reads [done], the pass
    prints the reasoning as "The agent concluded: ..." and leaves through
    [sys.exit(0)].  Nothing but the request to the model and the prints
    happened: the history store, the running summary and the observation
    are those the pass started with, and the loop ends with [SystemExit]. *)
Theorem C4_done_exits (st : State) (text : string) (m0 m1 : groups)
    (more : list groups) :
  predict w (agent st) (prompt_of cfg w st) = Ok text ->
  findall_PATTERN (first_line text) = m0 :: m1 :: more ->
  item1 m1 = "done" ->
  fst (iteration cfg w st) = Raised (SystemExit 0)
  /\ trace (snd (iteration cfg w st)) =
     (trace st ++ answered_events cfg w st text
      ++ [StdoutColored ("The agent concluded: " ++ item1 m0) "cyan"])%list
  /\ none_runs_handler
       (answered_events cfg w st text
        ++ [StdoutColored ("The agent concluded: " ++ item1 m0) "cyan"])
  /\ none_updates_memory
       (answered_events cfg w st text
        ++ [StdoutColored ("The agent concluded: " ++ item1 m0) "cyan"])
  /\ agent (snd (iteration cfg w st)) = agent st
  /\ summarized_history (snd (iteration cfg w st)) = summarized_history st
  /\ observation (snd (iteration cfg w st)) = observation st
  /\ (forall worlds i fuel, worlds i = w ->
        loop cfg worlds i (S fuel) st =
        (Some (SystemExit 0), snd (iteration cfg w st))).
Proof.
  intros Hp Hm Hd.
  assert (Hrun : iteration cfg w st =
                 (Raised (SystemExit 0),
                  logged [StdoutColored ("The agent concluded: " ++ item1 m0)
                            "cyan"]
                    (with_thought (item1 m0) (answered cfg w st text)))).
  { rewrite iteration_eq, Hp, bind_unfold.
    destruct (split_first_line text) as [rest ->].
    now rewrite parse_response_eq, Hm, Hd. }
  destruct (answered_fields cfg w st text) as (Ha & _ & Ho & Hs).
  destruct (quiet_answered cfg w st text) as [Hqh Hqm].
  rewrite Hrun. read_fields. repeat split; try assumption.
  - now rewrite trace_answered, app_assoc.
  - unfold none_runs_handler in *. now rewrite existsb_app, Hqh.
  - unfold none_updates_memory in *. now rewrite existsb_app, Hqm.
  - intros worlds i fuel <-. now apply loop_stops.
Qed.

(** C8 (as the script behaves): when the request to the model raises
    [InvalidRequestError] and the error text contains [gpt-4], the pass
    prints the fallback message, replaces the agent by a new client for
    [gpt-3.5-turbo] and reaches [continue]: no call of [update_memory], the
    summary, thought and observation as before, and the loop goes on; the
    history store read from then on is that of the new client.  With any
    other error text it prints "Error accessing the OpenAI API: ..." and
    leaves through [sys.exit(0)].  An exception of another class is not
    caught: the script prints nothing about it, and it ends the loop. *)
Theorem C8_request_failure (st : State) (e : Exn) :
  predict w (agent st) (prompt_of cfg w st) = Err e ->
  (is_InvalidRequestError e = true -> contains "gpt-4" (str e) = true ->
     iteration cfg w st =
     (Continue,
      with_agent (new_ThinkGPT w "gpt-3.5-turbo")
        (logged
           [Stdout "Prompting the gpt-4 model failed. Falling back to gpt-3.5-turbo"]
           (asking cfg w st)))
     /\ agent (snd (iteration cfg w st)) = new_ThinkGPT w "gpt-3.5-turbo"
     /\ trace (snd (iteration cfg w st)) =
        (trace st ++ asking_events cfg w st
         ++ [Stdout "Prompting the gpt-4 model failed. Falling back to gpt-3.5-turbo"])%list
     /\ none_updates_memory
          (asking_events cfg w st
           ++ [Stdout "Prompting the gpt-4 model failed. Falling back to gpt-3.5-turbo"])
     /\ summarized_history (snd (iteration cfg w st)) = summarized_history st
     /\ observation (snd (iteration cfg w st)) = observation st
     /\ (forall worlds i fuel, worlds i = w ->
           loop cfg worlds i (S fuel) st =
           loop cfg worlds (S i) fuel (snd (iteration cfg w st))))
  /\ (is_InvalidRequestError e = true -> contains "gpt-4" (str e) = false ->
        fst (iteration cfg w st) = Raised (SystemExit 0)
        /\ trace (snd (iteration cfg w st)) =
           (trace st ++ asking_events cfg w st
            ++ [Stdout ("Error accessing the OpenAI API: " ++ str e)])%list
        /\ (forall worlds i fuel, worlds i = w ->
              loop cfg worlds i (S fuel) st =
              (Some (SystemExit 0), snd (iteration cfg w st))))
  /\ (is_InvalidRequestError e = false ->
        iteration cfg w st = (Raised e, asking cfg w st)
        /\ trace (snd (iteration cfg w st)) =
           (trace st ++ asking_events cfg w st)%list
        /\ agent (snd (iteration cfg w st)) = agent st
        /\ (forall worlds i fuel, worlds i = w ->
              loop cfg worlds i (S fuel) st = (Some e, asking cfg w st))).
Proof.
  intros Hp.
  destruct (asking_fields cfg w st) as (Ha & _ & Ho & Hs).
  pose proof (iteration_eq cfg w st) as Hit. rewrite Hp in Hit.
  split; [|split].
  - intros Hc Hg. rewrite Hc, Hg in Hit. rewrite Hit. read_fields.
    repeat split; try assumption.
    + now rewrite trace_asking, app_assoc.
    + destruct (quiet_asking cfg w st) as [_ Hqm].
      unfold none_updates_memory in *. now rewrite existsb_app, Hqm.
    + intros worlds i fuel <-.
      now apply (loop_goes_on _ _ _ _ _ _ _ Hit).
  - intros Hc Hg. rewrite Hc, Hg in Hit. rewrite Hit. read_fields.
    repeat split.
    + now rewrite trace_asking, app_assoc.
    + intros worlds i fuel <-. now apply loop_stops.
  - intros Hc. rewrite Hc in Hit. split; [exact Hit|].
    rewrite Hit. cbn [snd]. split; [apply trace_asking|].
    split; [exact Ha|].
    intros worlds i fuel <-. now apply loop_stops.
Qed.


(** C2: what the parser does with the last line.  Whenever it returns an
    action, the argument is every line after the first, joined by line
    feeds, with the triple backticks removed: the last line is part of it,
    also when it contains [done] (line 203 assigns the shortened list to
    [res_line], line 205 joins [res_lines]). *)
Theorem C2_last_line_kept (res_lines : list string) (st st' : State)
    (command arg : string) :
  parse_response cfg w res_lines st = (Normal (command, arg), st') ->
  arg = replace "```" EmptyString (join nl (List.tl res_lines)).
Proof.
  destruct res_lines as [|line0 rest].
  - unfold parse_response. rewrite try_except_unfold. run_py. discriminate.
  - rewrite parse_response_eq.
    destruct (findall_PATTERN line0) as [|m0 [|m1 more]].
    + unfold parse_failure_outcome, update_outcome.
      destruct (summarize _ _ _ _); discriminate.
    + unfold parse_failure_outcome, update_outcome.
      destruct (summarize _ _ _ _); discriminate.
    + destruct (String.eqb (item1 m1) "done"); [discriminate|].
      intros H. now inversion H.
Qed.

(** C5: with the confirmation gate on and feedback typed, the action is not
    run and the pass reaches [continue], but the observation that is
    recorded is the fixed text of line 234, with the placeholder
    [{user_input}] left as it is: the same text whatever the user typed. *)
Theorem C5_feedback_not_recorded (st : State) (text new_summary : string)
    (m0 m1 : groups) (more : list groups) :
  predict w (agent st) (prompt_of cfg w st) = Ok text ->
  findall_PATTERN (first_line text) = m0 :: m1 :: more ->
  item1 m1 <> "done" ->
  item1 m1 <> "talk_to_user" ->
  PROMPT_USER cfg = true ->
  input w GATE_PROMPT <> EmptyString ->
  summarize w
    (summarizer_input (summarized_history st)
       (render_action (item1 m0) (item1 m1) (abbreviate (argument_of text)))
       DECLINED_OBSERVATION)
    (max_memory_item_size cfg) UPDATE_HINT = Ok new_summary ->
  fst (iteration cfg w st) = Continue
  /\ observation (snd (iteration cfg w st)) = VStr DECLINED_OBSERVATION
  /\ memory (agent (snd (iteration cfg w st))) =
     (memory (agent st)
      ++ [new_memory_text
            (render_action (item1 m0) (item1 m1)
               (abbreviate (argument_of text)))
            DECLINED_OBSERVATION])%list
  /\ trace (snd (iteration cfg w st)) =
     (trace st ++ answered_events cfg w st text
      ++ [StdoutColored
            ("MiniAGI: "
             ++ render_action (item1 m0) (item1 m1)
                  (abbreviate (argument_of text))) "cyan";
          Input GATE_PROMPT (input w GATE_PROMPT);
          Summarize
            (summarizer_input (summarized_history st)
               (render_action (item1 m0) (item1 m1)
                  (abbreviate (argument_of text)))
               DECLINED_OBSERVATION);
          Memorize
            (new_memory_text
               (render_action (item1 m0) (item1 m1)
                  (abbreviate (argument_of text)))
               DECLINED_OBSERVATION)])%list
  /\ none_runs_handler
       (skipn (List.length (trace st)) (trace (snd (iteration cfg w st)))).
Proof.
  intros Hp Hm Hd Ht Hgate Hin Hsum.
  rewrite (iteration_parsed cfg w st text m0 m1 more Hp Hm Hd), act_eq.
  apply String.eqb_neq in Ht. rewrite Ht.
  assert (Hdec : user_declines cfg w = true).
  { unfold user_declines. rewrite Hgate.
    destruct (input w GATE_PROMPT); [now destruct Hin|reflexivity]. }
  rewrite Hdec. unfold gated. rewrite Hgate.
  destruct (parsed_fields (item1 m0) (split LF text) (answered cfg w st text))
    as (Ha & Hth & Ho & Hs & Htr).
  destruct (answered_fields cfg w st text) as (Ha' & _ & _ & Hs').
  rewrite (update_outcome_ok cfg w _ _ _ _ new_summary)
    by (unfold announced; read_fields; rewrite Hs, Hs', Hth; exact Hsum).
  destruct (recorded_fields w
              (render_action
                 (thought (parsed (item1 m0) (split LF text)
                             (answered cfg w st text)))
                 (item1 m1) (abbreviate (argument_of text)))
              (VStr DECLINED_OBSERVATION)
              (with_observation (VStr DECLINED_OBSERVATION)
                 (logged [Input GATE_PROMPT (input w GATE_PROMPT)]
                    (announced (item1 m1) (argument_of text)
                       (parsed (item1 m0) (split LF text)
                          (answered cfg w st text))))))
    as (Hmem & _ & Hobs & _ & Htrace).
  cbn [fst snd]. rewrite Hmem, Hobs, Htrace. unfold announced. read_fields.
  rewrite Ha, Ha', Htr, Hs, Hs', Hth, trace_answered.
  destruct (quiet_answered cfg w st text) as [Hqh _].
  repeat split.
  - now rewrite <- !app_assoc.
  - rewrite <- !app_assoc, skipn_app, skipn_all, Nat.sub_diag.
    cbn [skipn app]. unfold none_runs_handler in *.
    now rewrite existsb_app, Hqh.
Qed.

(** C9: a [web_search] whose back end returns, be it a list of results or
    [None], never reaches the memory update of line 290: line 288 adds the
    result to a [str] and raises [TypeError], so the pass goes through the
    handler of lines 292-303 and records the error text as the
    observation. *)
Theorem C9_search_recorded_as_error (st : State) (text new_summary : string)
    (m0 m1 : groups) (more : list groups) (r : option (list SearchResult)) :
  predict w (agent st) (prompt_of cfg w st) = Ok text ->
  findall_PATTERN (first_line text) = m0 :: m1 :: more ->
  item1 m1 = "web_search" ->
  user_declines cfg w = false ->
  ddg w (argument_of text) 5 = Ok r ->
  summarize w
    (summarizer_input (summarized_history st)
       (render_action (item1 m0) "web_search" (argument_of text))
       (error_observation (concat_error (search_type_name r))))
    (max_memory_item_size cfg) UPDATE_HINT = Ok new_summary ->
  fst (iteration cfg w st) = Normal tt
  /\ observation (snd (iteration cfg w st)) =
     VStr (error_observation (concat_error (search_type_name r)))
  /\ memory (agent (snd (iteration cfg w st))) =
     (memory (agent st)
      ++ [new_memory_text
            (render_action (item1 m0) "web_search" (argument_of text))
            (error_observation (concat_error (search_type_name r)))])%list
  /\ In (StdoutColored
           ("Execution error: " ++ str (concat_error (search_type_name r)))
           "red")
        (trace (snd (iteration cfg w st))).
Proof.
  intros Hp Hm Hc Hdec Hddg Hsum.
  assert (Hd : item1 m1 <> "done") by (rewrite Hc; discriminate).
  rewrite (iteration_parsed cfg w st text m0 m1 more Hp Hm Hd), act_eq.
  rewrite Hc, Hdec. simpl String.eqb. cbv iota.
  rewrite dispatch_eq, run_command_web_search, Hddg.
  destruct (parsed_fields (item1 m0) (split LF text) (answered cfg w st text))
    as (Ha & Hth & Ho & Hs & Htr).
  destruct (answered_fields cfg w st text) as (Ha' & _ & _ & Hs').
  destruct (gated_fields cfg w
              (announced "web_search" (argument_of text)
                 (parsed (item1 m0) (split LF text) (answered cfg w st text))))
    as (Hga & _ & _ & Hgs).
  set (g := gated cfg w _) in *.
  destruct (searched_fields w (argument_of text) r g)
    as (Hsa & Hst & Hso & Hss).
  destruct (failed_fields (concat_error (search_type_name r))
              (searched w (argument_of text) r g)) as (Hft & Hfo & Hfs & Hfp).
  assert (Hcaught :
    caught cfg w (render_action (item1 m0) "web_search" (argument_of text))
      (concat_error (search_type_name r)) (searched w (argument_of text) r g) =
    (Normal tt,
     recorded w (render_action (item1 m0) "web_search" (argument_of text))
       (VStr (error_observation (concat_error (search_type_name r))))
       (failed (concat_error (search_type_name r))
          (searched w (argument_of text) r g)))).
  { unfold caught, execution_failure_outcome. cbn [is_Exception concat_error].
    apply (update_outcome_ok cfg w _ _ _ _ new_summary).
    rewrite Hfs, Hss, Hgs. unfold announced. read_fields.
    rewrite Hs, Hs'. exact Hsum. }
  rewrite Hth, Hso.
  assert (Hgoal :
    (match search_value r with
     | VStr s =>
         match summarize w
                 (summary_request w
                    (render_action (item1 m0) "web_search" (argument_of text))
                    (VStr s)
                    (logged [Stdout ("OBSERVATION: " ++ s)]
                       (searched w (argument_of text) r g)))
                 (max_memory_item_size cfg) UPDATE_HINT with
         | Ok _ =>
             (Normal tt,
              recorded w
                (render_action (item1 m0) "web_search" (argument_of text))
                (VStr s)
                (logged [Stdout ("OBSERVATION: " ++ s)]
                   (searched w (argument_of text) r g)))
         | Err e =>
             caught cfg w
               (render_action (item1 m0) "web_search" (argument_of text)) e
               (logged
                  [Summarize
                     (summary_request w
                        (render_action (item1 m0) "web_search"
                           (argument_of text))
                        (VStr s)
                        (logged [Stdout ("OBSERVATION: " ++ s)]
                           (searched w (argument_of text) r g)))]
                  (logged [Stdout ("OBSERVATION: " ++ s)]
                     (searched w (argument_of text) r g)))
         end
     | VNone =>
         caught cfg w
           (render_action (item1 m0) "web_search" (argument_of text))
           (concat_error "NoneType") (searched w (argument_of text) r g)
     | VList _ =>
         caught cfg w
           (render_action (item1 m0) "web_search" (argument_of text))
           (concat_error "list") (searched w (argument_of text) r g)
     end) =
    caught cfg w (render_action (item1 m0) "web_search" (argument_of text))
      (concat_error (search_type_name r))
      (searched w (argument_of text) r g)).
  { destruct r; reflexivity. }
  rewrite Hgoal, Hcaught. cbn [fst snd].
  destruct (recorded_fields w
              (render_action (item1 m0) "web_search" (argument_of text))
              (VStr (error_observation (concat_error (search_type_name r))))
              (failed (concat_error (search_type_name r))
                 (searched w (argument_of text) r g)))
    as (Hmem & _ & Hobs & _ & Htrace).
  rewrite Hmem, Hobs, Htrace, Hfo, agent_failed, Hsa, Hga.
  unfold announced. read_fields. rewrite Ha, Ha'.
  repeat split.
  apply in_or_app. now left.
Qed.

(** C7 (as the script behaves): when the command is none of the seven,
    the user does not decline at the gate, the observation left by the
    previous pass is a [str] and the summarizer answers, no branch of the
    dispatch runs and [observation] keeps the value it had before the
    pass, but lines 288-290 are reached all the same.  The console shows
    the abbreviated action (line 228) and then "OBSERVATION: " with that
    old observation; [update_memory] records the old observation with the
    full action.  The pass ends normally. *)
Theorem C7_unknown_command_recorded (st : State) (text new_summary o : string)
    (m0 m1 : groups) (more : list groups) :
  predict w (agent st) (prompt_of cfg w st) = Ok text ->
  findall_PATTERN (first_line text) = m0 :: m1 :: more ->
  ~ In (item1 m1) KNOWN_COMMANDS ->
  user_declines cfg w = false ->
  observation st = VStr o ->
  summarize w
    (summarizer_input (summarized_history st)
       (render_action (item1 m0) (item1 m1) (argument_of text)) o)
    (max_memory_item_size cfg) UPDATE_HINT = Ok new_summary ->
  fst (iteration cfg w st) = Normal tt
  /\ observation (snd (iteration cfg w st)) = VStr o
  /\ memory (agent (snd (iteration cfg w st))) =
     (memory (agent st)
      ++ [new_memory_text
            (render_action (item1 m0) (item1 m1) (argument_of text)) o])%list
  /\ trace (snd (iteration cfg w st)) =
     (trace st ++ answered_events cfg w st text
      ++ [StdoutColored
            ("MiniAGI: "
             ++ render_action (item1 m0) (item1 m1)
                  (abbreviate (argument_of text))) "cyan"]
      ++ gate_events cfg w
      ++ [Stdout ("OBSERVATION: " ++ o);
          Summarize
            (summarizer_input (summarized_history st)
               (render_action (item1 m0) (item1 m1) (argument_of text)) o);
          Memorize
            (new_memory_text
               (render_action (item1 m0) (item1 m1) (argument_of text))
               o)])%list
  /\ none_runs_handler
       (skipn (List.length (trace st)) (trace (snd (iteration cfg w st)))).
Proof.
  intros Hp Hm Hn Hdec Hobs Hsum.
  assert (Hd : item1 m1 <> "done") by (intros E; apply Hn; rewrite E; simpl; tauto).
  assert (Ht : String.eqb (item1 m1) "talk_to_user" = false).
  { apply String.eqb_neq. intros E. apply Hn. rewrite E. simpl. tauto. }
  rewrite (iteration_parsed cfg w st text m0 m1 more Hp Hm Hd), act_eq.
  rewrite Ht, Hdec, dispatch_eq, (run_command_unknown cfg w _ _ _ Hn).
  destruct (parsed_fields (item1 m0) (split LF text) (answered cfg w st text))
    as (Ha & Hth & Ho & Hs & Htr).
  destruct (answered_fields cfg w st text) as (Ha' & _ & Ho' & Hs').
  destruct (gated_fields cfg w
              (announced (item1 m1) (argument_of text)
                 (parsed (item1 m0) (split LF text) (answered cfg w st text))))
    as (Hga & _ & Hgo & Hgs).
  pose proof (trace_gated cfg w
                (announced (item1 m1) (argument_of text)
                   (parsed (item1 m0) (split LF text)
                      (answered cfg w st text)))) as Hgt.
  unfold announced in Hga, Hgo, Hgs, Hgt. read_fields in Hga.
  read_fields in Hgo. read_fields in Hgs. read_fields in Hgt.
  fold (announced (item1 m1) (argument_of text)
          (parsed (item1 m0) (split LF text) (answered cfg w st text)))
    in Hga, Hgo, Hgs, Hgt.
  set (g := gated cfg w _) in *.
  rewrite Hgo, Ho, Ho', Hobs, Hth.
  rewrite Hth in Hgt.
  assert (Hok :
    summarize w
      (summary_request w
         (render_action (item1 m0) (item1 m1) (argument_of text)) (VStr o)
         (logged [Stdout ("OBSERVATION: " ++ o)] g))
      (max_memory_item_size cfg) UPDATE_HINT = Ok new_summary).
  { unfold summary_request. read_fields. rewrite Hgs, Hs, Hs'. exact Hsum. }
  rewrite Hok.
  destruct (recorded_fields w
              (render_action (item1 m0) (item1 m1) (argument_of text))
              (VStr o) (logged [Stdout ("OBSERVATION: " ++ o)] g))
    as (Hmem & _ & Hrobs & _ & Htrace).
  cbn [fst snd]. rewrite Hmem, Hrobs, Htrace. read_fields.
  rewrite Hga, Ha, Ha', Hgo, Ho, Ho', Hgs, Hs, Hs', Hgt, Htr, trace_answered.
  destruct (quiet_answered cfg w st text) as [Hqh _].
  pose proof (quiet_gate cfg w) as Hqg.
  repeat split; try assumption.
  - cbn [py_str]. now rewrite <- !app_assoc.
  - rewrite <- !app_assoc, skipn_app, skipn_all, Nat.sub_diag.
    cbn [skipn app]. unfold none_runs_handler in *.
    rewrite existsb_app, Hqh. cbn [existsb is_handler_call orb].
    rewrite existsb_app, Hqg. reflexivity.
Qed.

(** C6 (as the script behaves): which rendering of the action reaches the
    history store.  In a pass with a parsed action other than [done] the
    store grows by at most one entry.  That entry is built from the full
    action when the dispatch was entered (handler run or failed), and from
    the abbreviated action (argument cut to 64 characters and followed by
    three dots, line feeds escaped) when the command is [talk_to_user] or
    the user typed feedback at the gate. *)
Theorem C6_recorded_action (st : State) (text : string) (m0 m1 : groups)
    (more : list groups) :
  predict w (agent st) (prompt_of cfg w st) = Ok text ->
  findall_PATTERN (first_line text) = m0 :: m1 :: more ->
  item1 m1 <> "done" ->
  appends_at_most
    (render_action (item1 m0) (item1 m1)
       (if String.eqb (item1 m1) "talk_to_user" || user_declines cfg w
        then abbreviate (argument_of text)
        else argument_of text))
    (memory (agent st))
    (memory (agent (snd (iteration cfg w st)))).
Proof.
  intros Hp Hm Hd.
  rewrite (iteration_parsed cfg w st text m0 m1 more Hp Hm Hd), act_eq.
  destruct (parsed_fields (item1 m0) (split LF text) (answered cfg w st text))
    as (Ha & Hth & _).
  destruct (answered_fields cfg w st text) as (Ha' & _).
  rewrite Hth.
  destruct (String.eqb (item1 m1) "talk_to_user"); cbn [orb].
  - pose proof (update_outcome_memory cfg w
                  (render_action (item1 m0) (item1 m1)
                     (abbreviate (argument_of text)))
                  (VStr ("The user responded with: "
                         ++ input w "Your response: " ++ "."))
                  (@Continue unit)
                  (talking w (argument_of text)
                     (parsed (item1 m0) (split LF text)
                        (answered cfg w st text)))) as H.
    unfold talking in H at 1. read_fields in H.
    now rewrite Ha, Ha' in H.
  - destruct (gated_fields cfg w
                (announced (item1 m1) (argument_of text)
                   (parsed (item1 m0) (split LF text)
                      (answered cfg w st text)))) as (Hga & _).
    unfold announced in Hga at 2. read_fields in Hga.
    destruct (user_declines cfg w).
    + pose proof (update_outcome_memory cfg w
                    (render_action (item1 m0) (item1 m1)
                       (abbreviate (argument_of text)))
                    (VStr DECLINED_OBSERVATION) (@Continue unit)
                    (with_observation (VStr DECLINED_OBSERVATION)
                       (gated cfg w
                          (announced (item1 m1) (argument_of text)
                             (parsed (item1 m0) (split LF text)
                                (answered cfg w st text)))))) as H.
      read_fields in H. now rewrite Hga, Ha, Ha' in H.
    + pose proof (dispatch_memory cfg w (item1 m1) (argument_of text)
                    (render_action (item1 m0) (item1 m1) (argument_of text))
                    (gated cfg w
                       (announced (item1 m1) (argument_of text)
                          (parsed (item1 m0) (split LF text)
                             (answered cfg w st text))))) as H.
      now rewrite Hga, Ha, Ha' in H.
Qed.

(** C1: the running summary is never replaced.  [update_memory] returns the
    new summary, but every call in the loop throws the result away and no
    statement assigns [summarized_history]: after any number of passes, in
    any world, it still has its initial value, the empty string. *)
Theorem C1_summary_never_replaced (worlds : nat -> World) (fuel : nat) :
  summarized_history
    (snd (loop cfg worlds 0 fuel (initial_state cfg (worlds 0)))) =
  EmptyString.
Proof. now rewrite loop_summary. Qed.

End Claims.

Lemma C3_witness :
  fst (iteration (Demo.cfg false) (Demo.answering Demo.no_tags)
         (Demo.start false (Demo.answering Demo.no_tags))) = Continue
  /\ observation
       (snd (iteration (Demo.cfg false) (Demo.answering Demo.no_tags)
               (Demo.start false (Demo.answering Demo.no_tags)))) =
     VStr ("This command was formatted incorrectly. "
           ++ "Use the correct syntax using the <r> and <c> tags.")
  /\ memory (agent (snd (iteration (Demo.cfg false)
                           (Demo.answering Demo.no_tags)
                           (Demo.start false (Demo.answering Demo.no_tags))))) =
     ["ACTION" ++ nl ++ "I will search the web for cookies." ++ nl
      ++ "RESULT:" ++ nl
      ++ "This command was formatted incorrectly. "
      ++ "Use the correct syntax using the <r> and <c> tags." ++ nl].
Proof.
  pose proof (C3_parse_failure_recorded (Demo.cfg false)
                (Demo.answering Demo.no_tags)
                (Demo.start false (Demo.answering Demo.no_tags))
                Demo.no_tags "S" eq_refl) as H.
  destruct H as (H1 & H2 & H3 & _).
  - vm_compute. lia.
  - reflexivity.
  - vm_compute in H1, H2, H3. vm_compute.
    split; [exact H1|split; [exact H2|exact H3]].
Defined.

(** C3 as worded in the specification fails: with the summarizer down, a
    response without tags ends the loop with the summarizer's exception,
    and nothing is recorded. *)
Lemma C3_counterexample :
  findall_PATTERN (first_line Demo.no_tags) = []
  /\ loop Scripted.cfg
       (fun _ =>
          Scripted.world Demo.no_tags Scripted.grumbling Scripted.printing
            Scripted.down)
       0 1
       (Scripted.start
          (Scripted.world Demo.no_tags Scripted.grumbling Scripted.printing
             Scripted.down)) =
     (Some (PyException OtherError "rate limit"),
      snd (iteration Scripted.cfg
             (Scripted.world Demo.no_tags Scripted.grumbling
                Scripted.printing Scripted.down)
             (Scripted.start
                (Scripted.world Demo.no_tags Scripted.grumbling
                   Scripted.printing Scripted.down))))
  /\ memory
       (agent
          (snd (iteration Scripted.cfg
                  (Scripted.world Demo.no_tags Scripted.grumbling
                     Scripted.printing Scripted.down)
                  (Scripted.start
                     (Scripted.world Demo.no_tags Scripted.grumbling
                        Scripted.printing Scripted.down))))) = [].
Proof. repeat split; vm_compute; reflexivity. Qed.

Lemma C4_witness :
  loop (Demo.cfg false) (fun _ => Demo.answering Demo.finished) 0 1
    (Demo.start false (Demo.answering Demo.finished)) =
  (Some (SystemExit 0),
   snd (iteration (Demo.cfg false) (Demo.answering Demo.finished)
          (Demo.start false (Demo.answering Demo.finished)))).
Proof.
  refine (proj2 (proj2 (proj2 (proj2 (proj2 (proj2 (proj2
    (C4_done_exits (Demo.cfg false) (Demo.answering Demo.finished)
       (Demo.start false (Demo.answering Demo.finished)) Demo.finished
       ("r", "all good", "r") ("c", "done", "c") [] _ _ _)))))))
    (fun _ => Demo.answering Demo.finished) 0 0 eq_refl);
  reflexivity.
Defined.

Lemma C8_witness :
  fst (iteration (Demo.cfg false)
         (Demo.world (Err (PyException InvalidRequestError
                        "The model: `gpt-4` does not exist"))
            EmptyString (Ok None))
         (Demo.start false (Demo.answering Demo.no_tags))) = Continue.
Proof.
  refine (f_equal fst (proj1 (proj1
    (C8_request_failure (Demo.cfg false)
       (Demo.world (Err (PyException InvalidRequestError
                      "The model: `gpt-4` does not exist"))
          EmptyString (Ok None))
       (Demo.start false (Demo.answering Demo.no_tags))
       (PyException InvalidRequestError "The model: `gpt-4` does not exist")
       _) _ _)));
  reflexivity.
Defined.

(** C8 as worded in the specification fails twice.  The fallback is not
    free of effects on the memory: a store of one entry is empty
    afterwards, because the agent is a new client.  And a failure of
    another class (a timeout) is not printed: the trace of the pass holds
    the request to the model and nothing else. *)
Lemma C8_counterexample :
  memory
    (agent
       (snd (iteration (Demo.cfg false) (Demo.answering Demo.no_tags)
               (Demo.start false (Demo.answering Demo.no_tags))))) =
  [new_memory_text Demo.no_tags PARSE_ERROR_OBSERVATION]
  /\ memory
       (agent
          (snd (iteration (Demo.cfg false)
                  (Demo.world
                     (Err (PyException InvalidRequestError
                             "The model: `gpt-4` does not exist"))
                     EmptyString (Ok None))
                  (snd (iteration (Demo.cfg false)
                          (Demo.answering Demo.no_tags)
                          (Demo.start false
                             (Demo.answering Demo.no_tags))))))) = []
  /\ fst (iteration (Demo.cfg false)
            (Demo.world (Err (PyException OtherError "Request timed out"))
               EmptyString (Ok None))
            (Demo.start false (Demo.answering Demo.no_tags))) =
     Raised (PyException OtherError "Request timed out")
  /\ trace
       (snd (iteration (Demo.cfg false)
               (Demo.world (Err (PyException OtherError "Request timed out"))
                  EmptyString (Ok None))
               (Demo.start false (Demo.answering Demo.no_tags)))) =
     [Predict "gpt-4"
        (prompt_of (Demo.cfg false)
           (Demo.world (Err (PyException OtherError "Request timed out"))
              EmptyString (Ok None))
           (Demo.start false (Demo.answering Demo.no_tags)))].
Proof. repeat split; vm_compute; reflexivity. Qed.


Lemma C2_witness :
  "ls" ++ nl ++ "done" =
  replace "```" EmptyString (join nl (List.tl (split LF Demo.shell_then_done))).
Proof.
  exact (C2_last_line_kept (Demo.cfg false)
           (Demo.answering Demo.shell_then_done)
           (split LF Demo.shell_then_done)
           (Demo.start false (Demo.answering Demo.shell_then_done))
           (parsed "list files" (split LF Demo.shell_then_done)
              (Demo.start false (Demo.answering Demo.shell_then_done)))
           "execute_shell" ("ls" ++ nl ++ "done") eq_refl).
Defined.

Lemma C5_witness :
  observation
    (snd (iteration (Demo.cfg true)
            (Demo.world (Ok Demo.shell_then_done) "do not list, delete"
               (Ok None))
            (Demo.start true (Demo.answering Demo.shell_then_done)))) =
  VStr DECLINED_OBSERVATION.
Proof.
  refine (proj1 (proj2
    (C5_feedback_not_recorded (Demo.cfg true)
       (Demo.world (Ok Demo.shell_then_done) "do not list, delete" (Ok None))
       (Demo.start true (Demo.answering Demo.shell_then_done))
       Demo.shell_then_done "S"
       ("r", "list files", "r") ("c", "execute_shell", "c") []
       eq_refl eq_refl _ _ eq_refl _ eq_refl)));
  discriminate.
Defined.

Lemma C9_witness :
  observation
    (snd (iteration (Demo.cfg false) (Demo.answering Demo.search_cookies)
            (Demo.start false (Demo.answering Demo.search_cookies)))) =
  VStr (error_observation (concat_error "NoneType")).
Proof.
  exact (proj1 (proj2
    (C9_search_recorded_as_error (Demo.cfg false)
       (Demo.answering Demo.search_cookies)
       (Demo.start false (Demo.answering Demo.search_cookies))
       Demo.search_cookies "S"
       ("r", "look it up", "r") ("c", "web_search", "c") [] None
       eq_refl eq_refl eq_refl eq_refl eq_refl eq_refl))).
Defined.

Lemma C7_witness :
  memory
    (agent
       (snd (iteration (Demo.cfg false) (Demo.answering Demo.unknown_command)
               (Demo.start false (Demo.answering Demo.unknown_command))))) =
  [new_memory_text (render_action "take off" "fly" "to the moon") EmptyString].
Proof.
  refine (proj1 (proj2 (proj2
    (C7_unknown_command_recorded (Demo.cfg false)
       (Demo.answering Demo.unknown_command)
       (Demo.start false (Demo.answering Demo.unknown_command))
       Demo.unknown_command "S" EmptyString
       ("r", "take off", "r") ("c", "fly", "c") []
       eq_refl eq_refl _ eq_refl eq_refl eq_refl)))).
  simpl. intuition discriminate.
Defined.

(** C7 as worded in the specification fails: an unknown command does lead
    to a memory update in that pass. *)
Lemma C7_counterexample :
  ~ In "fly" KNOWN_COMMANDS
  /\ memory
       (agent
          (snd (iteration (Demo.cfg false)
                  (Demo.answering Demo.unknown_command)
                  (Demo.start false (Demo.answering Demo.unknown_command))))) <>
     memory (agent (Demo.start false (Demo.answering Demo.unknown_command))).
Proof.
  split.
  - simpl. intuition discriminate.
  - vm_compute. discriminate.
Qed.

Lemma C6_witness :
  appends_at_most
    (render_action "need help" "talk_to_user"
       ("Which file?" ++ backslash ++ "nWhich folder?"))
    []
    (memory
       (agent
          (snd (iteration (Demo.cfg false)
                  (Demo.world (Ok Demo.ask_user) "in src" (Ok None))
                  (Demo.start false (Demo.answering Demo.ask_user)))))).
Proof.
  pose proof (C6_recorded_action (Demo.cfg false)
                (Demo.world (Ok Demo.ask_user) "in src" (Ok None))
                (Demo.start false (Demo.answering Demo.ask_user))
                Demo.ask_user
                ("r", "need help", "r") ("c", "talk_to_user", "c") []
                eq_refl eq_refl) as H.
  vm_compute in H. vm_compute. apply H. discriminate.
Defined.

(** C6 as worded in the specification fails: in a [talk_to_user] pass the
    entry appended to the store is not built from the full action. *)
Lemma C6_counterexample :
  memory
    (agent
       (snd (iteration (Demo.cfg false)
               (Demo.world (Ok Demo.ask_user) "in src" (Ok None))
               (Demo.start false (Demo.answering Demo.ask_user))))) =
  [new_memory_text
     (render_action "need help" "talk_to_user"
        ("Which file?" ++ backslash ++ "nWhich folder?"))
     "The user responded with: in src."]
  /\ argument_of Demo.ask_user = "Which file?" ++ nl ++ "Which folder?"
  /\ forall obs_text,
       memory
         (agent
            (snd (iteration (Demo.cfg false)
                    (Demo.world (Ok Demo.ask_user) "in src" (Ok None))
                    (Demo.start false (Demo.answering Demo.ask_user))))) <>
       [new_memory_text
          (render_action "need help" "talk_to_user"
             (argument_of Demo.ask_user)) obs_text].
Proof.
  split; [reflexivity|]. split; [reflexivity|].
  intros obs_text H. vm_compute in H. discriminate H.
Qed.

(** One pass on a response without tags: the summarizer is asked and
    answers ["S"], the entry is memorized, and the summary that goes into
    the next pass is still empty. *)
Example C1_summary_thrown_away :
  summarize (Demo.answering Demo.no_tags)
    (summarizer_input EmptyString Demo.no_tags PARSE_ERROR_OBSERVATION)
    2000 UPDATE_HINT = Ok "S"
  /\ In (Summarize
           (summarizer_input EmptyString Demo.no_tags PARSE_ERROR_OBSERVATION))
        (trace
           (snd (iteration (Demo.cfg false) (Demo.answering Demo.no_tags)
                   (Demo.start false (Demo.answering Demo.no_tags)))))
  /\ summarized_history
       (snd (iteration (Demo.cfg false) (Demo.answering Demo.no_tags)
               (Demo.start false (Demo.answering Demo.no_tags)))) =
     EmptyString.
Proof.
  split; [reflexivity|]. split; [|reflexivity].
  vm_compute. right. right. left. reflexivity.
Qed.

(** * Further properties of the script *)

(** ** Abbreviation of the argument (line 217) *)

Lemma prefix_nl (ch : ascii) (s : string) :
  String.prefix nl (String ch s) = Ascii.eqb ch LF.
Proof.
  destruct (Ascii.eqb_spec ch LF) as [->|Hn].
  - change (String LF s) with (nl ++ s). apply prefix_app.
  - apply prefix_other_head. now apply Ascii.eqb_neq.
Qed.

Lemma replace_nl_cons (new : string) (ch : ascii) (s : string) :
  replace nl new (String ch s) =
  if Ascii.eqb ch LF then new ++ replace nl new s
  else String ch (replace nl new s).
Proof.
  unfold replace. cbn [replace_from]. rewrite prefix_nl.
  destruct (Ascii.eqb ch LF); reflexivity.
Qed.

Lemma replace_nl_absent (new s : string) :
  no_newline s = true -> replace nl new s = s.
Proof.
  induction s as [|ch s IH]; [reflexivity|]. simpl. intros H.
  apply andb_prop in H as [H1 H2]. apply negb_true_iff in H1.
  now rewrite replace_nl_cons, H1, (IH H2).
Qed.

Lemma replace_nl_app (new a b : string) :
  replace nl new (a ++ b) = replace nl new a ++ replace nl new b.
Proof.
  induction a as [|ch a IH]; [reflexivity|].
  change (String ch a ++ b) with (String ch (a ++ b)).
  rewrite !replace_nl_cons, IH. destruct (Ascii.eqb ch LF); [|reflexivity].
  now rewrite append_assoc'.
Qed.

Lemma escaped_one_line (s : string) :
  no_newline (replace nl ESCAPED_NL s) = true.
Proof.
  induction s as [|ch s IH]; [reflexivity|].
  rewrite replace_nl_cons. destruct (Ascii.eqb ch LF) eqn:E.
  - exact IH.
  - simpl. now rewrite E, IH.
Qed.

Lemma escaped_length (s : string) :
  String.length (replace nl ESCAPED_NL s) <= 2 * String.length s.
Proof.
  induction s as [|ch s IH]; [simpl; lia|].
  rewrite replace_nl_cons. destruct (Ascii.eqb ch LF); simpl in *; lia.
Qed.

Lemma slice_to_length (n : nat) (s : string) :
  String.length (slice_to n s) <= n.
Proof.
  unfold slice_to. revert s. induction n as [|n IH]; intros s.
  - destruct s; simpl; lia.
  - destruct s as [|ch s]; simpl; [lia|]. specialize (IH s). lia.
Qed.

Lemma slice_to_all (n : nat) (s : string) :
  String.length s <= n -> slice_to n s = s.
Proof.
  unfold slice_to. revert s. induction n as [|n IH]; intros s H.
  - destruct s; [reflexivity|simpl in H; lia].
  - destruct s as [|ch s]; [reflexivity|]. simpl in *. rewrite IH; [reflexivity|lia].
Qed.

Lemma abbreviate_eq (arg : string) :
  abbreviate arg =
  if Nat.ltb (String.length arg) 64
  then replace nl ESCAPED_NL arg
  else replace nl ESCAPED_NL (slice_to 64 arg) ++ "...".
Proof.
  unfold abbreviate, ESCAPED_NL. destruct (Nat.ltb (String.length arg) 64);
    [reflexivity|].
  rewrite replace_nl_app. f_equal.
Qed.

(** X4: the action shown on the console takes one line of argument.
    Whatever the argument, its abbreviation contains no line feed: each one
    is shown as a backslash and the letter n. *)
Theorem abbreviate_one_line (arg : string) :
  no_newline (abbreviate arg) = true.
Proof.
  rewrite abbreviate_eq. destruct (Nat.ltb (String.length arg) 64).
  - apply escaped_one_line.
  - apply no_newline_app; [apply escaped_one_line|reflexivity].
Qed.

(** X5: the abbreviated argument is short.  Whatever the argument, its
    abbreviation has at most 131 characters: 64 characters of the argument,
    each of them possibly a line feed that takes two, and three dots. *)
Theorem abbreviate_bounded (arg : string) :
  String.length (abbreviate arg) <= 131.
Proof.
  rewrite abbreviate_eq. destruct (Nat.ltb_spec (String.length arg) 64).
  - pose proof (escaped_length arg). lia.
  - rewrite length_append. pose proof (escaped_length (slice_to 64 arg)).
    pose proof (slice_to_length 64 arg). simpl. lia.
Qed.

(** X6: a short argument is shown as it is recorded.  For an argument of
    fewer than 64 characters without a line feed, the abbreviated action
    (shown on the console, recorded on the user-interaction paths) is the
    full action. *)
Theorem abbreviate_short_one_line (thought command arg : string) :
  String.length arg < 64 -> no_newline arg = true ->
  render_action thought command (abbreviate arg) =
  render_action thought command arg.
Proof.
  intros Hl Hn. rewrite abbreviate_eq.
  apply Nat.ltb_lt in Hl. now rewrite Hl, replace_nl_absent.
Qed.

(** X7: the cut is at 64 characters, not after them.  An argument of
    exactly 64 characters is shown whole and still gets the three dots,
    although nothing was cut. *)
Theorem abbreviate_exactly_64 (arg : string) :
  String.length arg = 64 ->
  abbreviate arg = replace nl ESCAPED_NL arg ++ "...".
Proof.
  intros H. rewrite abbreviate_eq, H. cbn [Nat.ltb Nat.leb].
  rewrite slice_to_all by lia. reflexivity.
Qed.

(** ** Code fences (line 208) *)

Lemma prefix_cons (a : ascii) (p : string) (ch : ascii) (s : string) :
  String.prefix (String a p) (String ch s) =
  Ascii.eqb ch a && String.prefix p s.
Proof.
  destruct (Ascii.eqb_spec ch a) as [->|Hn].
  - simpl. destruct (ascii_dec a a) as [_|n]; [reflexivity|now destruct n].
  - apply prefix_other_head. now apply Ascii.eqb_neq.
Qed.

Lemma prefix_empty (s : string) : String.prefix EmptyString s = true.
Proof. now destruct s. Qed.

Lemma prefix_of_empty (a : ascii) (p : string) :
  String.prefix (String a p) EmptyString = false.
Proof. reflexivity. Qed.

(** How [replace FENCE EmptyString] goes through a text. *)
Lemma unfence_fence (t : string) :
  replace FENCE EmptyString (FENCE ++ t) = replace FENCE EmptyString t.
Proof.
  unfold replace, FENCE.
  change ("```" ++ t) with (String BACKTICK (String BACKTICK (String BACKTICK t))).
  cbn [replace_from]. rewrite !prefix_cons, prefix_empty, !Ascii.eqb_refl.
  reflexivity.
Qed.

Lemma unfence_other (ch : ascii) (s : string) :
  String.prefix FENCE (String ch s) = false ->
  replace FENCE EmptyString (String ch s) =
  String ch (replace FENCE EmptyString s).
Proof. intros H. unfold replace. cbn [replace_from]. now rewrite H. Qed.

Lemma prefix_fence_split (s : string) :
  String.prefix FENCE s = true -> exists t, s = FENCE ++ t.
Proof.
  unfold FENCE. destruct s as [|a [|b [|c t]]]; try discriminate.
  - rewrite prefix_cons. rewrite prefix_of_empty, andb_false_r. discriminate.
  - rewrite !prefix_cons, prefix_of_empty, !andb_false_r. discriminate.
  - rewrite !prefix_cons. intros H.
    apply andb_prop in H as [Ha H]. apply andb_prop in H as [Hb H].
    apply andb_prop in H as [Hc _].
    apply Ascii.eqb_eq in Ha, Hb, Hc. subst. now exists t.
Qed.

Lemma unfence_head (s : string) :
  starts_with_backtick s = false ->
  starts_with_backtick (replace FENCE EmptyString s) = false.
Proof.
  destruct s as [|ch s]; [reflexivity|]. simpl. intros H.
  rewrite unfence_other; [exact H|].
  unfold FENCE. rewrite prefix_cons. fold BACKTICK. now rewrite H.
Qed.

Lemma no_fence_prefix_after_backtick (s : string) :
  String.prefix FENCE (String BACKTICK s) = false ->
  String.prefix FENCE (String BACKTICK (replace FENCE EmptyString s)) = false.
Proof.
  unfold FENCE. rewrite !prefix_cons, !Ascii.eqb_refl. cbn [andb]. intros H.
  destruct s as [|a s]; [reflexivity|].
  rewrite prefix_cons in H.
  destruct (Ascii.eqb_spec a "`"%char) as [->|Hn].
  - (* s = ` :: s', and s' does not start with a backtick *)
    cbn [andb] in H.
    assert (Hs : starts_with_backtick s = false).
    { destruct s as [|b s]; [reflexivity|].
      rewrite prefix_cons, prefix_empty, andb_true_r in H. exact H. }
    rewrite unfence_other.
    + rewrite prefix_cons, Ascii.eqb_refl. cbn [andb].
      pose proof (unfence_head s Hs) as Hh.
      destruct (replace FENCE EmptyString s) as [|b r]; [reflexivity|].
      rewrite prefix_cons, prefix_empty, andb_true_r. exact Hh.
    + unfold FENCE. rewrite !prefix_cons, Ascii.eqb_refl. cbn [andb].
      destruct s as [|b s]; [reflexivity|].
      rewrite !prefix_cons. simpl in Hs. fold BACKTICK. now rewrite Hs.
  - rewrite unfence_other.
    + rewrite prefix_cons. apply Ascii.eqb_neq in Hn. now rewrite Hn.
    + unfold FENCE. rewrite prefix_cons. apply Ascii.eqb_neq in Hn.
      now rewrite Hn.
Qed.

Lemma unfence_clean_upto (n : nat) (s : string) :
  String.length s <= n ->
  contains FENCE (replace FENCE EmptyString s) = false.
Proof.
  revert s. induction n as [|n IH]; intros s Hlen.
  - destruct s; [reflexivity|simpl in Hlen; lia].
  - destruct s as [|ch s]; [reflexivity|].
    destruct (String.prefix FENCE (String ch s)) eqn:E.
    + destruct (prefix_fence_split _ E) as [t Ht]. rewrite Ht, unfence_fence.
      apply IH. apply (f_equal String.length) in Ht.
      rewrite length_append in Ht. simpl in *. lia.
    + rewrite (unfence_other _ _ E). cbn [contains].
      rewrite (IH s) by (simpl in Hlen; lia). rewrite orb_false_r.
      destruct (Ascii.eqb_spec ch BACKTICK) as [->|Hn].
      * now apply no_fence_prefix_after_backtick.
      * unfold FENCE. rewrite prefix_cons. apply Ascii.eqb_neq in Hn.
        fold BACKTICK. now rewrite Hn.
Qed.

Lemma argument_has_no_fence (text : string) :
  contains FENCE (argument_of text) = false.
Proof.
  unfold argument_of. apply (unfence_clean_upto _ _ (le_n _)).
Qed.

Lemma unfence_absent (s : string) :
  contains FENCE s = false -> replace FENCE EmptyString s = s.
Proof.
  induction s as [|ch s IH]; [reflexivity|].
  cbn [contains]. intros H. apply orb_false_elim in H as [Hp Hc].
  now rewrite (unfence_other _ _ Hp), (IH Hc).
Qed.

(** ** The matches of the pattern (lines 191-192) *)

Lemma prefix_split (p s : string) :
  String.prefix p s = true -> exists post, s = p ++ post.
Proof.
  revert s. induction p as [|a p IH]; intros s H.
  - now exists s.
  - destruct s as [|ch s]; [discriminate|].
    rewrite prefix_cons in H. apply andb_prop in H as [Ha Hp].
    apply Ascii.eqb_eq in Ha. subst ch.
    destruct (IH s Hp) as [post ->]. now exists post.
Qed.

Lemma lazy_body_sound (s body t : string) (n : nat) :
  lazy_body s = Some (body, t, n) ->
  is_tag t /\ no_newline body = true /\ n = String.length body + 4
  /\ exists post, s = body ++ "</" ++ t ++ ">" ++ post.
Proof.
  revert body n. induction s as [|ch s IH]; intros body n.
  - discriminate.
  - cbn [lazy_body].
    destruct (String.prefix "</r>" (String ch s)) eqn:Er.
    { intros H. inversion H; subst. destruct (prefix_split _ _ Er) as [post Hs].
      repeat split; [now left|]. now exists post. }
    destruct (String.prefix "</c>" (String ch s)) eqn:Ec.
    { intros H. inversion H; subst. destruct (prefix_split _ _ Ec) as [post Hs].
      repeat split; [now right|]. now exists post. }
    destruct (Ascii.eqb ch LF) eqn:El; [discriminate|].
    destruct (lazy_body s) as [[[body' t'] n']|]; [|discriminate].
    intros H. inversion H; subst.
    destruct (IH body' n' eq_refl) as (Ht & Hn & Hl & post & Hs).
    repeat split; [exact Ht|simpl; now rewrite El, Hn|simpl; lia|].
    exists post. now rewrite Hs.
Qed.

Lemma match_here_sound (s : string) (m : groups) (n : nat) :
  match_here s = Some (m, n) ->
  is_tag (fst (fst m)) /\ is_tag (snd m) /\ no_newline (item1 m) = true
  /\ n = String.length (tagged (fst (fst m)) (item1 m) (snd m))
  /\ exists post, s = tagged (fst (fst m)) (item1 m) (snd m) ++ post.
Proof.
  unfold match_here.
  assert (Hcase : forall t1 : string, is_tag t1 ->
            String.prefix ("<" ++ t1 ++ ">") s = true ->
            match lazy_body (drop 3 s) with
            | Some (body, t3, n0) => Some (t1, body, t3, 3 + n0)
            | None => None
            end = Some (m, n) ->
            is_tag (fst (fst m)) /\ is_tag (snd m)
            /\ no_newline (item1 m) = true
            /\ n = String.length (tagged (fst (fst m)) (item1 m) (snd m))
            /\ exists post, s = tagged (fst (fst m)) (item1 m) (snd m) ++ post).
  { intros t1 Ht1 Hpre. destruct (prefix_split _ _ Hpre) as [rest Hs].
    assert (Hdrop : drop 3 s = rest).
    { rewrite Hs. destruct Ht1 as [-> | ->]; apply drop_three. }
    rewrite Hdrop.
    destruct (lazy_body rest) as [[[body t3] n0]|] eqn:El; [|discriminate].
    intros H. inversion H; subst m n. cbn [fst snd item1].
    destruct (lazy_body_sound _ _ _ _ El) as (Ht3 & Hn & Hlen & post & Hrest).
    repeat split; try assumption.
    - rewrite (length_tagged _ _ _ Ht1 Ht3). lia.
    - exists post. rewrite Hs, Hrest. unfold tagged.
      now rewrite !append_assoc'. }
  destruct (String.prefix "<r>" s) eqn:Er.
  { apply (Hcase "r"); [now left|exact Er]. }
  destruct (String.prefix "<c>" s) eqn:Ec.
  { apply (Hcase "c"); [now right|exact Ec]. }
  discriminate.
Qed.

Lemma findall_from_sound (s : string) :
  forall (skip : nat) (m : groups),
    In m (findall_from skip s) ->
    is_tag (fst (fst m)) /\ is_tag (snd m) /\ no_newline (item1 m) = true
    /\ exists before after,
         s = before ++ tagged (fst (fst m)) (item1 m) (snd m) ++ after.
Proof.
  induction s as [|ch s IH]; intros skip m.
  - destruct skip; [|intros []]. cbn [findall_from].
    destruct (match_here EmptyString) as [[m0 n]|] eqn:E; [|intros []].
    unfold match_here in E. discriminate.
  - destruct skip as [|k]; cbn [findall_from].
    + destruct (match_here (String ch s)) as [[m0 n]|] eqn:E.
      * intros [<-|Hin].
        { destruct (match_here_sound _ _ _ E) as (H1 & H3 & Hn & _ & post & Hs).
          repeat split; try assumption.
          exists EmptyString, post. exact Hs. }
        destruct (IH _ _ Hin) as (H1 & H3 & Hn & before & after & Hs).
        repeat split; try assumption.
        exists (String ch before), after. now rewrite Hs.
      * intros Hin.
        destruct (IH _ _ Hin) as (H1 & H3 & Hn & before & after & Hs).
        repeat split; try assumption.
        exists (String ch before), after. now rewrite Hs.
    + intros Hin.
      destruct (IH _ _ Hin) as (H1 & H3 & Hn & before & after & Hs).
      repeat split; try assumption.
      exists (String ch before), after. now rewrite Hs.
Qed.

(** X2: every match reported on a line is a tag pair of that line.  Its
    two tag names are [r] or [c], its text has no line feed, and the line
    reads: something, the opening tag, the text, the closing tag,
    something. *)
Theorem matches_are_tag_pairs (line : string) (m : groups) :
  In m (findall_PATTERN line) ->
  is_tag (fst (fst m)) /\ is_tag (snd m) /\ no_newline (item1 m) = true
  /\ exists before after,
       line = before ++ tagged (fst (fst m)) (item1 m) (snd m) ++ after.
Proof. apply findall_from_sound. Qed.

Section Format.

Variable cfg : Config.
Variable w : World.

(** X1: a response in the format the prompt asks for is read back as
    written.  When the first line is the reasoning in [r] tags followed by
    the command in [c] tags, both free of [<] and line feeds, the command
    is not [done] and the argument holds no code fence, the parser returns
    that command and that argument, stores that reasoning in [thought] and
    prints nothing. *)
Theorem mandatory_format_is_read_back (X Y Z : string) (st : State) :
  plain X = true -> plain Y = true -> Y <> "done" ->
  contains FENCE Z = false ->
  fst (parse_response cfg w (split LF (formatted X Y Z)) st) = Normal (Y, Z)
  /\ thought (snd (parse_response cfg w (split LF (formatted X Y Z)) st)) = X
  /\ trace (snd (parse_response cfg w (split LF (formatted X Y Z)) st)) =
     trace st.
Proof.
  intros HX HY Hd HZ. unfold formatted.
  rewrite (parse_well_formed cfg w X Y Z st HX HY Hd). cbn [fst snd].
  destruct (parsed_fields X
              (split LF (tagged "r" X "r" ++ tagged "c" Y "c" ++ nl ++ Z)) st)
    as (_ & -> & _ & _ & ->).
  change "```" with FENCE. now rewrite (unfence_absent Z HZ).
Qed.

End Format.

(** ** Through the dispatch (lines 239-303) *)

Section Dispatching.

Variable cfg : Config.
Variable w : World.

#[local] Arguments String.append : simpl never.

Lemma ready_fields (st : State) (text reasoning command : string) :
  agent (ready cfg w st text reasoning command) = agent st
  /\ thought (ready cfg w st text reasoning command) = reasoning
  /\ observation (ready cfg w st text reasoning command) = observation st
  /\ summarized_history (ready cfg w st text reasoning command) =
     summarized_history st
  /\ trace (ready cfg w st text reasoning command) =
     (trace st ++ ready_events cfg w st text reasoning command)%list.
Proof.
  unfold ready, ready_events.
  destruct (gated_fields cfg w
              (announced command (argument_of text)
                 (parsed reasoning (split LF text) (answered cfg w st text))))
    as (-> & -> & -> & ->).
  rewrite trace_gated. unfold announced. read_fields.
  destruct (parsed_fields reasoning (split LF text) (answered cfg w st text))
    as (-> & -> & -> & -> & ->).
  destruct (answered_fields cfg w st text) as (-> & _ & -> & ->).
  rewrite trace_answered. repeat split. now rewrite <- !app_assoc.
Qed.

(** A pass whose action is neither [done] nor [talk_to_user] and is not
    declined reaches the dispatch. *)
Lemma iteration_dispatch (st : State) (text : string) (m0 m1 : groups)
    (more : list groups) :
  predict w (agent st) (prompt_of cfg w st) = Ok text ->
  findall_PATTERN (first_line text) = m0 :: m1 :: more ->
  item1 m1 <> "done" ->
  item1 m1 <> "talk_to_user" ->
  user_declines cfg w = false ->
  iteration cfg w st =
  dispatch cfg w (item1 m1) (argument_of text)
    (render_action (item1 m0) (item1 m1) (argument_of text))
    (ready cfg w st text (item1 m0) (item1 m1)).
Proof.
  intros Hp Hm Hd Ht Hdec.
  rewrite (iteration_parsed cfg w st text m0 m1 more Hp Hm Hd), act_eq.
  apply String.eqb_neq in Ht. rewrite Ht, Hdec.
  destruct (parsed_fields (item1 m0) (split LF text) (answered cfg w st text))
    as (_ & -> & _).
  reflexivity.
Qed.

Lemma skipn_past {A} (l evs : list A) :
  skipn (List.length l) (l ++ evs) = evs.
Proof. now rewrite skipn_app, skipn_all, Nat.sub_diag. Qed.

(** The three ways through the dispatch. *)
Lemma dispatch_success (command arg action s new_summary : string)
    (st st1 : State) :
  run_command cfg w command arg st = (Normal tt, st1) ->
  observation st1 = VStr s ->
  summarize w (summarizer_input (summarized_history st1) action s)
    (max_memory_item_size cfg) UPDATE_HINT = Ok new_summary ->
  dispatch cfg w command arg action st =
  (Normal tt,
   recorded w action (VStr s) (logged [Stdout ("OBSERVATION: " ++ s)] st1)).
Proof.
  intros Hr Ho Hs. rewrite dispatch_eq, Hr, Ho.
  unfold summary_request. read_fields. unfold summarizer_input in Hs.
  cbn [py_str]. now rewrite Hs.
Qed.

Lemma dispatch_failure (command arg action new_summary : string) (e : Exn)
    (st st1 : State) :
  run_command cfg w command arg st = (Raised e, st1) ->
  is_Exception e = true ->
  summarize w
    (summarizer_input (summarized_history st1) action (error_observation e))
    (max_memory_item_size cfg) UPDATE_HINT = Ok new_summary ->
  dispatch cfg w command arg action st =
  (Normal tt, recorded w action (VStr (error_observation e)) (failed e st1)).
Proof.
  intros Hr He Hs. rewrite dispatch_eq, Hr. unfold caught. rewrite He.
  unfold execution_failure_outcome.
  apply (update_outcome_ok cfg w _ _ _ _ new_summary).
  destruct (failed_fields e st1) as (_ & _ & -> & _). exact Hs.
Qed.

Lemma dispatch_fatal (command arg action : string) (e : Exn)
    (st st1 : State) :
  run_command cfg w command arg st = (Raised e, st1) ->
  is_Exception e = false ->
  dispatch cfg w command arg action st = (Raised e, st1).
Proof.
  intros Hr He. rewrite dispatch_eq, Hr. unfold caught. now rewrite He.
Qed.

Lemma trace_failed (e : Exn) (st : State) :
  trace (failed e st) =
  (trace st
   ++ (if contains "context length" (str e)
       then [StdoutColored (CONTEXT_LENGTH_HINT e) "red"] else [])
   ++ [StdoutColored ("Execution error: " ++ str e) "red"])%list.
Proof.
  unfold failed, CONTEXT_LENGTH_HINT.
  destruct (contains "context length" (str e)); read_fields.
  - now rewrite <- app_assoc.
  - reflexivity.
Qed.

(** The branches of the dispatch, one by one. *)
Lemma run_command_execute_python (arg : string) (st : State) :
  run_command cfg w "execute_python" arg st =
  match exec w arg with
  | Ok out => (Normal tt, with_observation (VStr out) (logged [Exec arg] st))
  | Err e => (Raised e, logged [Exec arg] st)
  end.
Proof.
  unfold run_command. simpl String.eqb. cbv iota.
  unfold call_exec. run_py. destruct (exec w arg); reflexivity.
Qed.

Lemma run_command_execute_shell (arg : string) (st : State) :
  run_command cfg w "execute_shell" arg st =
  match subprocess_run w arg with
  | Ok (out, err) =>
      (Normal tt,
       with_observation
         (VStr ("STDOUT:" ++ nl ++ out ++ nl ++ "STDERR:" ++ nl ++ err))
         (logged
            (if Nat.ltb 0 (String.length err)
             then [StdoutColored ("Execution error: " ++ err) "red"] else [])
            (logged [Shell arg] st)))
  | Err e => (Raised e, logged [Shell arg] st)
  end.
Proof.
  unfold run_command. simpl String.eqb. cbv iota.
  unfold call_subprocess_run. run_py.
  destruct (subprocess_run w arg) as [[out err]|e]; [|reflexivity].
  destruct (Nat.ltb 0 (String.length err)); run_py; [reflexivity|].
  unfold logged, with_observation. read_fields. now rewrite app_nil_r.
Qed.

Lemma run_command_read_file (arg : string) (st : State) :
  run_command cfg w "read_file" arg st =
  match open_read w arg with
  | Ok content =>
      match chunked_summarize w content (max_memory_item_size cfg)
              (SUMMARY_HINT ++ EXTRA_SUMMARY_HINT_format (objective cfg)) with
      | Ok file_content =>
          (Normal tt,
           with_observation (VStr file_content)
             (logged [ChunkedSummarize content] (logged [OpenFile arg] st)))
      | Err e =>
          (Raised e,
           logged [ChunkedSummarize content] (logged [OpenFile arg] st))
      end
  | Err e => (Raised e, logged [OpenFile arg] st)
  end.
Proof.
  unfold run_command. simpl String.eqb. cbv iota.
  unfold call_open, call_chunked_summarize. run_py.
  destruct (open_read w arg) as [content|e]; [|reflexivity].
  destruct (chunked_summarize w content _ _); reflexivity.
Qed.

Lemma run_command_web_scrape (arg : string) (st : State) :
  run_command cfg w "web_scrape" arg st =
  match urlopen_read w arg with
  | Ok html =>
      match get_text w html with
      | Ok text =>
          match chunked_summarize w text (max_memory_item_size cfg)
                  (SUMMARY_HINT ++ EXTRA_SUMMARY_HINT_format (objective cfg))
          with
          | Ok response_text =>
              (Normal tt,
               with_observation (VStr response_text)
                 (logged [ChunkedSummarize text] (logged [Urlopen arg] st)))
          | Err e =>
              (Raised e,
               logged [ChunkedSummarize text] (logged [Urlopen arg] st))
          end
      | Err e => (Raised e, logged [Urlopen arg] st)
      end
  | Err e => (Raised e, logged [Urlopen arg] st)
  end.
Proof.
  unfold run_command. simpl String.eqb. cbv iota.
  unfold call_urlopen, call_chunked_summarize. run_py.
  destruct (urlopen_read w arg) as [html|e]; [|reflexivity].
  destruct (get_text w html) as [text|e]; [|reflexivity].
  destruct (chunked_summarize w text _ _); reflexivity.
Qed.

Lemma run_command_done (arg : string) (st : State) :
  run_command cfg w "done" arg st =
  (Raised (SystemExit 0), logged [Stdout "Objective achieved."] st).
Proof. reflexivity. Qed.

End Dispatching.


(** ** What a computation adds to the trace *)

Section Emitting.

Variable P : Event -> Prop.

Lemma emits_silent {A} (c : M A) :
  (forall st, trace (snd (c st)) = trace st) -> emits P c.
Proof.
  intros H st. exists []. rewrite H, app_nil_r. now split.
Qed.

Lemma emits_emit (ev : Event) : P ev -> emits P (emit ev).
Proof. intros H st. exists [ev]. split; [reflexivity|]. now constructor. Qed.

Lemma emits_bind {A B} (c : M A) (k : A -> M B) :
  emits P c -> (forall a, emits P (k a)) -> emits P (bind c k).
Proof.
  intros Hc Hk st. rewrite bind_unfold. destruct (Hc st) as (evs & He & Hf).
  destruct (c st) as [[a|e|] st1]; simpl in *.
  - destruct (Hk a st1) as (evs' & He' & Hf'). exists (evs ++ evs')%list.
    rewrite He', He, app_assoc. split; [reflexivity|].
    apply Forall_app. now split.
  - now exists evs.
  - now exists evs.
Qed.

Lemma emits_try_except {A} (body : M A) (catches : Exn -> bool)
    (handler : Exn -> M A) :
  emits P body -> (forall e, emits P (handler e)) ->
  emits P (try_except body catches handler).
Proof.
  intros Hb Hh st. rewrite try_except_unfold.
  destruct (Hb st) as (evs & He & Hf).
  destruct (body st) as [[a|e|] st1]; simpl in *; try (now exists evs).
  destruct (catches e); [|now exists evs].
  destruct (Hh e st1) as (evs' & He' & Hf'). exists (evs ++ evs')%list.
  rewrite He', He, app_assoc. split; [reflexivity|].
  apply Forall_app. now split.
Qed.

Lemma emits_when (b : bool) (c : M unit) : emits P c -> emits P (when b c).
Proof.
  destruct b; [trivial|]. intros _. now apply emits_silent.
Qed.

Lemma emits_lift {A} (r : Result A) : emits P (lift r).
Proof. apply emits_silent. now destruct r. Qed.

Lemma emits_getitem {A} (xs : list A) (i : nat) : emits P (getitem xs i).
Proof.
  apply emits_silent. intros st. unfold getitem. now destruct (nth_error xs i).
Qed.

Lemma emits_getitem_last {A} (xs : list A) : emits P (getitem_last xs).
Proof.
  apply emits_silent. intros st. unfold getitem_last. now destruct (rev xs).
Qed.

Lemma emits_str_add (left : string) (v : PyVal) : emits P (str_add left v).
Proof. apply emits_silent. now destruct v. Qed.

End Emitting.

(** Splits a monadic program into its steps; what is left are the events
    themselves, as goals [P ev]. *)
Ltac emitting :=
  repeat first
    [ apply emits_bind; [|intros]
    | apply emits_try_except; [|intros]
    | apply emits_when
    | apply emits_lift
    | apply emits_getitem
    | apply emits_getitem_last
    | apply emits_str_add
    | apply emits_emit
    | match goal with
      | |- emits _ (if ?b then _ else _) => destruct b
      | |- emits _ (let (_, _) := ?p in _) => destruct p
      | |- emits _ (match ?p with (_, _) => _ end) => destruct p
      end
    | (apply emits_silent; intros ?; reflexivity) ].


Section HandlerEvents.

Variable cfg : Config.
Variable w : World.

Lemma run_command_emits (command arg : string) :
  emits handler_event (run_command cfg w command arg).
Proof.
  unfold run_command, call_exec, call_subprocess_run, call_ddg, call_urlopen,
    call_chunked_summarize, call_open, print, print_colored, sys_exit.
  emitting; now split.
Qed.

End HandlerEvents.

Section Handlers.

Variable cfg : Config.
Variable w : World.

#[local] Arguments String.append : simpl never.

(** X10: a shell command that writes to stderr is not a failure.  Whatever
    the command printed, the pass ends normally and records stdout and
    stderr together as the observation, with the full action; text on
    stderr is shown on the console in red as well. *)
Theorem shell_stderr_is_not_a_failure (st : State)
    (text out err new_summary : string) (m0 m1 : groups)
    (more : list groups) :
  predict w (agent st) (prompt_of cfg w st) = Ok text ->
  findall_PATTERN (first_line text) = m0 :: m1 :: more ->
  item1 m1 = "execute_shell" ->
  user_declines cfg w = false ->
  subprocess_run w (argument_of text) = Ok (out, err) ->
  summarize w
    (summarizer_input (summarized_history st)
       (render_action (item1 m0) "execute_shell" (argument_of text))
       (shell_observation out err))
    (max_memory_item_size cfg) UPDATE_HINT = Ok new_summary ->
  fst (iteration cfg w st) = Normal tt
  /\ observation (snd (iteration cfg w st)) = VStr (shell_observation out err)
  /\ memory (agent (snd (iteration cfg w st))) =
     (memory (agent st)
      ++ [new_memory_text
            (render_action (item1 m0) "execute_shell" (argument_of text))
            (shell_observation out err)])%list
  /\ events_of_pass cfg w st =
     (ready_events cfg w st text (item1 m0) "execute_shell"
      ++ [Shell (argument_of text)]
      ++ (if Nat.ltb 0 (String.length err)
          then [StdoutColored ("Execution error: " ++ err) "red"] else [])
      ++ [Stdout ("OBSERVATION: " ++ shell_observation out err);
          Summarize
            (summarizer_input (summarized_history st)
               (render_action (item1 m0) "execute_shell" (argument_of text))
               (shell_observation out err));
          Memorize
            (new_memory_text
               (render_action (item1 m0) "execute_shell" (argument_of text))
               (shell_observation out err))])%list.
Proof.
  intros Hp Hm Hc Hdec Hrun Hsum.
  assert (Hd : item1 m1 <> "done") by (rewrite Hc; discriminate).
  assert (Ht : item1 m1 <> "talk_to_user") by (rewrite Hc; discriminate).
  unfold events_of_pass.
  rewrite (iteration_dispatch cfg w st text m0 m1 more Hp Hm Hd Ht Hdec), Hc.
  destruct (ready_fields cfg w st text (item1 m0) "execute_shell")
    as (Ha & _ & _ & Hs & Htr).
  set (r := ready cfg w st text (item1 m0) "execute_shell") in *.
  pose proof (run_command_execute_shell cfg w (argument_of text) r) as Hrc.
  rewrite Hrun in Hrc.
  rewrite (dispatch_success cfg w _ _ _ (shell_observation out err)
             new_summary _ _ Hrc)
    by (try reflexivity; read_fields; rewrite Hs; exact Hsum).
  match goal with
  | |- context [recorded w ?a ?o ?s] =>
      destruct (recorded_fields w a o s) as (Hmem & _ & Hobs & _ & Htrace)
  end.
  cbn [fst snd]. rewrite Hmem, Hobs, Htrace. read_fields.
  rewrite Ha, Hs, Htr. repeat split.
  cbn [py_str]. rewrite <- !app_assoc. apply skipn_past.
Qed.

(** X11: what a handler returns is what gets recorded.  Whatever the
    command, when its handler returns with a [str] in [observation], the
    pass prints "OBSERVATION: " and that text, records it with the full
    action, and ends normally. *)
Theorem handler_result_is_recorded (st st1 : State)
    (text s new_summary : string) (m0 m1 : groups) (more : list groups) :
  predict w (agent st) (prompt_of cfg w st) = Ok text ->
  findall_PATTERN (first_line text) = m0 :: m1 :: more ->
  item1 m1 <> "done" ->
  item1 m1 <> "talk_to_user" ->
  user_declines cfg w = false ->
  run_command cfg w (item1 m1) (argument_of text)
    (ready cfg w st text (item1 m0) (item1 m1)) = (Normal tt, st1) ->
  observation st1 = VStr s ->
  summarize w
    (summarizer_input (summarized_history st)
       (render_action (item1 m0) (item1 m1) (argument_of text)) s)
    (max_memory_item_size cfg) UPDATE_HINT = Ok new_summary ->
  fst (iteration cfg w st) = Normal tt
  /\ observation (snd (iteration cfg w st)) = VStr s
  /\ memory (agent (snd (iteration cfg w st))) =
     (memory (agent st)
      ++ [new_memory_text
            (render_action (item1 m0) (item1 m1) (argument_of text)) s])%list
  /\ exists handler_events,
       Forall handler_event handler_events
       /\ events_of_pass cfg w st =
          (ready_events cfg w st text (item1 m0) (item1 m1)
           ++ handler_events
           ++ [Stdout ("OBSERVATION: " ++ s);
               Summarize
                 (summarizer_input (summarized_history st)
                    (render_action (item1 m0) (item1 m1) (argument_of text))
                    s);
               Memorize
                 (new_memory_text
                    (render_action (item1 m0) (item1 m1) (argument_of text))
                    s)])%list.
Proof.
  intros Hp Hm Hd Ht Hdec Hrc Hobs Hsum.
  unfold events_of_pass.
  rewrite (iteration_dispatch cfg w st text m0 m1 more Hp Hm Hd Ht Hdec).
  destruct (ready_fields cfg w st text (item1 m0) (item1 m1))
    as (Ha & _ & _ & Hs & Htr).
  set (r := ready cfg w st text (item1 m0) (item1 m1)) in *.
  pose proof (run_command_agent cfg w (item1 m1) (argument_of text) r) as Hag.
  pose proof (run_command_summary cfg w (item1 m1) (argument_of text) r) as Hsh.
  destruct (run_command_emits cfg w (item1 m1) (argument_of text) r)
    as (evs & Hevs & Hfor).
  rewrite Hrc in Hag, Hsh, Hevs. cbn [snd] in Hag, Hsh, Hevs.
  rewrite (dispatch_success cfg w _ _ _ s new_summary _ _ Hrc Hobs)
    by (rewrite Hsh, Hs; exact Hsum).
  match goal with
  | |- context [recorded w ?a ?o ?s] =>
      destruct (recorded_fields w a o s) as (Hmem & _ & Hrobs & _ & Htrace)
  end.
  cbn [fst snd]. rewrite Hmem, Hrobs, Htrace. read_fields.
  rewrite Hobs, Hag, Ha, Hsh, Hs, Hevs, Htr.
  repeat split. exists evs. split; [exact Hfor|].
  cbn [py_str]. rewrite <- !app_assoc. apply skipn_past.
Qed.

(** X12: an ordinary exception of a command handler is caught and
    recorded.  Whatever the command, when its handler raises an
    [Exception] and the summarizer answers the call of [update_memory] on
    line 303, the pass prints the error in red (with the advice to lower
    the size limits when the text mentions the context length), records
    the error text as the observation with the full action, and ends
    normally. *)
Theorem handler_exception_is_recorded (st st1 : State)
    (text new_summary : string) (m0 m1 : groups) (more : list groups)
    (e : Exn) :
  predict w (agent st) (prompt_of cfg w st) = Ok text ->
  findall_PATTERN (first_line text) = m0 :: m1 :: more ->
  item1 m1 <> "done" ->
  item1 m1 <> "talk_to_user" ->
  user_declines cfg w = false ->
  run_command cfg w (item1 m1) (argument_of text)
    (ready cfg w st text (item1 m0) (item1 m1)) = (Raised e, st1) ->
  is_Exception e = true ->
  summarize w
    (summarizer_input (summarized_history st)
       (render_action (item1 m0) (item1 m1) (argument_of text))
       (error_observation e))
    (max_memory_item_size cfg) UPDATE_HINT = Ok new_summary ->
  fst (iteration cfg w st) = Normal tt
  /\ observation (snd (iteration cfg w st)) = VStr (error_observation e)
  /\ memory (agent (snd (iteration cfg w st))) =
     (memory (agent st)
      ++ [new_memory_text
            (render_action (item1 m0) (item1 m1) (argument_of text))
            (error_observation e)])%list
  /\ exists handler_events,
       Forall handler_event handler_events
       /\ events_of_pass cfg w st =
          (ready_events cfg w st text (item1 m0) (item1 m1)
           ++ handler_events
           ++ (if contains "context length" (str e)
               then [StdoutColored (CONTEXT_LENGTH_HINT e) "red"] else [])
           ++ [StdoutColored ("Execution error: " ++ str e) "red";
               Summarize
                 (summarizer_input (summarized_history st)
                    (render_action (item1 m0) (item1 m1) (argument_of text))
                    (error_observation e));
               Memorize
                 (new_memory_text
                    (render_action (item1 m0) (item1 m1) (argument_of text))
                    (error_observation e))])%list.
Proof.
  intros Hp Hm Hd Ht Hdec Hrc He Hsum.
  unfold events_of_pass.
  rewrite (iteration_dispatch cfg w st text m0 m1 more Hp Hm Hd Ht Hdec).
  destruct (ready_fields cfg w st text (item1 m0) (item1 m1))
    as (Ha & _ & _ & Hs & Htr).
  set (r := ready cfg w st text (item1 m0) (item1 m1)) in *.
  pose proof (run_command_agent cfg w (item1 m1) (argument_of text) r) as Hag.
  pose proof (run_command_summary cfg w (item1 m1) (argument_of text) r) as Hsh.
  destruct (run_command_emits cfg w (item1 m1) (argument_of text) r)
    as (evs & Hevs & Hfor).
  rewrite Hrc in Hag, Hsh, Hevs. cbn [snd] in Hag, Hsh, Hevs.
  rewrite (dispatch_failure cfg w _ _ _ new_summary e _ _ Hrc He)
    by (rewrite Hsh, Hs; exact Hsum).
  match goal with
  | |- context [recorded w ?a ?o ?s] =>
      destruct (recorded_fields w a o s) as (Hmem & _ & Hobs & _ & Htrace)
  end.
  destruct (failed_fields e st1) as (_ & Hfo & Hfs & _).
  cbn [fst snd]. rewrite Hmem, Hobs, Htrace, Hfo, Hfs, agent_failed.
  rewrite trace_failed, Hag, Ha, Hsh, Hs, Hevs, Htr.
  repeat split. exists evs. split; [exact Hfor|].
  cbn [py_str]. rewrite <- !app_assoc. apply skipn_past.
Qed.

(** X13: an exception that is not an [Exception] passes the handler of the
    dispatch.  When a command handler raises [SystemExit] (code run by
    [execute_python] calling [sys.exit], say), nothing is recorded and the
    loop ends with that exception. *)
Theorem handler_exit_ends_the_loop (st st1 : State) (text : string)
    (m0 m1 : groups) (more : list groups) (e : Exn) :
  predict w (agent st) (prompt_of cfg w st) = Ok text ->
  findall_PATTERN (first_line text) = m0 :: m1 :: more ->
  item1 m1 <> "done" ->
  item1 m1 <> "talk_to_user" ->
  user_declines cfg w = false ->
  run_command cfg w (item1 m1) (argument_of text)
    (ready cfg w st text (item1 m0) (item1 m1)) = (Raised e, st1) ->
  is_Exception e = false ->
  iteration cfg w st = (Raised e, st1)
  /\ agent st1 = agent st
  /\ none_updates_memory (events_of_pass cfg w st)
  /\ (forall worlds i fuel, worlds i = w ->
        loop cfg worlds i (S fuel) st = (Some e, st1)).
Proof.
  intros Hp Hm Hd Ht Hdec Hrc He.
  assert (Hit : iteration cfg w st = (Raised e, st1)).
  { rewrite (iteration_dispatch cfg w st text m0 m1 more Hp Hm Hd Ht Hdec).
    now apply dispatch_fatal. }
  destruct (ready_fields cfg w st text (item1 m0) (item1 m1))
    as (Ha & _ & _ & _ & Htr).
  pose proof (run_command_agent cfg w (item1 m1) (argument_of text)
                (ready cfg w st text (item1 m0) (item1 m1))) as Hag.
  destruct (run_command_emits cfg w (item1 m1) (argument_of text)
              (ready cfg w st text (item1 m0) (item1 m1)))
    as (evs & Hevs & Hfor).
  rewrite Hrc in Hag, Hevs. cbn [snd] in Hag, Hevs.
  repeat split.
  - exact Hit.
  - now rewrite Hag.
  - unfold events_of_pass, none_updates_memory. rewrite Hit. cbn [snd].
    rewrite Hevs, Htr, <- app_assoc, skipn_past.
    unfold ready_events. rewrite !existsb_app.
    destruct (quiet_answered cfg w st text) as [_ Hq].
    unfold none_updates_memory in Hq. rewrite Hq. cbn [existsb is_memory_call orb].
    assert (Hg : existsb is_memory_call (gate_events cfg w) = false).
    { unfold gate_events. now destruct (PROMPT_USER cfg). }
    rewrite Hg. cbn [orb].
    clear - Hfor. induction Hfor as [|ev evs [Hev _] _ IH]; [reflexivity|].
    cbn [existsb]. now rewrite Hev, IH.
  - intros worlds i fuel <-. now apply loop_stops.
Qed.

(** X14: when the summarizer fails on a successful observation.  The call of
    line 290 is inside the [try]: an [Exception] of the summarizer there is
    handled like a failure of the command, so the entry that is recorded
    holds the summarizer's error text in place of the observation the
    handler produced, and the summarizer is asked twice. *)
Theorem summarizer_failure_replaces_observation (st st1 : State)
    (text s new_summary : string) (m0 m1 : groups) (more : list groups)
    (e : Exn) :
  predict w (agent st) (prompt_of cfg w st) = Ok text ->
  findall_PATTERN (first_line text) = m0 :: m1 :: more ->
  item1 m1 <> "done" ->
  item1 m1 <> "talk_to_user" ->
  user_declines cfg w = false ->
  run_command cfg w (item1 m1) (argument_of text)
    (ready cfg w st text (item1 m0) (item1 m1)) = (Normal tt, st1) ->
  observation st1 = VStr s ->
  summarize w
    (summarizer_input (summarized_history st)
       (render_action (item1 m0) (item1 m1) (argument_of text)) s)
    (max_memory_item_size cfg) UPDATE_HINT = Err e ->
  is_Exception e = true ->
  summarize w
    (summarizer_input (summarized_history st)
       (render_action (item1 m0) (item1 m1) (argument_of text))
       (error_observation e))
    (max_memory_item_size cfg) UPDATE_HINT = Ok new_summary ->
  fst (iteration cfg w st) = Normal tt
  /\ observation (snd (iteration cfg w st)) = VStr (error_observation e)
  /\ memory (agent (snd (iteration cfg w st))) =
     (memory (agent st)
      ++ [new_memory_text
            (render_action (item1 m0) (item1 m1) (argument_of text))
            (error_observation e)])%list
  /\ List.length
       (filter is_summarize (events_of_pass cfg w st)) = 2.
Proof.
  intros Hp Hm Hd Ht Hdec Hrc Hobs Hfail He Hsum.
  unfold events_of_pass.
  rewrite (iteration_dispatch cfg w st text m0 m1 more Hp Hm Hd Ht Hdec).
  destruct (ready_fields cfg w st text (item1 m0) (item1 m1))
    as (Ha & _ & _ & Hs & Htr).
  set (r := ready cfg w st text (item1 m0) (item1 m1)) in *.
  pose proof (run_command_agent cfg w (item1 m1) (argument_of text) r) as Hag.
  pose proof (run_command_summary cfg w (item1 m1) (argument_of text) r) as Hsh.
  destruct (run_command_emits cfg w (item1 m1) (argument_of text) r)
    as (evs & Hevs & Hfor).
  rewrite Hrc in Hag, Hsh, Hevs. cbn [snd] in Hag, Hsh, Hevs.
  rewrite dispatch_eq, Hrc, Hobs.
  unfold summary_request. read_fields. cbn [py_str].
  unfold summarizer_input in Hfail, Hsum. rewrite Hsh, Hs, Hfail.
  unfold caught. rewrite He. unfold execution_failure_outcome.
  rewrite (update_outcome_ok cfg w _ _ _ _ new_summary).
  2:{ destruct (failed_fields e
                  (logged
                     [Summarize
                        (summarized_history st ++ nl
                         ++ new_memory_text
                              (render_action (item1 m0) (item1 m1)
                                 (argument_of text)) s)]
                     (logged [Stdout ("OBSERVATION: " ++ s)] st1)))
        as (_ & _ & -> & _).
      read_fields. rewrite Hsh, Hs. exact Hsum. }
  match goal with
  | |- context [recorded w ?a ?o ?s] =>
      destruct (recorded_fields w a o s) as (Hmem & _ & Hrobs & _ & Htrace)
  end.
  match goal with
  | |- context [failed e ?s] =>
      destruct (failed_fields e s) as (_ & Hfo & Hfs & _);
      pose proof (agent_failed e s) as Hfa;
      pose proof (trace_failed e s) as Hft
  end.
  cbn [fst snd]. rewrite Hmem, Hrobs, Htrace, Hfo, Hfa, Hft. read_fields.
  rewrite Hag, Ha, Hevs, Htr. repeat split.
  rewrite <- !app_assoc, skipn_past.
  unfold ready_events, answered_events, asking_events, debug_events,
    gate_events.
  rewrite !filter_app.
  assert (Hnone : filter is_summarize evs = []).
  { clear - Hfor. induction Hfor as [|ev evs [Hev _] _ IH]; [reflexivity|].
    cbn [filter]. destruct ev; try discriminate; exact IH. }
  rewrite Hnone.
  destruct (DEBUG cfg), (PROMPT_USER cfg),
    (contains "context length" (str e)); reflexivity.
Qed.

(** X15: outside the dispatch a failure of the summarizer is fatal.  When
    the summarizer raises while a parse failure is being recorded (line
    214), nothing is memorized and the exception leaves the loop. *)
Theorem summarizer_failure_on_parse_error_is_fatal (st : State)
    (text : string) (e : Exn) :
  predict w (agent st) (prompt_of cfg w st) = Ok text ->
  List.length (findall_PATTERN (first_line text)) < 2 ->
  summarize w
    (summarizer_input (summarized_history st) (first_line text)
       PARSE_ERROR_OBSERVATION)
    (max_memory_item_size cfg) UPDATE_HINT = Err e ->
  fst (iteration cfg w st) = Raised e
  /\ agent (snd (iteration cfg w st)) = agent st
  /\ (forall worlds i fuel, worlds i = w ->
        loop cfg worlds i (S fuel) st = (Some e, snd (iteration cfg w st))).
Proof.
  intros Hp Hlen Hsum.
  destruct (iteration_unparsed cfg w st text Hp Hlen) as (st0 & Hs & Ha & Hit).
  assert (Hrun : iteration cfg w st =
                 (Raised e,
                  logged
                    [Summarize
                       (summary_request w (first_line text)
                          (VStr PARSE_ERROR_OBSERVATION) (parse_failed st0))]
                    (parse_failed st0))).
  { rewrite Hit. unfold update_outcome, summary_request.
    change (summarized_history (parse_failed st0))
      with (summarized_history st0).
    rewrite Hs. unfold summarizer_input in Hsum. cbn [py_str].
    now rewrite Hsum. }
  rewrite Hrun. cbn [fst snd]. repeat split.
  - read_fields. unfold parse_failed. read_fields. exact Ha.
  - intros worlds i fuel <-. now apply loop_stops.
Qed.

(** X25: a failure of the summarizer in the handler of the dispatch is
    fatal.  Line 303 is inside the [except] block, outside any [try]: when
    a command handler raises an [Exception] and the summarizer raises
    while that error is being recorded, the error is printed, nothing is
    memorized, and the summarizer's exception ends the loop. *)
Theorem summarizer_failure_in_handler_is_fatal (st st1 : State)
    (text : string) (m0 m1 : groups) (more : list groups) (e e' : Exn) :
  predict w (agent st) (prompt_of cfg w st) = Ok text ->
  findall_PATTERN (first_line text) = m0 :: m1 :: more ->
  item1 m1 <> "done" ->
  item1 m1 <> "talk_to_user" ->
  user_declines cfg w = false ->
  run_command cfg w (item1 m1) (argument_of text)
    (ready cfg w st text (item1 m0) (item1 m1)) = (Raised e, st1) ->
  is_Exception e = true ->
  summarize w
    (summarizer_input (summarized_history st)
       (render_action (item1 m0) (item1 m1) (argument_of text))
       (error_observation e))
    (max_memory_item_size cfg) UPDATE_HINT = Err e' ->
  fst (iteration cfg w st) = Raised e'
  /\ agent (snd (iteration cfg w st)) = agent st
  /\ In (StdoutColored ("Execution error: " ++ str e) "red")
        (events_of_pass cfg w st)
  /\ (forall worlds i fuel, worlds i = w ->
        loop cfg worlds i (S fuel) st =
        (Some e', snd (iteration cfg w st))).
Proof.
  intros Hp Hm Hd Ht Hdec Hrc He Hsum.
  destruct (ready_fields cfg w st text (item1 m0) (item1 m1))
    as (Ha & _ & _ & Hs & Htr).
  pose proof (run_command_agent cfg w (item1 m1) (argument_of text)
                (ready cfg w st text (item1 m0) (item1 m1))) as Hag.
  pose proof (run_command_summary cfg w (item1 m1) (argument_of text)
                (ready cfg w st text (item1 m0) (item1 m1))) as Hsh.
  destruct (run_command_emits cfg w (item1 m1) (argument_of text)
              (ready cfg w st text (item1 m0) (item1 m1)))
    as (evs & Hevs & _).
  rewrite Hrc in Hag, Hsh, Hevs. cbn [snd] in Hag, Hsh, Hevs.
  destruct (failed_fields e st1) as (_ & _ & Hfs & _).
  assert (Hit : iteration cfg w st =
                (Raised e',
                 logged
                   [Summarize
                      (summary_request w
                         (render_action (item1 m0) (item1 m1)
                            (argument_of text))
                         (VStr (error_observation e)) (failed e st1))]
                   (failed e st1))).
  { rewrite (iteration_dispatch cfg w st text m0 m1 more Hp Hm Hd Ht Hdec).
    rewrite dispatch_eq, Hrc. unfold caught. rewrite He.
    unfold execution_failure_outcome, update_outcome, summary_request.
    rewrite Hfs, Hsh, Hs. unfold summarizer_input in Hsum. cbn [py_str].
    now rewrite Hsum. }
  repeat split.
  - now rewrite Hit.
  - rewrite Hit. cbn [snd]. read_fields. now rewrite agent_failed, Hag.
  - unfold events_of_pass. rewrite Hit. cbn [snd]. read_fields.
    rewrite trace_failed, Hevs, Htr, <- !app_assoc, skipn_past.
    apply in_or_app. right. apply in_or_app. right.
    apply in_or_app. right. apply in_or_app. left. now left.
  - intros worlds i fuel <-. rewrite Hit. now apply loop_stops.
Qed.

(** X9: [talk_to_user] asks once and records the reply as typed.  The
    question is printed in full, the confirmation gate is not shown even
    when it is enabled, no handler runs, and the observation is "The user
    responded with: " followed by the reply and a full stop, also for an
    empty reply. *)
Theorem talk_to_user_records_reply (st : State) (text new_summary : string)
    (m0 m1 : groups) (more : list groups) :
  predict w (agent st) (prompt_of cfg w st) = Ok text ->
  findall_PATTERN (first_line text) = m0 :: m1 :: more ->
  item1 m1 = "talk_to_user" ->
  summarize w
    (summarizer_input (summarized_history st)
       (render_action (item1 m0) "talk_to_user"
          (abbreviate (argument_of text)))
       (reply_observation (input w "Your response: ")))
    (max_memory_item_size cfg) UPDATE_HINT = Ok new_summary ->
  fst (iteration cfg w st) = Continue
  /\ observation (snd (iteration cfg w st)) =
     VStr (reply_observation (input w "Your response: "))
  /\ memory (agent (snd (iteration cfg w st))) =
     (memory (agent st)
      ++ [new_memory_text
            (render_action (item1 m0) "talk_to_user"
               (abbreviate (argument_of text)))
            (reply_observation (input w "Your response: "))])%list
  /\ events_of_pass cfg w st =
     (answered_events cfg w st text
      ++ [StdoutColored ("MiniAGI: " ++ argument_of text) "cyan";
          Input "Your response: " (input w "Your response: ");
          Summarize
            (summarizer_input (summarized_history st)
               (render_action (item1 m0) "talk_to_user"
                  (abbreviate (argument_of text)))
               (reply_observation (input w "Your response: ")));
          Memorize
            (new_memory_text
               (render_action (item1 m0) "talk_to_user"
                  (abbreviate (argument_of text)))
               (reply_observation (input w "Your response: ")))])%list.
Proof.
  intros Hp Hm Hc Hsum.
  assert (Hd : item1 m1 <> "done") by (rewrite Hc; discriminate).
  unfold events_of_pass.
  rewrite (iteration_parsed cfg w st text m0 m1 more Hp Hm Hd), act_eq, Hc.
  simpl String.eqb. cbv iota.
  destruct (parsed_fields (item1 m0) (split LF text) (answered cfg w st text))
    as (Ha & Hth & _ & Hs & Htr).
  destruct (answered_fields cfg w st text) as (Ha' & _ & _ & Hs').
  rewrite Hth.
  rewrite (update_outcome_ok cfg w _ _ _ _ new_summary)
    by (unfold talking; read_fields; rewrite Hs, Hs'; exact Hsum).
  match goal with
  | |- context [recorded w ?a ?o ?s] =>
      destruct (recorded_fields w a o s) as (Hmem & _ & Hobs & _ & Htrace)
  end.
  cbn [fst snd]. rewrite Hmem, Hobs, Htrace. unfold talking. read_fields.
  rewrite Ha, Ha', Hs, Hs', Htr, trace_answered. repeat split.
  cbn [py_str]. rewrite <- !app_assoc. apply skipn_past.
Qed.

(** X23: [read_file] records a summary of the file, not the file.  The
    content is given to the chunked summarizer with the size limit and a
    hint that names the objective; what comes back is the observation that
    is printed and recorded with the full action. *)
Theorem read_file_records_summary (st : State)
    (text content file_content new_summary : string) (m0 m1 : groups)
    (more : list groups) :
  predict w (agent st) (prompt_of cfg w st) = Ok text ->
  findall_PATTERN (first_line text) = m0 :: m1 :: more ->
  item1 m1 = "read_file" ->
  user_declines cfg w = false ->
  open_read w (argument_of text) = Ok content ->
  chunked_summarize w content (max_memory_item_size cfg)
    (SUMMARY_HINT ++ EXTRA_SUMMARY_HINT_format (objective cfg)) =
  Ok file_content ->
  summarize w
    (summarizer_input (summarized_history st)
       (render_action (item1 m0) "read_file" (argument_of text))
       file_content)
    (max_memory_item_size cfg) UPDATE_HINT = Ok new_summary ->
  fst (iteration cfg w st) = Normal tt
  /\ observation (snd (iteration cfg w st)) = VStr file_content
  /\ memory (agent (snd (iteration cfg w st))) =
     (memory (agent st)
      ++ [new_memory_text
            (render_action (item1 m0) "read_file" (argument_of text))
            file_content])%list
  /\ events_of_pass cfg w st =
     (ready_events cfg w st text (item1 m0) "read_file"
      ++ [OpenFile (argument_of text);
          ChunkedSummarize content;
          Stdout ("OBSERVATION: " ++ file_content);
          Summarize
            (summarizer_input (summarized_history st)
               (render_action (item1 m0) "read_file" (argument_of text))
               file_content);
          Memorize
            (new_memory_text
               (render_action (item1 m0) "read_file" (argument_of text))
               file_content)])%list.
Proof.
  intros Hp Hm Hc Hdec Hopen Hchunk Hsum.
  assert (Hd : item1 m1 <> "done") by (rewrite Hc; discriminate).
  assert (Ht : item1 m1 <> "talk_to_user") by (rewrite Hc; discriminate).
  unfold events_of_pass.
  rewrite (iteration_dispatch cfg w st text m0 m1 more Hp Hm Hd Ht Hdec), Hc.
  destruct (ready_fields cfg w st text (item1 m0) "read_file")
    as (Ha & _ & _ & Hs & Htr).
  set (r := ready cfg w st text (item1 m0) "read_file") in *.
  pose proof (run_command_read_file cfg w (argument_of text) r) as Hrc.
  rewrite Hopen, Hchunk in Hrc.
  rewrite (dispatch_success cfg w _ _ _ file_content new_summary _ _ Hrc)
    by (try reflexivity; read_fields; rewrite Hs; exact Hsum).
  match goal with
  | |- context [recorded w ?a ?o ?s] =>
      destruct (recorded_fields w a o s) as (Hmem & _ & Hobs & _ & Htrace)
  end.
  cbn [fst snd]. rewrite Hmem, Hobs, Htrace. read_fields.
  rewrite Ha, Hs, Htr. repeat split.
  cbn [py_str]. rewrite <- !app_assoc. apply skipn_past.
Qed.

(** X24: [web_scrape] records a summary of the text of the page.  The
    page is fetched once, its text is given to the chunked summarizer with
    the size limit and a hint that names the objective, and what comes
    back is the observation that is printed and recorded with the full
    action. *)
Theorem web_scrape_records_summary (st : State)
    (text html page response_text new_summary : string) (m0 m1 : groups)
    (more : list groups) :
  predict w (agent st) (prompt_of cfg w st) = Ok text ->
  findall_PATTERN (first_line text) = m0 :: m1 :: more ->
  item1 m1 = "web_scrape" ->
  user_declines cfg w = false ->
  urlopen_read w (argument_of text) = Ok html ->
  get_text w html = Ok page ->
  chunked_summarize w page (max_memory_item_size cfg)
    (SUMMARY_HINT ++ EXTRA_SUMMARY_HINT_format (objective cfg)) =
  Ok response_text ->
  summarize w
    (summarizer_input (summarized_history st)
       (render_action (item1 m0) "web_scrape" (argument_of text))
       response_text)
    (max_memory_item_size cfg) UPDATE_HINT = Ok new_summary ->
  fst (iteration cfg w st) = Normal tt
  /\ observation (snd (iteration cfg w st)) = VStr response_text
  /\ memory (agent (snd (iteration cfg w st))) =
     (memory (agent st)
      ++ [new_memory_text
            (render_action (item1 m0) "web_scrape" (argument_of text))
            response_text])%list
  /\ events_of_pass cfg w st =
     (ready_events cfg w st text (item1 m0) "web_scrape"
      ++ [Urlopen (argument_of text);
          ChunkedSummarize page;
          Stdout ("OBSERVATION: " ++ response_text);
          Summarize
            (summarizer_input (summarized_history st)
               (render_action (item1 m0) "web_scrape" (argument_of text))
               response_text);
          Memorize
            (new_memory_text
               (render_action (item1 m0) "web_scrape" (argument_of text))
               response_text)])%list.
Proof.
  intros Hp Hm Hc Hdec Hopen Htext Hchunk Hsum.
  assert (Hd : item1 m1 <> "done") by (rewrite Hc; discriminate).
  assert (Ht : item1 m1 <> "talk_to_user") by (rewrite Hc; discriminate).
  unfold events_of_pass.
  rewrite (iteration_dispatch cfg w st text m0 m1 more Hp Hm Hd Ht Hdec), Hc.
  destruct (ready_fields cfg w st text (item1 m0) "web_scrape")
    as (Ha & _ & _ & Hs & Htr).
  set (r := ready cfg w st text (item1 m0) "web_scrape") in *.
  pose proof (run_command_web_scrape cfg w (argument_of text) r) as Hrc.
  rewrite Hopen, Htext, Hchunk in Hrc.
  rewrite (dispatch_success cfg w _ _ _ response_text new_summary _ _ Hrc)
    by (try reflexivity; read_fields; rewrite Hs; exact Hsum).
  match goal with
  | |- context [recorded w ?a ?o ?s] =>
      destruct (recorded_fields w a o s) as (Hmem & _ & Hobs & _ & Htrace)
  end.
  cbn [fst snd]. rewrite Hmem, Hobs, Htrace. read_fields.
  rewrite Ha, Hs, Htr. repeat split.
  cbn [py_str]. rewrite <- !app_assoc. apply skipn_past.
Qed.

End Handlers.

(** ** What every pass keeps *)

Section Invariants.

Variable cfg : Config.
Variable w : World.

#[local] Arguments String.append : simpl never.

(** The branch taken, by the command. *)
Lemma run_command_cases (command arg : string) (st : State) :
  (command = "execute_python" \/ command = "execute_shell"
   \/ command = "web_search" \/ command = "web_scrape"
   \/ command = "read_file" \/ command = "done")
  \/ run_command cfg w command arg st = (Normal tt, st).
Proof.
  destruct (in_dec string_dec command KNOWN_COMMANDS) as [Hin|Hn].
  - simpl in Hin.
    destruct Hin as [<-|[<-|[<-|[<-|[<-|[<-|[<-|[]]]]]]]]; auto 10.
  - right. now apply run_command_unknown.
Qed.

(** A handler that does not return leaves [observation] as it was. *)
Lemma run_command_observation (command arg : string) (st : State) :
  match run_command cfg w command arg st with
  | (Normal _, _) => True
  | (_, st1) => observation st1 = observation st
  end.
Proof.
  destruct (run_command_cases command arg st)
    as [[Hc|[Hc|[Hc|[Hc|[Hc|Hc]]]]]|Hc]; [subst command..|now rewrite Hc].
  - rewrite run_command_execute_python. now destruct (exec w arg).
  - rewrite run_command_execute_shell.
    now destruct (subprocess_run w arg) as [[out err]|e].
  - rewrite run_command_web_search. now destruct (ddg w arg 5).
  - rewrite run_command_web_scrape.
    destruct (urlopen_read w arg) as [html|e]; [|reflexivity].
    destruct (get_text w html) as [text|e]; [|reflexivity].
    now destruct (chunked_summarize w text _ _).
  - rewrite run_command_read_file.
    destruct (open_read w arg) as [content|e]; [|reflexivity].
    now destruct (chunked_summarize w content _ _).
  - reflexivity.
Qed.

Lemma update_outcome_observation {A} (action : string) (obs : PyVal)
    (next : Res A) (st : State) :
  observation (snd (update_outcome cfg w action obs next st)) =
  observation st.
Proof. unfold update_outcome. now destruct (summarize _ _ _ _). Qed.

Lemma update_outcome_model {A} (action : string) (obs : PyVal)
    (next : Res A) (st : State) :
  model_name (agent (snd (update_outcome cfg w action obs next st))) =
  model_name (agent st).
Proof. unfold update_outcome. now destruct (summarize _ _ _ _). Qed.

Lemma caught_observation (action : string) (e : Exn) (st : State) :
  is_str (observation st) = true ->
  is_str (observation (snd (caught cfg w action e st))) = true.
Proof.
  intros H. unfold caught. destruct (is_Exception e); [|exact H].
  unfold execution_failure_outcome. rewrite update_outcome_observation.
  now destruct (failed_fields e st) as (_ & -> & _).
Qed.

Lemma caught_exception_observation (action : string) (e : Exn) (st : State) :
  is_Exception e = true ->
  is_str (observation (snd (caught cfg w action e st))) = true.
Proof.
  intros H. unfold caught. rewrite H.
  unfold execution_failure_outcome. rewrite update_outcome_observation.
  now destruct (failed_fields e st) as (_ & -> & _).
Qed.

Lemma dispatch_observation (command arg action : string) (st : State) :
  is_str (observation st) = true ->
  is_str (observation (snd (dispatch cfg w command arg action st))) = true.
Proof.
  intros H. rewrite dispatch_eq.
  pose proof (run_command_observation command arg st) as Hr.
  destruct (run_command cfg w command arg st) as [[[]|e|] st1].
  - destruct (observation st1) as [s| |rs] eqn:Ho.
    + destruct (summarize _ _ _ _) as [s'|e].
      * cbn [snd]. read_fields. now rewrite Ho.
      * apply caught_observation. read_fields. now rewrite Ho.
    + now apply caught_exception_observation.
    + now apply caught_exception_observation.
  - apply caught_observation. now rewrite Hr.
  - cbn [snd]. now rewrite Hr.
Qed.

Lemma observation_stays_str (st : State) :
  is_str (observation st) = true ->
  is_str (observation (snd (iteration cfg w st))) = true.
Proof.
  intros H. rewrite iteration_eq.
  destruct (asking_fields cfg w st) as (_ & _ & Hao & _).
  destruct (predict w (agent st) (prompt_of cfg w st)) as [text|e].
  - destruct (answered_fields cfg w st text) as (_ & _ & Ho & _).
    rewrite bind_unfold. destruct (split_first_line text) as [rest Hrest].
    rewrite Hrest, parse_response_eq.
    destruct (findall_PATTERN (first_line text)) as [|m0 [|m1 more]].
    + unfold parse_failure_outcome, update_outcome.
      destruct (summarize _ _ _ _); reflexivity.
    + unfold parse_failure_outcome, update_outcome.
      destruct (summarize _ _ _ _); reflexivity.
    + destruct (String.eqb (item1 m1) "done").
      * cbn [snd]. read_fields. now rewrite Ho.
      * cbn [fst snd]. rewrite act_eq.
        destruct (parsed_fields (item1 m0) (first_line text :: rest)
                    (answered cfg w st text)) as (_ & _ & Hpo & _).
        destruct (String.eqb (item1 m1) "talk_to_user").
        { now rewrite update_outcome_observation. }
        destruct (user_declines cfg w).
        { now rewrite update_outcome_observation. }
        apply dispatch_observation.
        destruct (gated_fields cfg w
                    (announced (item1 m1)
                       (replace "```" EmptyString (join nl rest))
                       (parsed (item1 m0) (first_line text :: rest)
                          (answered cfg w st text)))) as (_ & _ & -> & _).
        unfold announced. read_fields. now rewrite Hpo, Ho.
  - destruct (is_InvalidRequestError e);
      [destruct (contains "gpt-4" (str e))|]; cbn [snd]; read_fields;
      now rewrite Hao.
Qed.

Lemma continue_skips_rest {A B} (action : string) (obs : PyVal) (st : State)
    (k : A -> M B) :
  bind (fun s => update_outcome cfg w action obs (@Continue A) s) k st =
  update_outcome cfg w action obs Continue st.
Proof.
  rewrite bind_unfold. unfold update_outcome.
  now destruct (summarize _ _ _ _).
Qed.

Lemma same_client_refl (a : Agent) : same_client a a.
Proof. split; [reflexivity|now left]. Qed.

Lemma update_outcome_client {A} (action : string) (obs : PyVal)
    (next : Res A) (st : State) :
  same_client (agent st) (agent (snd (update_outcome cfg w action obs next st))).
Proof.
  unfold update_outcome. destruct (summarize _ _ _ _).
  - split; [reflexivity|]. right. now eexists.
  - apply same_client_refl.
Qed.

Lemma caught_client (action : string) (e : Exn) (st : State) :
  same_client (agent st) (agent (snd (caught cfg w action e st))).
Proof.
  unfold caught. destruct (is_Exception e); [|apply same_client_refl].
  unfold execution_failure_outcome.
  pose proof (update_outcome_client action (VStr (error_observation e))
                (Normal tt) (failed e st)) as H.
  now rewrite agent_failed in H.
Qed.

Lemma dispatch_client (command arg action : string) (st : State) :
  same_client (agent st)
    (agent (snd (dispatch cfg w command arg action st))).
Proof.
  rewrite dispatch_eq.
  pose proof (run_command_agent cfg w command arg st) as Hag.
  destruct (run_command cfg w command arg st) as [[[]|e|] st1];
    cbn [snd] in Hag; rewrite <- Hag.
  - destruct (observation st1) as [s| |rs].
    + destruct (summarize _ _ _ _) as [s'|e].
      * split; [reflexivity|]. right. now eexists.
      * apply (caught_client action e
                 (logged [Summarize _] (logged [Stdout _] st1))).
    + apply caught_client.
    + apply caught_client.
  - apply caught_client.
  - apply same_client_refl.
Qed.

(** A pass appends at most one entry to the history store and never
    removes or changes one, and it keeps the model, unless it takes the
    fallback to gpt-3.5-turbo, which replaces the agent. *)
Lemma store_grows_by_at_most_one (st : State) :
  falls_back cfg w st = false ->
  same_client (agent st) (agent (snd (iteration cfg w st))).
Proof.
  unfold falls_back. intros Hfb. rewrite iteration_eq.
  destruct (asking_fields cfg w st) as (Haa & _).
  destruct (predict w (agent st) (prompt_of cfg w st)) as [text|e].
  - destruct (answered_fields cfg w st text) as (Ha & _).
    rewrite bind_unfold. destruct (split_first_line text) as [rest Hrest].
    rewrite Hrest, parse_response_eq.
    destruct (findall_PATTERN (first_line text)) as [|m0 [|m1 more]].
    + unfold parse_failure_outcome.
      pose proof (continue_skips_rest (A := string * string) (first_line text)
                    (VStr PARSE_ERROR_OBSERVATION)
                    (parse_failed (answered cfg w st text))
                    (fun p => act cfg w (fst p) (snd p))) as Hk.
      rewrite bind_unfold in Hk. rewrite Hk, <- Ha.
      apply (update_outcome_client _ _ _ (parse_failed (answered cfg w st text))).
    + unfold parse_failure_outcome.
      pose proof (continue_skips_rest (A := string * string) (first_line text)
                    (VStr PARSE_ERROR_OBSERVATION)
                    (parse_failed
                       (with_thought (item1 m0) (answered cfg w st text)))
                    (fun p => act cfg w (fst p) (snd p))) as Hk.
      rewrite bind_unfold in Hk. rewrite Hk, <- Ha.
      apply (update_outcome_client _ _ _
               (parse_failed (with_thought (item1 m0) (answered cfg w st text)))).
    + destruct (String.eqb (item1 m1) "done").
      * cbn [snd]. read_fields. rewrite Ha. apply same_client_refl.
      * cbn [fst snd]. rewrite act_eq.
        destruct (parsed_fields (item1 m0) (first_line text :: rest)
                    (answered cfg w st text)) as (Hpa & _).
        rewrite Ha in Hpa.
        destruct (String.eqb (item1 m1) "talk_to_user").
        { rewrite <- Hpa.
          apply (update_outcome_client _ _ _
                   (talking w _ (parsed (item1 m0) (first_line text :: rest)
                                   (answered cfg w st text)))). }
        destruct (gated_fields cfg w
                    (announced (item1 m1)
                       (replace "```" EmptyString (join nl rest))
                       (parsed (item1 m0) (first_line text :: rest)
                          (answered cfg w st text)))) as (Hga & _).
        unfold announced in Hga at 2. read_fields in Hga. rewrite Hpa in Hga.
        destruct (user_declines cfg w).
        { rewrite <- Hga.
          apply (update_outcome_client _ _ _
                   (with_observation (VStr DECLINED_OBSERVATION) (gated cfg w _))). }
        rewrite <- Hga. apply dispatch_client.
  - destruct (is_InvalidRequestError e);
      [destruct (contains "gpt-4" (str e)); [discriminate|]|];
      cbn [snd]; read_fields; rewrite Haa; apply same_client_refl.
Qed.

Section WellBehaved.

Hypothesis Hw : well_behaved w.

Lemma update_outcome_next {A} (action : string) (obs : PyVal) (next : Res A)
    (st : State) :
  fst (update_outcome cfg w action obs next st) = next.
Proof.
  unfold update_outcome. destruct (summarize _ _ _ _) as [s|e] eqn:E;
    [reflexivity|]. now destruct (summarize_answers w Hw _ _ _ _ E).
Qed.

Lemma run_command_raises (command arg : string) (st st1 : State) (e : Exn) :
  command <> "done" ->
  run_command cfg w command arg st = (Raised e, st1) ->
  is_Exception e = true.
Proof.
  intros Hd.
  destruct (run_command_cases command arg st)
    as [[Hc|[Hc|[Hc|[Hc|[Hc|Hc]]]]]|Hc];
    [subst command..|now destruct (Hd Hc)|rewrite Hc; discriminate].
  - rewrite run_command_execute_python.
    destruct (exec w arg) as [out|e'] eqn:E; [discriminate|].
    intros H. inversion H; subst. exact (exec_raises_exceptions w Hw _ _ E).
  - rewrite run_command_execute_shell.
    destruct (subprocess_run w arg) as [[out err]|e'] eqn:E; [discriminate|].
    intros H. inversion H; subst.
    exact (subprocess_raises_exceptions w Hw _ _ E).
  - rewrite run_command_web_search.
    destruct (ddg w arg 5) as [r|e'] eqn:E; [discriminate|].
    intros H. inversion H; subst. exact (ddg_raises_exceptions w Hw _ _ _ E).
  - rewrite run_command_web_scrape.
    destruct (urlopen_read w arg) as [html|e'] eqn:E.
    + destruct (get_text w html) as [text|e''] eqn:E2.
      * destruct (chunked_summarize w text _ _) as [r|e3] eqn:E3;
          [discriminate|].
        intros H. inversion H; subst.
        exact (chunked_raises_exceptions w Hw _ _ _ _ E3).
      * intros H. inversion H; subst.
        exact (get_text_raises_exceptions w Hw _ _ E2).
    + intros H. inversion H; subst.
      exact (urlopen_raises_exceptions w Hw _ _ E).
  - rewrite run_command_read_file.
    destruct (open_read w arg) as [content|e'] eqn:E.
    + destruct (chunked_summarize w content _ _) as [r|e3] eqn:E3;
        [discriminate|].
      intros H. inversion H; subst.
      exact (chunked_raises_exceptions w Hw _ _ _ _ E3).
    + intros H. inversion H; subst.
      exact (open_raises_exceptions w Hw _ _ E).
Qed.

Lemma caught_exception_next (action : string) (e : Exn) (st : State) :
  is_Exception e = true ->
  fst (caught cfg w action e st) = Normal tt.
Proof.
  intros H. unfold caught. rewrite H. unfold execution_failure_outcome.
  apply update_outcome_next.
Qed.

Lemma dispatch_never_raises (command arg action : string) (st : State) :
  command <> "done" ->
  fst (dispatch cfg w command arg action st) = Normal tt.
Proof.
  intros Hd. rewrite dispatch_eq.
  pose proof (run_command_raises command arg st) as Hr.
  destruct (run_command cfg w command arg st) as [[[]|e|] st1] eqn:E.
  - destruct (observation st1) as [s| |rs].
    + destruct (summarize _ _ _ _) as [s'|e] eqn:Es; [reflexivity|].
      now destruct (summarize_answers w Hw _ _ _ _ Es).
    + now apply caught_exception_next.
    + now apply caught_exception_next.
  - apply caught_exception_next. exact (Hr _ _ Hd eq_refl).
  - exfalso. clear - E.
    destruct (run_command_cases command arg st)
      as [[Hc|[Hc|[Hc|[Hc|[Hc|Hc]]]]]|Hc];
      [subst command..|rewrite Hc in E; discriminate].
    + rewrite run_command_execute_python in E. now destruct (exec w arg).
    + rewrite run_command_execute_shell in E.
      now destruct (subprocess_run w arg) as [[out err]|e].
    + rewrite run_command_web_search in E. now destruct (ddg w arg 5).
    + rewrite run_command_web_scrape in E.
      destruct (urlopen_read w arg) as [html|e]; [|discriminate].
      destruct (get_text w html) as [text|e]; [|discriminate].
      now destruct (chunked_summarize w text _ _).
    + rewrite run_command_read_file in E.
      destruct (open_read w arg) as [content|e]; [|discriminate].
      now destruct (chunked_summarize w content _ _).
    + discriminate.
Qed.

(** In a well-behaved world the only exception that leaves a pass is
    [SystemExit(0)]: the model said [done], or its request was refused for
    a reason other than the model name. *)
Lemma pass_exits_with_zero (st st' : State) (e : Exn) :
  iteration cfg w st = (Raised e, st') -> e = SystemExit 0.
Proof.
  rewrite iteration_eq.
  destruct (predict w (agent st) (prompt_of cfg w st)) as [text|e'] eqn:Ep.
  - rewrite bind_unfold. destruct (split_first_line text) as [rest Hrest].
    rewrite Hrest, parse_response_eq.
    destruct (findall_PATTERN (first_line text)) as [|m0 [|m1 more]].
    + unfold parse_failure_outcome, update_outcome.
      destruct (summarize _ _ _ _) as [s|e''] eqn:Es; [discriminate|].
      now destruct (summarize_answers w Hw _ _ _ _ Es).
    + unfold parse_failure_outcome, update_outcome.
      destruct (summarize _ _ _ _) as [s|e''] eqn:Es; [discriminate|].
      now destruct (summarize_answers w Hw _ _ _ _ Es).
    + destruct (String.eqb_spec (item1 m1) "done") as [_|Hd].
      * intros H. now inversion H.
      * cbn [fst snd]. rewrite act_eq. intros H.
        apply (f_equal fst) in H. cbn [fst] in H. revert H.
        destruct (String.eqb (item1 m1) "talk_to_user").
        { rewrite update_outcome_next. discriminate. }
        destruct (user_declines cfg w).
        { rewrite update_outcome_next. discriminate. }
        rewrite (dispatch_never_raises _ _ _ _ Hd). discriminate.
  - rewrite (predict_fails_politely w Hw _ _ _ Ep).
    destruct (contains "gpt-4" (str e')); [discriminate|].
    intros H. now inversion H.
Qed.

End WellBehaved.

End Invariants.

(** X17: the history store only grows.  In a run whose model never asks for
    the fallback, after any number of passes the store is the one the run
    started with followed by at most one new entry per pass. *)
Theorem store_only_grows (cfg : Config) (worlds : nat -> World)
    (fuel i : nat) (st : State) :
  (forall j, never_falls_back (worlds j)) ->
  exists new,
    memory (agent (snd (loop cfg worlds i fuel st))) =
      (memory (agent st) ++ new)%list
    /\ List.length new <= fuel
    /\ model_name (agent (snd (loop cfg worlds i fuel st))) =
       model_name (agent st).
Proof.
  intros Hw. revert i st. induction fuel as [|fuel IH]; intros i st.
  - exists []. simpl. rewrite app_nil_r. repeat split. lia.
  - assert (Hstep : same_client (agent st)
                      (agent (snd (iteration cfg (worlds i) st)))).
    { apply store_grows_by_at_most_one. unfold falls_back.
      destruct (predict (worlds i) (agent st) (prompt_of cfg (worlds i) st))
        as [text|e] eqn:E; [reflexivity|]. exact (Hw i _ _ _ E). }
    destruct Hstep as [Hmodel Hgrow]. cbn [loop].
    destruct (iteration cfg (worlds i) st) as [[[]|e|] st1]; cbn [snd] in *.
    + destruct (IH (S i) st1) as (new & Hm & Hl & Hn).
      destruct Hgrow as [Heq|[entry Heq]]; rewrite Heq in Hm.
      * exists new. repeat split; [exact Hm|lia|congruence].
      * exists (entry :: new). rewrite <- app_assoc in Hm.
        repeat split; [exact Hm|simpl; lia|congruence].
    + destruct Hgrow as [Heq|[entry Heq]].
      * exists []. rewrite app_nil_r. repeat split; [exact Heq|simpl; lia|exact Hmodel].
      * exists [entry]. repeat split; [exact Heq|simpl; lia|exact Hmodel].
    + destruct (IH (S i) st1) as (new & Hm & Hl & Hn).
      destruct Hgrow as [Heq|[entry Heq]]; rewrite Heq in Hm.
      * exists new. repeat split; [exact Hm|lia|congruence].
      * exists (entry :: new). rewrite <- app_assoc in Hm.
        repeat split; [exact Hm|simpl; lia|congruence].
Qed.


(** X18: what can end the loop when the summarizer and the back ends
    behave.  [input], [agent.remember], [agent.memorize] and the console
    are taken to return, as everywhere in this embedding.  Then, in a run
    through well-behaved worlds, if the loop ends at all it ends with
    [SystemExit(0)]: the model said [done], or its request was refused for
    a reason other than the model name. *)
Theorem loop_exits_with_zero (cfg : Config) (worlds : nat -> World)
    (fuel i : nat) (st st' : State) (e : Exn) :
  (forall j, well_behaved (worlds j)) ->
  loop cfg worlds i fuel st = (Some e, st') ->
  e = SystemExit 0.
Proof.
  intros Hw. revert i st. induction fuel as [|fuel IH]; intros i st.
  - discriminate.
  - cbn [loop].
    destruct (iteration cfg (worlds i) st) as [[[]|e'|] st1] eqn:E.
    + apply IH.
    + intros H. inversion H; subst.
      exact (pass_exits_with_zero cfg (worlds i) (Hw i) _ _ _ E).
    + apply IH.
Qed.

(** X16: [observation] is a [str] whenever a pass begins.  From a state in
    which it is one (the initial state is), it is one after any number of
    passes: the list or [None] that the [web_search] branch stores in it
    never survives the pass, whatever the model, the user and the back ends
    do. *)
Theorem observation_is_always_str (cfg : Config) (worlds : nat -> World)
    (fuel i : nat) (st : State) :
  is_str (observation st) = true ->
  is_str (observation (snd (loop cfg worlds i fuel st))) = true.
Proof.
  revert i st. induction fuel as [|fuel IH]; intros i st H; [exact H|].
  cbn [loop]. pose proof (observation_stays_str cfg (worlds i) st H) as Hs.
  destruct (iteration cfg (worlds i) st) as [[[]|e|] st1]; cbn [snd] in *;
    auto.
Qed.

(** ** The prompt (lines 46-87 and 165-175) *)

Lemma contains_here (sub rest : string) : contains sub (sub ++ rest) = true.
Proof.
  destruct (sub ++ rest) eqn:E; cbn [contains]; rewrite <- E, prefix_app;
    reflexivity.
Qed.

Lemma contains_later (sub before rest : string) :
  contains sub rest = true -> contains sub (before ++ rest) = true.
Proof.
  intros H. induction before as [|ch before IH]; [exact H|].
  change (String ch before ++ rest) with (String ch (before ++ rest)).
  cbn [contains]. rewrite IH. apply orb_true_r.
Qed.

Lemma contains_inside (sub before after : string) :
  contains sub (before ++ sub ++ after) = true.
Proof. apply contains_later, contains_here. Qed.

Lemma contains_at_end (sub before : string) :
  contains sub (before ++ sub) = true.
Proof.
  rewrite <- (append_nil_r sub) at 2. apply contains_inside.
Qed.

Lemma join_cons2 (sep x y : string) (l : list string) :
  join sep (x :: y :: l) = x ++ sep ++ join sep (y :: l).
Proof. reflexivity. Qed.

Lemma contains_join (sep x : string) (l : list string) :
  In x l -> contains x (join sep l) = true.
Proof.
  induction l as [|y l IH]; [intros []|].
  intros [->|Hin].
  - destruct l as [|z l].
    + cbn. rewrite <- (append_nil_r x) at 2. apply contains_here.
    + rewrite join_cons2. apply contains_here.
  - destruct l as [|z l]; [destruct Hin|].
    rewrite join_cons2. apply contains_later, contains_later, IH, Hin.
Qed.

Section Prompt.

Variable cfg : Config.
Variable w : World.

(** X8: what the model is shown.  Every prompt contains the objective and
    the context as they are, and the context contains the running summary
    and every entry the agent remembered. *)
Theorem prompt_embeds_objective_and_context (st : State) :
  contains (objective cfg) (prompt_of cfg w st) = true
  /\ contains (context_of cfg w st) (prompt_of cfg w st) = true
  /\ contains (summarized_history st) (context_of cfg w st) = true
  /\ (forall entry,
        In entry (remember w (agent st) 32 true (max_context_size cfg)) ->
        contains entry (context_of cfg w st) = true).
Proof.
  repeat split.
  - unfold prompt_of, PROMPT_format. rewrite join_cons2.
    apply contains_later, contains_later. rewrite join_cons2.
    rewrite !append_assoc'. apply contains_later, contains_here.
  - unfold prompt_of, PROMPT_format. apply contains_join.
    simpl. tauto.
  - unfold context_of. apply contains_later, contains_later, contains_here.
  - intros entry Hin. unfold context_of.
    do 6 apply contains_later. now apply contains_join.
Qed.

(** X3: the argument of every parsed action is free of code fences.
    Whatever the response, when the parser returns an action its argument
    does not contain three backticks in a row. *)
Theorem parsed_argument_has_no_fence (res_lines : list string)
    (st st' : State) (command arg : string) :
  parse_response cfg w res_lines st = (Normal (command, arg), st') ->
  contains FENCE arg = false.
Proof.
  destruct res_lines as [|line0 rest].
  - unfold parse_response. rewrite try_except_unfold. run_py. discriminate.
  - rewrite parse_response_eq.
    destruct (findall_PATTERN line0) as [|m0 [|m1 more]].
    + unfold parse_failure_outcome, update_outcome.
      destruct (summarize _ _ _ _); discriminate.
    + unfold parse_failure_outcome, update_outcome.
      destruct (summarize _ _ _ _); discriminate.
    + destruct (String.eqb (item1 m1) "done"); [discriminate|].
      intros H. inversion H; subst.
      apply (unfence_clean_upto _ _ (le_n _)).
Qed.

End Prompt.

(** ** The properties at work *)

Lemma mandatory_format_is_read_back_witness :
  fst (parse_response (Demo.cfg false) (Demo.answering Demo.no_tags)
         (split LF (formatted "list files" "execute_shell" "ls"))
         (Demo.start false (Demo.answering Demo.no_tags))) =
  Normal ("execute_shell", "ls").
Proof.
  destruct (mandatory_format_is_read_back (Demo.cfg false)
              (Demo.answering Demo.no_tags)
              "list files" "execute_shell" "ls"
              (Demo.start false (Demo.answering Demo.no_tags)))
    as (H & _).
  - reflexivity.
  - reflexivity.
  - discriminate.
  - reflexivity.
  - exact H.
Defined.

Lemma matches_are_tag_pairs_witness :
  exists before after,
    "see <c>why not</c><r>web_search</c>" =
    before ++ tagged "r" "web_search" "c" ++ after.
Proof.
  destruct (matches_are_tag_pairs "see <c>why not</c><r>web_search</c>"
              ("r", "web_search", "c")) as (_ & _ & _ & H).
  - vm_compute. auto.
  - exact H.
Defined.

Lemma parsed_argument_has_no_fence_witness :
  contains FENCE (nl ++ "print('hello')" ++ nl) = false.
Proof.
  apply (parsed_argument_has_no_fence Scripted.cfg
           (Demo.answering Scripted.run_python)
           (split LF Scripted.run_python)
           (Scripted.start (Demo.answering Scripted.run_python))
           (snd (parse_response Scripted.cfg
                   (Demo.answering Scripted.run_python)
                   (split LF Scripted.run_python)
                   (Scripted.start (Demo.answering Scripted.run_python))))
           "execute_python").
  vm_compute. reflexivity.
Defined.

Lemma abbreviate_short_one_line_witness :
  render_action "list files" "execute_shell" (abbreviate "ls -la") =
  render_action "list files" "execute_shell" "ls -la".
Proof.
  apply abbreviate_short_one_line.
  - simpl. lia.
  - reflexivity.
Defined.

Lemma abbreviate_exactly_64_witness :
  abbreviate
    "0123456789012345678901234567890123456789012345678901234567890123" =
  replace nl ESCAPED_NL
    "0123456789012345678901234567890123456789012345678901234567890123"
  ++ "...".
Proof. apply abbreviate_exactly_64. reflexivity. Defined.

Lemma talk_to_user_records_reply_witness :
  observation
    (snd (iteration (Demo.cfg true)
            (Demo.world (Ok Demo.ask_user) "in src" (Ok None))
            (Demo.start true (Demo.answering Demo.ask_user)))) =
  VStr (reply_observation "in src").
Proof.
  destruct (talk_to_user_records_reply (Demo.cfg true)
              (Demo.world (Ok Demo.ask_user) "in src" (Ok None))
              (Demo.start true (Demo.answering Demo.ask_user))
              Demo.ask_user "S"
              ("r", "need help", "r") ("c", "talk_to_user", "c") [])
    as (_ & H & _).
  - reflexivity.
  - vm_compute. reflexivity.
  - reflexivity.
  - reflexivity.
  - vm_compute in H. vm_compute. exact H.
Defined.

Lemma shell_stderr_is_not_a_failure_witness :
  fst (iteration Scripted.cfg
         (Scripted.world Scripted.run_shell Scripted.grumbling
            Scripted.printing Scripted.summing)
         (Scripted.start
            (Scripted.world Scripted.run_shell Scripted.grumbling
               Scripted.printing Scripted.summing))) = Normal tt
  /\ observation
       (snd (iteration Scripted.cfg
               (Scripted.world Scripted.run_shell Scripted.grumbling
                  Scripted.printing Scripted.summing)
               (Scripted.start
                  (Scripted.world Scripted.run_shell Scripted.grumbling
                     Scripted.printing Scripted.summing)))) =
     VStr (shell_observation "out" "warning").
Proof.
  destruct (shell_stderr_is_not_a_failure Scripted.cfg
              (Scripted.world Scripted.run_shell Scripted.grumbling
                 Scripted.printing Scripted.summing)
              (Scripted.start
                 (Scripted.world Scripted.run_shell Scripted.grumbling
                    Scripted.printing Scripted.summing))
              Scripted.run_shell "out" "warning" "S"
              ("r", "list files", "r") ("c", "execute_shell", "c") [])
    as (H1 & H2 & _).
  - reflexivity.
  - vm_compute. reflexivity.
  - reflexivity.
  - reflexivity.
  - reflexivity.
  - reflexivity.
  - split; [exact H1|exact H2].
Defined.

Lemma handler_result_is_recorded_witness :
  fst (iteration Scripted.cfg
         (Scripted.world Scripted.run_python Scripted.grumbling
            Scripted.printing Scripted.summing)
         (Scripted.start
            (Scripted.world Scripted.run_python Scripted.grumbling
               Scripted.printing Scripted.summing))) = Normal tt
  /\ observation
       (snd (iteration Scripted.cfg
               (Scripted.world Scripted.run_python Scripted.grumbling
                  Scripted.printing Scripted.summing)
               (Scripted.start
                  (Scripted.world Scripted.run_python Scripted.grumbling
                     Scripted.printing Scripted.summing)))) = VStr "hello".
Proof.
  pose proof (fun st1 =>
             handler_result_is_recorded Scripted.cfg
               (Scripted.world Scripted.run_python Scripted.grumbling
                  Scripted.printing Scripted.summing)
               (Scripted.start
                  (Scripted.world Scripted.run_python Scripted.grumbling
                     Scripted.printing Scripted.summing))
               st1 Scripted.run_python "hello" "S"
               ("r", "greet", "r") ("c", "execute_python", "c") []) as Hthm.
  edestruct Hthm as (H1 & H2 & _).
  - reflexivity.
  - vm_compute. reflexivity.
  - discriminate.
  - discriminate.
  - reflexivity.
  - vm_compute. reflexivity.
  - reflexivity.
  - reflexivity.
  - split; [exact H1|exact H2].
Defined.

Lemma handler_exception_is_recorded_witness :
  fst (iteration Scripted.cfg
         (Scripted.world Scripted.read_notes Scripted.grumbling
            Scripted.printing Scripted.summing)
         (Scripted.start
            (Scripted.world Scripted.read_notes Scripted.grumbling
               Scripted.printing Scripted.summing))) = Normal tt
  /\ observation
       (snd (iteration Scripted.cfg
               (Scripted.world Scripted.read_notes Scripted.grumbling
                  Scripted.printing Scripted.summing)
               (Scripted.start
                  (Scripted.world Scripted.read_notes Scripted.grumbling
                     Scripted.printing Scripted.summing)))) =
     VStr (error_observation (PyException OtherError "No such file")).
Proof.
  pose proof (fun st1 =>
             handler_exception_is_recorded Scripted.cfg
               (Scripted.world Scripted.read_notes Scripted.grumbling
                  Scripted.printing Scripted.summing)
               (Scripted.start
                  (Scripted.world Scripted.read_notes Scripted.grumbling
                     Scripted.printing Scripted.summing))
               st1 Scripted.read_notes "S"
               ("r", "look at the notes", "r") ("c", "read_file", "c") []
               (PyException OtherError "No such file")) as Hthm.
  edestruct Hthm as (H1 & H2 & _).
  - reflexivity.
  - vm_compute. reflexivity.
  - discriminate.
  - discriminate.
  - reflexivity.
  - vm_compute. reflexivity.
  - reflexivity.
  - reflexivity.
  - split; [exact H1|exact H2].
Defined.

Lemma handler_exit_ends_the_loop_witness :
  fst (loop Scripted.cfg
         (fun _ =>
            Scripted.world Scripted.run_python Scripted.grumbling
              Scripted.exiting Scripted.summing)
         0 1
         (Scripted.start
            (Scripted.world Scripted.run_python Scripted.grumbling
               Scripted.exiting Scripted.summing))) =
  Some (SystemExit 3).
Proof.
  pose proof (fun st1 =>
             handler_exit_ends_the_loop Scripted.cfg
               (Scripted.world Scripted.run_python Scripted.grumbling
                  Scripted.exiting Scripted.summing)
               (Scripted.start
                  (Scripted.world Scripted.run_python Scripted.grumbling
                     Scripted.exiting Scripted.summing))
               st1 Scripted.run_python
               ("r", "greet", "r") ("c", "execute_python", "c") []
               (SystemExit 3)) as Hthm.
  edestruct Hthm as (_ & _ & _ & H).
  - reflexivity.
  - vm_compute. reflexivity.
  - discriminate.
  - discriminate.
  - reflexivity.
  - vm_compute. reflexivity.
  - reflexivity.
  - rewrite (H (fun _ =>
                  Scripted.world Scripted.run_python Scripted.grumbling
                    Scripted.exiting Scripted.summing) 0 0 eq_refl).
    reflexivity.
Defined.

Lemma summarizer_failure_replaces_observation_witness :
  observation
    (snd (iteration Scripted.cfg
            (Scripted.world Scripted.run_python Scripted.grumbling
               Scripted.printing Scripted.picky)
            (Scripted.start
               (Scripted.world Scripted.run_python Scripted.grumbling
                  Scripted.printing Scripted.picky)))) =
  VStr (error_observation (PyException OtherError "rate limit")).
Proof.
  pose proof (fun st1 =>
             summarizer_failure_replaces_observation Scripted.cfg
               (Scripted.world Scripted.run_python Scripted.grumbling
                  Scripted.printing Scripted.picky)
               (Scripted.start
                  (Scripted.world Scripted.run_python Scripted.grumbling
                     Scripted.printing Scripted.picky))
               st1 Scripted.run_python "hello" "S"
               ("r", "greet", "r") ("c", "execute_python", "c") []
               (PyException OtherError "rate limit")) as Hthm.
  edestruct Hthm as (_ & H & _).
  - reflexivity.
  - vm_compute. reflexivity.
  - discriminate.
  - discriminate.
  - reflexivity.
  - vm_compute. reflexivity.
  - reflexivity.
  - vm_compute. reflexivity.
  - reflexivity.
  - vm_compute. reflexivity.
  - exact H.
Defined.

Lemma summarizer_failure_on_parse_error_is_fatal_witness :
  fst (iteration Scripted.cfg
         (Scripted.world Demo.no_tags Scripted.grumbling Scripted.printing
            Scripted.down)
         (Scripted.start
            (Scripted.world Demo.no_tags Scripted.grumbling
               Scripted.printing Scripted.down))) =
  Raised (PyException OtherError "rate limit").
Proof.
  destruct (summarizer_failure_on_parse_error_is_fatal Scripted.cfg
              (Scripted.world Demo.no_tags Scripted.grumbling
                 Scripted.printing Scripted.down)
              (Scripted.start
                 (Scripted.world Demo.no_tags Scripted.grumbling
                    Scripted.printing Scripted.down))
              Demo.no_tags (PyException OtherError "rate limit"))
    as (H & _).
  - reflexivity.
  - vm_compute. lia.
  - reflexivity.
  - exact H.
Defined.

Lemma observation_is_always_str_witness :
  is_str
    (observation
       (snd (loop (Demo.cfg false)
               (fun _ => Demo.answering Demo.search_cookies) 0 3
               (Demo.start false (Demo.answering Demo.search_cookies))))) =
  true.
Proof.
  apply (observation_is_always_str (Demo.cfg false)
           (fun _ => Demo.answering Demo.search_cookies) 3 0
           (Demo.start false (Demo.answering Demo.search_cookies))).
  reflexivity.
Defined.

Lemma store_only_grows_witness :
  exists new,
    memory
      (agent
         (snd (loop (Demo.cfg false)
                 (fun _ => Demo.answering Demo.unknown_command) 0 2
                 (Demo.start false (Demo.answering Demo.unknown_command))))) =
    (memory
       (agent (Demo.start false (Demo.answering Demo.unknown_command)))
     ++ new)%list
    /\ List.length new <= 2
    /\ model_name
         (agent
            (snd (loop (Demo.cfg false)
                    (fun _ => Demo.answering Demo.unknown_command) 0 2
                    (Demo.start false
                       (Demo.answering Demo.unknown_command))))) =
       model_name
         (agent (Demo.start false (Demo.answering Demo.unknown_command))).
Proof.
  apply (store_only_grows (Demo.cfg false)
           (fun _ => Demo.answering Demo.unknown_command) 2 0
           (Demo.start false (Demo.answering Demo.unknown_command))).
  intros j a prompt e H. simpl in H. discriminate.
Defined.

Lemma answering_well_behaved (text : string) :
  well_behaved (Demo.answering text).
Proof.
  constructor; simpl; intros; try discriminate.
  match goal with
  | H : Err _ = Err _ |- _ => inversion H; reflexivity
  end.
Qed.

Lemma loop_exits_with_zero_witness :
  loop (Demo.cfg false) (fun _ => Demo.answering Demo.finished) 0 1
    (Demo.start false (Demo.answering Demo.finished)) =
  (Some (SystemExit 0),
   snd (loop (Demo.cfg false) (fun _ => Demo.answering Demo.finished) 0 1
          (Demo.start false (Demo.answering Demo.finished))))
  /\ SystemExit 0 = SystemExit 0.
Proof.
  split.
  - vm_compute. reflexivity.
  - apply (loop_exits_with_zero (Demo.cfg false)
             (fun _ => Demo.answering Demo.finished) 1 0
             (Demo.start false (Demo.answering Demo.finished))
             (snd (loop (Demo.cfg false)
                     (fun _ => Demo.answering Demo.finished) 0 1
                     (Demo.start false (Demo.answering Demo.finished))))
             (SystemExit 0)).
    + intros j. apply answering_well_behaved.
    + vm_compute. reflexivity.
Defined.

Lemma summarizer_failure_in_handler_is_fatal_witness :
  fst (loop Scripted.cfg
         (fun _ =>
            Scripted.world Scripted.read_notes Scripted.grumbling
              Scripted.printing Scripted.down)
         0 1
         (Scripted.start
            (Scripted.world Scripted.read_notes Scripted.grumbling
               Scripted.printing Scripted.down))) =
  Some (PyException OtherError "rate limit").
Proof.
  pose proof (fun st1 =>
             summarizer_failure_in_handler_is_fatal Scripted.cfg
               (Scripted.world Scripted.read_notes Scripted.grumbling
                  Scripted.printing Scripted.down)
               (Scripted.start
                  (Scripted.world Scripted.read_notes Scripted.grumbling
                     Scripted.printing Scripted.down))
               st1 Scripted.read_notes
               ("r", "look at the notes", "r") ("c", "read_file", "c") []
               (PyException OtherError "No such file")
               (PyException OtherError "rate limit")) as Hthm.
  edestruct Hthm as (_ & _ & _ & H).
  - reflexivity.
  - vm_compute. reflexivity.
  - discriminate.
  - discriminate.
  - reflexivity.
  - vm_compute. reflexivity.
  - reflexivity.
  - reflexivity.
  - rewrite (H (fun _ =>
                  Scripted.world Scripted.read_notes Scripted.grumbling
                    Scripted.printing Scripted.down) 0 0 eq_refl).
    reflexivity.
Defined.

Lemma read_file_records_summary_witness :
  observation
    (snd (iteration Scripted.cfg
            (Scripted.with_files "milk, eggs"
               (Demo.answering Scripted.read_notes))
            (Scripted.start
               (Scripted.with_files "milk, eggs"
                  (Demo.answering Scripted.read_notes))))) =
  VStr "summary of milk, eggs".
Proof.
  destruct (read_file_records_summary Scripted.cfg
              (Scripted.with_files "milk, eggs"
                 (Demo.answering Scripted.read_notes))
              (Scripted.start
                 (Scripted.with_files "milk, eggs"
                    (Demo.answering Scripted.read_notes)))
              Scripted.read_notes "milk, eggs" "summary of milk, eggs" "S"
              ("r", "look at the notes", "r") ("c", "read_file", "c") [])
    as (_ & H & _).
  - reflexivity.
  - vm_compute. reflexivity.
  - reflexivity.
  - reflexivity.
  - reflexivity.
  - reflexivity.
  - reflexivity.
  - exact H.
Defined.

Lemma web_scrape_records_summary_witness :
  observation
    (snd (iteration Scripted.cfg
            (Scripted.with_files "milk, eggs" (Demo.answering Scripted.scrape))
            (Scripted.start
               (Scripted.with_files "milk, eggs"
                  (Demo.answering Scripted.scrape))))) =
  VStr "summary of page".
Proof.
  destruct (web_scrape_records_summary Scripted.cfg
              (Scripted.with_files "milk, eggs"
                 (Demo.answering Scripted.scrape))
              (Scripted.start
                 (Scripted.with_files "milk, eggs"
                    (Demo.answering Scripted.scrape)))
              Scripted.scrape "<html>page</html>" "page" "summary of page"
              "S"
              ("r", "read the page", "r") ("c", "web_scrape", "c") [])
    as (_ & H & _).
  - reflexivity.
  - vm_compute. reflexivity.
  - reflexivity.
  - reflexivity.
  - reflexivity.
  - reflexivity.
  - reflexivity.
  - reflexivity.
  - exact H.
Defined.

(** ** Start-up *)

Lemma choose_work_dir_events (env : Env) (ev : StartEvent) :
  In ev (fst (choose_work_dir env)) ->
  ev = MakeDirs (path_join env (home env) "miniagi")
  /\ unset (getenv env "WORK_DIR") = true
  /\ path_exists env (path_join env (home env) "miniagi") = false.
Proof.
  unfold choose_work_dir.
  assert (Hdefault :
            unset (getenv env "WORK_DIR") = true ->
            In ev
              (fst (if negb (path_exists env (path_join env (home env) "miniagi"))
                    then
                      match makedirs env (path_join env (home env) "miniagi")
                      with
                      | Ok _ =>
                          ([MakeDirs (path_join env (home env) "miniagi")],
                           Ok (path_join env (home env) "miniagi"))
                      | Err e =>
                          ([MakeDirs (path_join env (home env) "miniagi")],
                           Err e)
                      end
                    else ([], Ok (path_join env (home env) "miniagi")))) ->
            ev = MakeDirs (path_join env (home env) "miniagi")
            /\ unset (getenv env "WORK_DIR") = true
            /\ path_exists env (path_join env (home env) "miniagi") = false).
  { intros Hu.
    destruct (path_exists env (path_join env (home env) "miniagi"));
      cbn [negb]; [intros []|].
    destruct (makedirs env (path_join env (home env) "miniagi"));
      intros [<- |[]]; auto. }
  destruct (getenv env "WORK_DIR") as [d|]; [|now apply Hdefault].
  cbn [unset] in *. destruct (String.eqb d EmptyString);
    [now apply Hdefault|intros []].
Qed.

Lemma enter_events (env : Env) (work_dir : string) (ev : StartEvent) :
  In ev (fst (enter env work_dir)) ->
  ev = Console ("Working directory is " ++ work_dir)
  \/ ev = ChDir work_dir
  \/ ev = Console NO_DIRECTORY.
Proof.
  unfold enter. destruct (chdir env work_dir); simpl; intuition auto.
Qed.

(** The events of a start-up that got past the command line and the two
    sizes. *)
Lemma startup_events (env : Env) (ev : StartEvent) :
  In ev (fst (startup env)) ->
  touches_files ev = true ->
  List.length (argv env) = 2
  /\ (exists n, py_int env (getenv env "MAX_CONTEXT_SIZE") = Ok n)
  /\ (exists m, py_int env (getenv env "MAX_MEMORY_ITEM_SIZE") = Ok m)
  /\ (In ev (fst (choose_work_dir env))
      \/ exists work_dir,
           snd (choose_work_dir env) = Ok work_dir /\ ev = ChDir work_dir).
Proof.
  unfold startup.
  destruct (Nat.eqb_spec (List.length (argv env)) 2) as [Hlen|_]; cbn [negb].
  2:{ simpl. intros [<- |[<- |[<- |[]]]]; discriminate. }
  destruct (nth_error (argv env) 1) as [objective|].
  2:{ simpl. intros [<- |[<- |[]]]; discriminate. }
  destruct (py_int env (getenv env "MAX_CONTEXT_SIZE")) as [n|e].
  2:{ simpl. intros [<- |[<- |[]]]; discriminate. }
  destruct (py_int env (getenv env "MAX_MEMORY_ITEM_SIZE")) as [m|e].
  2:{ simpl. intros [<- |[<- |[]]]; discriminate. }
  destruct (choose_work_dir env) as [made [work_dir|e]].
  - pose proof (enter_events env work_dir ev) as He.
    destruct (enter env work_dir) as [entered [[]|e]]; cbn [fst snd] in *;
      intros Hin Ht; (split; [exact Hlen|]); (split; [now exists n|]);
      (split; [now exists m|]);
      (apply in_app_or in Hin as [Hin|Hin];
       [simpl in Hin; destruct Hin as [<- |[<- |[]]]; discriminate|]);
      (apply in_app_or in Hin as [Hin|Hin]; [now left|]);
      right; exists work_dir; (split; [reflexivity|]);
      destruct (He Hin) as [-> | [-> | ->]]; try discriminate; reflexivity.
  - cbn [fst snd]. intros Hin Ht. split; [exact Hlen|].
    split; [now exists n|]. split; [now exists m|].
    apply in_app_or in Hin as [Hin|Hin]; [|now left].
    simpl in Hin. destruct Hin as [<- |[<- |[]]]; discriminate.
Qed.

(** X19: only the default directory is ever created.  A directory is made
    only when [WORK_DIR] is unset or empty, and then it is [miniagi] under
    the home directory and did not exist; a directory named by [WORK_DIR]
    is never created. *)
Theorem startup_creates_only_default (env : Env) (p : string) :
  In (MakeDirs p) (fst (startup env)) ->
  unset (getenv env "WORK_DIR") = true
  /\ p = path_join env (home env) "miniagi"
  /\ path_exists env p = false.
Proof.
  intros Hin.
  destruct (startup_events env _ Hin eq_refl)
    as (_ & _ & _ & [Hc|(d & _ & Hd)]); [|discriminate].
  destruct (choose_work_dir_events env _ Hc) as (Heq & Hu & Hex).
  inversion Heq; subst. auto.
Qed.

Lemma startup_creates_only_default_witness :
  unset (getenv (DemoEnv.env ["miniagi.py"; "say hello"] None []) "WORK_DIR")
  = true
  /\ path_exists (DemoEnv.env ["miniagi.py"; "say hello"] None [])
       "/home/user/miniagi" = false.
Proof.
  pose proof (startup_creates_only_default
                (DemoEnv.env ["miniagi.py"; "say hello"] None [])
                "/home/user/miniagi") as H.
  destruct H as (H1 & _ & H3).
  - vm_compute. auto.
  - split; [exact H1|exact H3].
Defined.

(** X20: nothing is done to the file system before the command line and
    the two size settings were accepted.  If start-up creates or enters a
    directory at all, the script was given exactly one argument and both
    [MAX_CONTEXT_SIZE] and [MAX_MEMORY_ITEM_SIZE] were read as integers. *)
Theorem startup_checks_before_files (env : Env) (ev : StartEvent) :
  In ev (fst (startup env)) ->
  touches_files ev = true ->
  List.length (argv env) = 2
  /\ (exists n, py_int env (getenv env "MAX_CONTEXT_SIZE") = Ok n)
  /\ (exists m, py_int env (getenv env "MAX_MEMORY_ITEM_SIZE") = Ok m).
Proof.
  intros Hin Ht. destruct (startup_events env ev Hin Ht) as (H1 & H2 & H3 & _).
  auto.
Qed.

Lemma startup_checks_before_files_witness :
  List.length (argv (DemoEnv.env ["miniagi.py"; "say hello"] (Some "/srv") []))
  = 2.
Proof.
  pose proof (startup_checks_before_files
                (DemoEnv.env ["miniagi.py"; "say hello"] (Some "/srv") [])
                (ChDir "/srv")) as H.
  destruct H as (H1 & _).
  - vm_compute. auto.
  - reflexivity.
  - exact H1.
Defined.

(** X21: a configured working directory that does not exist ends the
    program: the script announces the directory, prints the advice about
    [WORK_DIR] and exits with code 0, without creating anything. *)
Theorem startup_missing_work_dir (env : Env) (dir : string) (n m : Z) :
  List.length (argv env) = 2 ->
  py_int env (getenv env "MAX_CONTEXT_SIZE") = Ok n ->
  py_int env (getenv env "MAX_MEMORY_ITEM_SIZE") = Ok m ->
  getenv env "WORK_DIR" = Some dir ->
  dir <> EmptyString ->
  chdir env dir = FileNotFound ->
  startup env =
  ([NewThinkGPT (getenv env "MODEL");
    NewThinkGPT (getenv env "SUMMARIZER_MODEL");
    Console ("Working directory is " ++ dir);
    ChDir dir;
    Console NO_DIRECTORY],
   Ended (SystemExit 0)).
Proof.
  intros Hl Hn Hm Hd Hne Hc. unfold startup.
  rewrite Hl, Hn, Hm. cbn [Nat.eqb negb].
  destruct (argv env) as [|a0 [|a1 [|a2 rest]]]; try discriminate.
  cbn [nth_error]. unfold choose_work_dir. rewrite Hd.
  apply String.eqb_neq in Hne. rewrite Hne.
  unfold enter. now rewrite Hc.
Qed.

Lemma startup_missing_work_dir_witness :
  startup (DemoEnv.env ["miniagi.py"; "say hello"] (Some "/srv") []) =
  ([NewThinkGPT (Some "gpt-4");
    NewThinkGPT None;
    Console "Working directory is /srv";
    ChDir "/srv";
    Console NO_DIRECTORY],
   Ended (SystemExit 0)).
Proof.
  apply (startup_missing_work_dir
           (DemoEnv.env ["miniagi.py"; "say hello"] (Some "/srv") [])
           "/srv" 4000%Z 2000%Z);
    try reflexivity. discriminate.
Defined.

(** X22: when start-up succeeds, the loop starts in the directory that was
    entered: the one named by [WORK_DIR] when that is set and not empty,
    [miniagi] under the home directory otherwise; the objective is the one
    command-line argument, and the two sizes are the integers read from
    the configuration. *)
Theorem startup_running (env : Env) (l : Launch) (evs : list StartEvent) :
  startup env = (evs, Running l) ->
  argv env = [List.hd EmptyString (argv env); launch_objective l]
  /\ chdir env (launch_work_dir l) = Changed
  /\ launch_work_dir l =
     (if unset (getenv env "WORK_DIR")
      then path_join env (home env) "miniagi"
      else match getenv env "WORK_DIR" with
           | Some d => d
           | None => EmptyString
           end)
  /\ py_int env (getenv env "MAX_CONTEXT_SIZE") =
     Ok (launch_max_context_size l)
  /\ py_int env (getenv env "MAX_MEMORY_ITEM_SIZE") =
     Ok (launch_max_memory_item_size l).
Proof.
  unfold startup.
  destruct (Nat.eqb_spec (List.length (argv env)) 2) as [Hlen|_];
    [|discriminate]. cbn [negb].
  destruct (argv env) as [|a0 [|a1 [|a2 rest]]]; try discriminate.
  cbn [nth_error].
  destruct (py_int env (getenv env "MAX_CONTEXT_SIZE")) as [n|e];
    [|discriminate].
  destruct (py_int env (getenv env "MAX_MEMORY_ITEM_SIZE")) as [m|e];
    [|discriminate].
  assert (Hdir : forall made work_dir,
            choose_work_dir env = (made, Ok work_dir) ->
            work_dir =
            (if unset (getenv env "WORK_DIR")
             then path_join env (home env) "miniagi"
             else match getenv env "WORK_DIR" with
                  | Some d => d
                  | None => EmptyString
                  end)).
  { intros made work_dir. unfold choose_work_dir.
    assert (Hdefault : forall r : list StartEvent * Result string,
              r = (if negb (path_exists env (path_join env (home env) "miniagi"))
                   then
                     match makedirs env (path_join env (home env) "miniagi")
                     with
                     | Ok _ =>
                         ([MakeDirs (path_join env (home env) "miniagi")],
                          Ok (path_join env (home env) "miniagi"))
                     | Err e =>
                         ([MakeDirs (path_join env (home env) "miniagi")],
                          Err e)
                     end
                   else ([], Ok (path_join env (home env) "miniagi"))) ->
              r = (made, Ok work_dir) ->
              work_dir = path_join env (home env) "miniagi").
    { intros r ->.
      destruct (path_exists env (path_join env (home env) "miniagi"));
        cbn [negb].
      - intros H. now inversion H.
      - destruct (makedirs env (path_join env (home env) "miniagi"));
          intros H; now inversion H. }
    destruct (getenv env "WORK_DIR") as [d|]; cbn [unset].
    - destruct (String.eqb d EmptyString).
      + now apply Hdefault.
      + intros H. now inversion H.
    - now apply Hdefault. }
  destruct (choose_work_dir env) as [made [work_dir|e]]; [|discriminate].
  specialize (Hdir made work_dir eq_refl).
  unfold enter. destruct (chdir env work_dir) eqn:Ec; try discriminate.
  intros H. inversion H; subst l evs. cbn [launch_work_dir launch_objective
    launch_max_context_size launch_max_memory_item_size hd].
  repeat split; assumption.
Qed.

Lemma startup_running_witness :
  launch_work_dir
    (mkLaunch "say hello" 4000 2000 "/home/user/miniagi") =
  "/home/user/miniagi"
  /\ chdir (DemoEnv.env ["miniagi.py"; "say hello"] (Some EmptyString)
              ["/home/user/miniagi"]) "/home/user/miniagi" = Changed.
Proof.
  pose proof (startup_running
                (DemoEnv.env ["miniagi.py"; "say hello"] (Some EmptyString)
                   ["/home/user/miniagi"])
                (mkLaunch "say hello" 4000 2000 "/home/user/miniagi")
                _ eq_refl) as H.
  destruct H as (_ & H2 & H3 & _). split; [exact H3|exact H2].
Defined.
